(** * Open Chat Studio: channel orchestrator and LLM runnable pipeline

    A shallow embedding of [apps/chat/channels.py] (the [ChannelBase]
    message handler and its platform subclasses) and of
    [apps/service_providers/llm_service/runnables.py] (the experiment
    runnables), followed by the properties proved about them.

    Conventions of the embedding:
    - a Python [str] is a [string]; one character stands for one code point
      below 256;
    - database tables are lists in insertion order; a row is addressed by
      its primary key;
    - code that raises is a computation in the monad [M], whose result is
      either a value or the exception raised, together with the store as it
      was when the exception left the function;
    - calls that leave the process (the messaging transport, the LLM
      provider, the clock, rows written by other actors) are read from an
      environment and recorded in a trace of events. *)

From Stdlib Require Import String Ascii List Bool Arith ZArith QArith Lia.
Import ListNotations.
Local Close Scope Q_scope.
Local Open Scope nat_scope.
Local Open Scope list_scope.
Local Open Scope string_scope.

(** ** Python built-ins used by the source *)

Module Py.

(** [bool(s)] for a string: the empty string is falsy. *)
Definition truthy (s : string) : bool := negb (s =? "").

(** [x or ""] for an optional string. *)
Definition or_empty (x : option string) : string :=
match x with Some s => s | None => "" end.

(** [str.isspace] on one code point below 256. *)
Definition isspace (c : ascii) : bool :=
let n := nat_of_ascii c in
(((9 <=? n) && (n <=? 13)) || ((28 <=? n) && (n <=? 32))
 || (n =? 133) || (n =? 160))%nat.

Fixpoint lstrip (s : string) : string :=
match s with
| String c r => if isspace c then lstrip r else s
| EmptyString => EmptyString
end.

Fixpoint rstrip (s : string) : string :=
match s with
| EmptyString => EmptyString
| String c r =>
    let r' := rstrip r in
    if isspace c && (r' =? "") then EmptyString else String c r'
end.

(** [str.strip()] with no argument. *)
Definition strip (s : string) : string := rstrip (lstrip s).

(** Every character of [s] is whitespace. *)
Fixpoint all_space (s : string) : bool :=
match s with
| EmptyString => true
| String c r => isspace c && all_space r
end.

(** [prefix p s]: the rest of [s] after the literal [p], if [s] starts
    with it. *)
Fixpoint strip_prefix (p s : string) : option string :=
match p, s with
| EmptyString, _ => Some s
| String a p', String b s' => if Ascii.eqb a b then strip_prefix p' s' else None
| String _ _, EmptyString => None
end.

(** [needle in s]. *)
Fixpoint contains (needle s : string) : bool :=
match strip_prefix needle s with
| Some _ => true
| None => match s with
          | EmptyString => false
          | String _ r => contains needle r
          end
end.

(** Lookup in keyword arguments. *)
Fixpoint kwarg (name : string) (kw : list (string * string)) : option string :=
match kw with
| [] => None
| (k, v) :: rest => if k =? name then Some v else kwarg name rest
end.

Definition is_brace (c : ascii) : bool :=
Ascii.eqb c "{" || Ascii.eqb c "}".

(** A character that ends a plain field name inside a replacement field:
    conversions, format specs, attribute and index access are outside the
    fragment of [str.format] the source relies on. *)
Definition is_field_special (c : ascii) : bool :=
Ascii.eqb c "!" || Ascii.eqb c ":" || Ascii.eqb c "." || Ascii.eqb c "[".

(** How [str.format] fails. *)
Inductive FormatError :=
| MissingKey (name : string)
| SingleBrace
| UnsupportedField.

Definition prepend (c : ascii) (r : FormatError + string)
  : FormatError + string :=
match r with
| inr s => inr (String c s)
| inl e => inl e
end.

(** [template.format] with keyword arguments [kw], for templates whose
    replacement fields are plain names.  [fld] is [None] while reading
    literal text and [Some n] while reading the name [n] of a replacement
    field.  Doubled braces are literal braces.  A name that is not among
    the keyword arguments is a [KeyError]; a single closing brace or an
    unclosed field is a [ValueError]; positional fields, conversions and
    format specs are outside the modelled fragment.  The substituted values
    are copied, never parsed again. *)
Fixpoint format_go (kw : list (string * string)) (s : string)
  (fld : option string) : FormatError + string :=
match s, fld with
| EmptyString, None => inr ""
| EmptyString, Some _ => inl SingleBrace
| String c r, None =>
    if Ascii.eqb c "{" then
      match r with
      | String c2 r2 =>
          if Ascii.eqb c2 "{"
          then prepend "{" (format_go kw r2 None)
          else format_go kw r (Some "")
      | EmptyString => inl SingleBrace
      end
    else if Ascii.eqb c "}" then
      match r with
      | String c2 r2 =>
          if Ascii.eqb c2 "}"
          then prepend "}" (format_go kw r2 None)
          else inl SingleBrace
      | EmptyString => inl SingleBrace
      end
    else prepend c (format_go kw r None)
| String c r, Some name =>
    if Ascii.eqb c "}" then
      if name =? "" then inl UnsupportedField else
      match kwarg name kw with
      | Some v =>
          match format_go kw r None with
          | inr rest => inr (v ++ rest)
          | inl e => inl e
          end
      | None => inl (MissingKey name)
      end
    else if Ascii.eqb c "{" then inl SingleBrace
    else if is_field_special c then inl UnsupportedField
    else format_go kw r (Some (name ++ String c ""))
end.

Definition format (template : string) (kw : list (string * string))
  : FormatError + string :=
format_go kw template None.

(** [\w] of the [re] module in a [str] pattern, on one code point below
    256: the underscore and what [str.isalnum] accepts, that is, the ASCII
    letters and digits, the Latin-1 letters, and the superscript digits and
    the fractions. *)
Definition is_word (c : ascii) : bool :=
let n := nat_of_ascii c in
(((48 <=? n) && (n <=? 57)) || ((65 <=? n) && (n <=? 90))
 || ((97 <=? n) && (n <=? 122)) || (n =? 95)
 || (n =? 170) || (n =? 178) || (n =? 179) || (n =? 181) || (n =? 185)
 || (n =? 186) || ((188 <=? n) && (n <=? 190))
 || ((192 <=? n) && (n <=? 214)) || ((216 <=? n) && (n <=? 246))
 || (248 <=? n))%nat.

(** The longest run of word characters at the head of [s], and the rest. *)
Fixpoint take_word (s : string) : string * string :=
match s with
| String c r =>
    if is_word c then let (w, rest) := take_word r in (String c w, rest)
    else (EmptyString, s)
| EmptyString => (EmptyString, EmptyString)
end.

End Py.

(** ** Data model

    The model classes ([apps.experiments.models], [apps.chat.models],
    [apps.channels.models]) are used by the two source files through the
    attributes below. *)

Inductive ChannelPlatform :=
| TELEGRAM | WEB | WHATSAPP | FACEBOOK | API | SLACK.

Inductive SessionStatus :=
| SETUP | PENDING | PENDING_PRE_SURVEY | ACTIVE | PENDING_REVIEW | COMPLETE.

Inductive ChatMessageType := HUMAN | AI | SYSTEM.

Inductive MESSAGE_TYPES := TEXT | VOICE.

Inductive VoiceResponseBehaviours := ALWAYS | RECIPROCAL | NEVER.

Inductive StaticTriggerType :=
| NEW_HUMAN_MESSAGE | PARTICIPANT_JOINED_EXPERIMENT | CONVERSATION_START.

Definition platform_eqb (a b : ChannelPlatform) : bool :=
match a, b with
| TELEGRAM, TELEGRAM | WEB, WEB | WHATSAPP, WHATSAPP
| FACEBOOK, FACEBOOK | API, API | SLACK, SLACK => true
| _, _ => false
end.

Definition status_eqb (a b : SessionStatus) : bool :=
match a, b with
| SETUP, SETUP | PENDING, PENDING | PENDING_PRE_SURVEY, PENDING_PRE_SURVEY
| ACTIVE, ACTIVE | PENDING_REVIEW, PENDING_REVIEW | COMPLETE, COMPLETE => true
| _, _ => false
end.

Definition message_type_eqb (a b : MESSAGE_TYPES) : bool :=
match a, b with
| TEXT, TEXT | VOICE, VOICE => true
| _, _ => false
end.

Definition chat_message_type_eqb (a b : ChatMessageType) : bool :=
match a, b with
| HUMAN, HUMAN | AI, AI | SYSTEM, SYSTEM => true
| _, _ => false
end.

Record ConsentForm := {
  consent_text : string;
  confirmation_text : string
}.

Record Survey := {
  survey_confirmation_text : string
}.

Record SourceMaterial := {
  material : string
}.

Record OpenAiAssistant := {
  instructions : string;
  assistant_check_every_ms : Z
}.

(** The configuration bundle of a chatbot; read-only for the code below. *)
Record Experiment := {
  experiment_id : nat;
  team : nat;
  prompt_text : string;
  input_formatter : string;
  source_material : option SourceMaterial;
  assistant : option OpenAiAssistant;
  llm : string;
  llm_provider : option nat;
  temperature : Q;
  max_token_limit : nat;
  tools_enabled : bool;
  conversational_consent_enabled : bool;
  consent_form : option ConsentForm;
  pre_survey : option Survey;
  seed_message : string;
  voice_provider : option nat;
  synthetic_voice : option nat;
  voice_response_behaviour : VoiceResponseBehaviours
}.

Record ExperimentChannel := {
  channel_id : nat;
  platform : ChannelPlatform
}.

Record Participant := {
  participant_id : nat;
  identifier : string;
  participant_team : nat;
  user : option nat;
  (** what [session.get_participant_data(use_participant_tz=True)] finds *)
  participant_data_record : option string
}.

(** A session row together with its one-to-one chat row: the chat is
    addressed by the session's key and the chat's metadata keys are
    fields. *)
Record ExperimentSession := {
  session_id : nat;
  session_experiment : nat;
  session_participant : nat;
  status : SessionStatus;
  ended_at : option nat;
  session_channel : option ExperimentChannel;
  no_activity_ping_count : nat;
  openai_thread_id : option string
}.

Record ChatMessage := {
  chat : nat;
  message_type : ChatMessageType;
  content : string;
  tags : list string
}.

Record SynthesizedAudio := {
  audio : string;
  duration : nat
}.

(** The pipeline's output record. *)
Record ChainOutput := {
  output : string;
  prompt_tokens : nat;
  completion_tokens : nat
}.

(** Exceptions raised or handled by the two files. *)
Inductive Exc :=
| GenerationError (msg : string)
| GenerationCancelled (out : ChainOutput)
| MessageHandlerException (msg : string)
| AudioSynthesizeException
| BadRequestError (body_message : option string)
| ValueError (msg : string)
| AssertionError (msg : string)
| AttributeError (msg : string)
| KeyError (msg : string)
| NotImplementedError
| DoesNotExist
| OtherException (msg : string).

(** One message of a chat prompt as handed to the model. *)
Inductive PromptMessage :=
| SystemMessage (text : string)
| HumanMessage (text : string)
| AIMessage (text : string).

(** Calls that leave the process, in the order they are made. *)
Inductive Event :=
| SendTextToUser (text : string)
| SendVoiceToUser (voice : SynthesizedAudio)
| EnqueueStaticTrigger (session : nat) (trigger : StaticTriggerType)
| SubmitInputToLlm
| TranscriptionStarted
| TranscriptionFinished (transcript : string)
| ProcessInput (session : nat) (user_input : string)
    (save_input_to_history : bool)
| ModelCall (prompt : list PromptMessage) (with_tools : bool)
| AssistantInvoke (content : string) (thread : option string)
    (new_instructions : string)
| RunsCancel (thread_id run_id : string)
| RunsRetrieve (run_id thread_id : string)
| Sleep (seconds : Q).

(** What a chain streams back: the chunks, and the usage the callback
    handler reports once [n] chunks have been consumed.  A chunk of the
    plain chain is a piece of text; a chunk of the agent executor is a
    dictionary, [None] when it has no key [output]. *)
Record ModelResponse := {
  chunks : list (option string);
  usage_after : nat -> nat * nat
}.

(** The outcome of one call of the hosted assistant: the finished run with
    the thread it ran on, its output and the tokens the provider counted for
    it (prompt, completion), or the exception raised. *)
Inductive AssistantOutcome :=
| AssistantFinish (thread_id : string) (return_output : string)
    (provider_usage : nat * nat)
| AssistantRaises (e : Exc).

(** What the outside world answers.  The k-th reading of the clock, the
    k-th reload of the chat metadata, the k-th call of the assistant and the
    k-th cancellation of a run are answered by the functions at [k]:
    [cancelling_reads k] is how many status reads in a row, starting with
    the answer to the cancellation itself, still say the run is being
    cancelled. *)
Record Env := {
  time_time : nat -> Q;
  db_cancelled : nat -> bool;
  model_respond : list PromptMessage -> ModelResponse;
  assistant_respond : nat -> AssistantOutcome;
  cancelling_reads : nat -> nat;
  (** [compress_chat_history(chat, model, max_token_limit)] *)
  compress_chat_history : list ChatMessage -> nat -> list PromptMessage;
  (** [pretty_date(timezone.now(), participant_tz)] *)
  current_datetime : string;
  (** the keyword of the [ExperimentRoute] from a parent to a child *)
  route_keyword : nat -> nat -> option string;
  (** [telebot.util.smart_split(text)]: the text cut into pieces, each
      short enough for one Telegram message *)
  smart_split : string -> list string
}.

(** The store: the database tables, the trace of outward calls, the
    database clock, the environment and the number of questions already
    put to each of its functions. *)
Record World := {
  participants : list Participant;
  sessions : list ExperimentSession;
  chat_messages : list ChatMessage;
  trace : list Event;
  now : nat;
  env : Env;
  clock_reads : nat;
  db_refreshes : nat;
  assistant_calls : nat;
  cancel_calls : nat
}.

(** ** The monad of computations that may raise *)

Inductive Res (A : Type) :=
| Ok (a : A)
| Raise (e : Exc).
Arguments Ok {A} a.
Arguments Raise {A} e.

Definition M (S A : Type) : Type := S -> Res A * S.

Definition ret {S A} (a : A) : M S A := fun s => (Ok a, s).

Definition bind {S A B} (m : M S A) (k : A -> M S B) : M S B :=
fun s =>
  match m s with
  | (Ok a, s') => k a s'
  | (Raise e, s') => (Raise e, s')
  end.

Definition raise {S A} (e : Exc) : M S A := fun s => (Raise e, s).

(** [try: m except ...: h e]; a handler that answers [None] does not catch
    the exception. *)
Definition try_except {S A} (m : M S A) (h : Exc -> option (M S A)) : M S A :=
fun s =>
  match m s with
  | (Ok a, s') => (Ok a, s')
  | (Raise e, s') =>
      match h e with
      | Some k => k s'
      | None => (Raise e, s')
      end
  end.

Definition get {S} : M S S := fun s => (Ok s, s).
Definition gets {S A} (f : S -> A) : M S A := fun s => (Ok (f s), s).
Definition modify {S} (f : S -> S) : M S unit := fun s => (Ok tt, f s).

Declare Scope monad_scope.
Delimit Scope monad_scope with monad.
Notation "x <- m ;; k" := (bind m (fun x => k))
  (at level 61, m at next level, right associativity) : monad_scope.
Notation "m ;;; k" := (bind m (fun _ => k))
  (at level 61, right associativity) : monad_scope.
Local Open Scope monad_scope.

(** A computation on the store run inside an object that holds it. *)
Definition on_world {X A} (m : M World A) : M (X * World) A :=
fun s =>
  match m (snd s) with
  | (r, w') => (r, (fst s, w'))
  end.

Definition on_self {X A} (f : X -> A) : M (X * World) A :=
fun s => (Ok (f (fst s)), s).

Definition set_self {X} (f : X -> X) : M (X * World) unit :=
fun s => (Ok tt, (f (fst s), snd s)).

(** ** Store operations *)

Definition set_participants (ps : list Participant) (w : World) : World :=
{| participants := ps; sessions := sessions w;
   chat_messages := chat_messages w; trace := trace w; now := now w;
   env := env w; clock_reads := clock_reads w;
   db_refreshes := db_refreshes w; assistant_calls := assistant_calls w;
   cancel_calls := cancel_calls w |}.

Definition set_sessions (ss : list ExperimentSession) (w : World) : World :=
{| participants := participants w; sessions := ss;
   chat_messages := chat_messages w; trace := trace w; now := now w;
   env := env w; clock_reads := clock_reads w;
   db_refreshes := db_refreshes w; assistant_calls := assistant_calls w;
   cancel_calls := cancel_calls w |}.

Definition set_chat_messages (ms : list ChatMessage) (w : World) : World :=
{| participants := participants w; sessions := sessions w;
   chat_messages := ms; trace := trace w; now := now w;
   env := env w; clock_reads := clock_reads w;
   db_refreshes := db_refreshes w; assistant_calls := assistant_calls w;
   cancel_calls := cancel_calls w |}.

Definition set_trace (t : list Event) (w : World) : World :=
{| participants := participants w; sessions := sessions w;
   chat_messages := chat_messages w; trace := t; now := now w;
   env := env w; clock_reads := clock_reads w;
   db_refreshes := db_refreshes w; assistant_calls := assistant_calls w;
   cancel_calls := cancel_calls w |}.

Definition set_now (n : nat) (w : World) : World :=
{| participants := participants w; sessions := sessions w;
   chat_messages := chat_messages w; trace := trace w; now := n;
   env := env w; clock_reads := clock_reads w;
   db_refreshes := db_refreshes w; assistant_calls := assistant_calls w;
   cancel_calls := cancel_calls w |}.

Definition set_clock_reads (n : nat) (w : World) : World :=
{| participants := participants w; sessions := sessions w;
   chat_messages := chat_messages w; trace := trace w; now := now w;
   env := env w; clock_reads := n;
   db_refreshes := db_refreshes w; assistant_calls := assistant_calls w;
   cancel_calls := cancel_calls w |}.

Definition set_db_refreshes (n : nat) (w : World) : World :=
{| participants := participants w; sessions := sessions w;
   chat_messages := chat_messages w; trace := trace w; now := now w;
   env := env w; clock_reads := clock_reads w;
   db_refreshes := n; assistant_calls := assistant_calls w;
   cancel_calls := cancel_calls w |}.

Definition set_assistant_calls (n : nat) (w : World) : World :=
{| participants := participants w; sessions := sessions w;
   chat_messages := chat_messages w; trace := trace w; now := now w;
   env := env w; clock_reads := clock_reads w;
   db_refreshes := db_refreshes w; assistant_calls := n;
   cancel_calls := cancel_calls w |}.

Definition set_cancel_calls (n : nat) (w : World) : World :=
{| participants := participants w; sessions := sessions w;
   chat_messages := chat_messages w; trace := trace w; now := now w;
   env := env w; clock_reads := clock_reads w;
   db_refreshes := db_refreshes w; assistant_calls := assistant_calls w;
   cancel_calls := n |}.

(** An outward call: appended to the trace. *)
Definition emit (e : Event) : M World unit :=
modify (fun w => set_trace (trace w ++ [e])%list w).

(** [ChatMessage.objects.create(chat=..., message_type=..., content=...)]. *)
Definition create_chat_message (c : nat) (t : ChatMessageType) (text : string)
  : M World unit :=
modify (fun w =>
  set_chat_messages
    (chat_messages w
     ++ [{| chat := c; message_type := t; content := text; tags := [] |}])%list
    w).

(** The messages of one chat, oldest first. *)
Definition history (c : nat) (w : World) : list ChatMessage :=
filter (fun m => chat m =? c)%nat (chat_messages w).

Definition find_session (sid : nat) (w : World) : option ExperimentSession :=
find (fun s => session_id s =? sid)%nat (sessions w).

Definition find_participant (pid : nat) (w : World) : option Participant :=
find (fun p => participant_id p =? pid)%nat (participants w).

(** Reading a row through a foreign key; a dangling key raises. *)
Definition the_session (sid : nat) : M World ExperimentSession :=
fun w =>
  match find_session sid w with
  | Some s => (Ok s, w)
  | None => (Raise DoesNotExist, w)
  end.

Definition the_participant (pid : nat) : M World Participant :=
fun w =>
  match find_participant pid w with
  | Some p => (Ok p, w)
  | None => (Raise DoesNotExist, w)
  end.

(** [row.save()] after the attribute changes [f]. *)
Definition update_session (sid : nat)
  (f : ExperimentSession -> ExperimentSession) : M World unit :=
modify (fun w =>
  set_sessions
    (map (fun s => if (session_id s =? sid)%nat then f s else s) (sessions w))
    w).

Definition with_status (st : SessionStatus) (s : ExperimentSession)
  : ExperimentSession :=
{| session_id := session_id s; session_experiment := session_experiment s;
   session_participant := session_participant s; status := st;
   ended_at := ended_at s; session_channel := session_channel s;
   no_activity_ping_count := no_activity_ping_count s;
   openai_thread_id := openai_thread_id s |}.

Definition with_ended_at (t : option nat) (s : ExperimentSession)
  : ExperimentSession :=
{| session_id := session_id s; session_experiment := session_experiment s;
   session_participant := session_participant s; status := status s;
   ended_at := t; session_channel := session_channel s;
   no_activity_ping_count := no_activity_ping_count s;
   openai_thread_id := openai_thread_id s |}.

Definition with_channel (c : option ExperimentChannel) (s : ExperimentSession)
  : ExperimentSession :=
{| session_id := session_id s; session_experiment := session_experiment s;
   session_participant := session_participant s; status := status s;
   ended_at := ended_at s; session_channel := c;
   no_activity_ping_count := no_activity_ping_count s;
   openai_thread_id := openai_thread_id s |}.

Definition with_ping_count (n : nat) (s : ExperimentSession)
  : ExperimentSession :=
{| session_id := session_id s; session_experiment := session_experiment s;
   session_participant := session_participant s; status := status s;
   ended_at := ended_at s; session_channel := session_channel s;
   no_activity_ping_count := n;
   openai_thread_id := openai_thread_id s |}.

Definition with_thread_id (t : option string) (s : ExperimentSession)
  : ExperimentSession :=
{| session_id := session_id s; session_experiment := session_experiment s;
   session_participant := session_participant s; status := status s;
   ended_at := ended_at s; session_channel := session_channel s;
   no_activity_ping_count := no_activity_ping_count s;
   openai_thread_id := t |}.

(** [session.update_status(status)]: sets the attribute and saves. *)
Definition update_status (sid : nat) (st : SessionStatus) : M World unit :=
update_session sid (with_status st).

(** Modelled from the spec: [ExperimentSession.end()] of
    [apps.experiments.models], which is not among the source files; the
    spec says that ending a session makes its ended-at non-null.  The
    timestamp is the database clock, which then advances. *)
Definition end_session (sid : nat) : M World unit :=
t <- gets now ;;
update_session sid (with_ended_at (Some t)) ;;;
modify (set_now (S t)).

(** A fresh primary key: one more than the largest in the table. *)
Definition next_id {A} (key : A -> nat) (rows : list A) : nat :=
S (fold_right (fun r m => Nat.max (key r) m) 0 rows).

Definition format_exc (e : Py.FormatError) : Exc :=
match e with
| Py.MissingKey name => KeyError name
| Py.SingleBrace => ValueError "Single brace encountered in format string"
| Py.UnsupportedField => OtherException "replacement field outside the model"
end.

(** [template.format(...)] as a computation. *)
Definition py_format {S} (template : string) (kw : list (string * string))
  : M S string :=
match Py.format template kw with
| inr s => ret s
| inl e => raise (format_exc e)
end.

Definition newline : string := String (ascii_of_nat 10) "".

(** ** [apps/service_providers/llm_service/runnables.py] *)

Module Runnables.

Inductive RunnableClass :=
| SimpleExperimentRunnable
| AgentExperimentRunnable
| AssistantExperimentRunnable.

(** A runnable object: its class, the pydantic fields [experiment] and
    [session], and the fields [ExperimentRunnable] adds. *)
Record Runnable := {
  cls : RunnableClass;
  experiment : Experiment;
  session : nat;
  memory : list PromptMessage;
  cancelled : bool;
  last_cancel_check : option Q;
  check_every_ms : Z
}.

Definition new_runnable (c : RunnableClass) (e : Experiment) (sid : nat)
  : Runnable :=
{| cls := c; experiment := e; session := sid; memory := [];
   cancelled := false; last_cancel_check := None; check_every_ms := 1000 |}.

(** [create_experiment_runnable(experiment, session)]. *)
Definition create_experiment_runnable (e : Experiment) (sid : nat)
  : Res Runnable :=
match assistant e with
| Some _ => Ok (new_runnable AssistantExperimentRunnable e sid)
| None =>
    if negb (Py.truthy (llm e))
    then Raise (AssertionError "Experiment must have an LLM model")
    else match llm_provider e with
    | None => Raise (AssertionError "Experiment must have an LLM provider")
    | Some _ =>
        if tools_enabled e
        then Ok (new_runnable AgentExperimentRunnable e sid)
        else Ok (new_runnable SimpleExperimentRunnable e sid)
    end
end.

(** The [configurable] keys of the [RunnableConfig] that [invoke] reads. *)
Record Config := {
  save_input_to_history : bool;
  save_output_to_history : bool;
  add_experiment_tag : bool
}.

(** [ensure_config(None)]: every key at its default. *)
Definition default_config : Config :=
{| save_input_to_history := true; save_output_to_history := true;
   add_experiment_tag := false |}.

Definition RM := M (Runnable * World).

Definition set_cancelled (b : bool) (r : Runnable) : Runnable :=
{| cls := cls r; experiment := experiment r; session := session r;
   memory := memory r; cancelled := b;
   last_cancel_check := last_cancel_check r;
   check_every_ms := check_every_ms r |}.

Definition set_last_cancel_check (t : option Q) (r : Runnable) : Runnable :=
{| cls := cls r; experiment := experiment r; session := session r;
   memory := memory r; cancelled := cancelled r;
   last_cancel_check := t;
   check_every_ms := check_every_ms r |}.

Definition set_memory (m : list PromptMessage) (r : Runnable) : Runnable :=
{| cls := cls r; experiment := experiment r; session := session r;
   memory := m; cancelled := cancelled r;
   last_cancel_check := last_cancel_check r;
   check_every_ms := check_every_ms r |}.

(** [BaseExperimentRunnable._save_message_to_history]. *)
Definition base_save_message_to_history (message : string)
  (type_ : ChatMessageType) : RM unit :=
sid <- on_self session ;;
on_world (create_chat_message sid type_ message).

(** The input dictionary of the runnables: the value under [input_key],
    and the keys the chains add. *)
Record InputDict := {
  input_value : string;
  source_material_value : string;
  participant_data_value : string;
  history_value : list PromptMessage
}.

Definition set_input_value (v : string) (d : InputDict) : InputDict :=
{| input_value := v; source_material_value := source_material_value d;
   participant_data_value := participant_data_value d;
   history_value := history_value d |}.

(** [format_input]: the value under [input_key] is replaced in the
    dictionary it was given. *)
Definition format_input (d : InputDict) : RM InputDict :=
e <- on_self experiment ;;
if Py.truthy (input_formatter e)
then v <- py_format (input_formatter e) [("input", input_value d)] ;;
     ret (set_input_value v d)
else ret d.

(** [is_unauthorized_participant]. *)
Definition is_unauthorized_participant : RM bool :=
sid <- on_self session ;;
s <- on_world (the_session sid) ;;
match session_channel s with
| None => raise (AttributeError "platform")
| Some c =>
    if platform_eqb (platform c) WEB
    then p <- on_world (the_participant (session_participant s)) ;;
         ret (match user p with None => true | Some _ => false end)
    else ret false
end.

(** [participant_data]. *)
Definition participant_data : RM string :=
unauthorized <- is_unauthorized_participant ;;
if unauthorized then ret ""
else sid <- on_self session ;;
     s <- on_world (the_session sid) ;;
     p <- on_world (the_participant (session_participant s)) ;;
     ret (Py.or_empty (participant_data_record p)).

(** [source_material]. *)
Definition source_material : RM string :=
e <- on_self experiment ;;
ret (match source_material e with
     | Some m => material m
     | None => ""
     end).

Definition Qltb (a b : Q) : bool := negb (Qle_bool b a).

(** [time.time()]: seconds, read from the environment. *)
Definition time_time_call : M World Q :=
fun w => (Ok (time_time (env w) (clock_reads w)),
          set_clock_reads (S (clock_reads w)) w).

(** [self.session.chat.refresh_from_db(fields=["metadata"])] followed by
    [metadata.get("cancelled", False)]: the flag as another actor left it. *)
Definition refresh_cancelled : M World bool :=
fun w => (Ok (db_cancelled (env w) (db_refreshes w)),
          set_db_refreshes (S (db_refreshes w)) w).

(** [ExperimentRunnable._chat_is_cancelled]. *)
Definition _chat_is_cancelled : RM bool :=
self <- on_self (fun r => r) ;;
if cancelled self then ret true else
too_early <-
  match last_cancel_check self with
  | Some last =>
      if negb (Qeq_bool last 0) && negb (check_every_ms self =? 0)%Z
      then t <- on_world time_time_call ;;
           ret (Qltb t (last + inject_Z (check_every_ms self))%Q)
      else ret false
  | None => ret false
  end ;;
if too_early then ret false else
t <- on_world time_time_call ;;
set_self (set_last_cancel_check (Some t)) ;;;
flag <- on_world refresh_cancelled ;;
(if flag then set_self (set_cancelled true) else ret tt) ;;;
on_self cancelled.

(** [_parse_output]: the text of a chunk of the plain chain; for the agent
    executor [output.get("output", "")]. *)
Definition _parse_output (c : RunnableClass) (chunk : option string) : string :=
match chunk with
| Some text => text
| None => ""
end.

(** The loop of [_get_output_check_cancellation] over the chunks not yet
    consumed; [n] counts the chunks consumed. *)
Fixpoint consume_stream (tokens : list (option string)) (acc : string)
  (n : nat) : RM (string * nat) :=
match tokens with
| [] => ret (acc, n)
| token :: rest =>
    c <- on_self cls ;;
    let acc' := acc ++ _parse_output c token in
    stop <- _chat_is_cancelled ;;
    if stop then ret (acc', S n) else consume_stream rest acc' (S n)
end.

(** The template of the system message built by [prompt]. *)
Definition system_template (e : Experiment) (w : World) : string :=
prompt_text e ++ newline ++ "The current datetime is "
  ++ current_datetime (env w) ++ " (timezone preserved)".

(** What the chain does before the model is called: the input dictionary
    is built key by key, the input is formatted, and the prompt is formatted
    into messages.  The agent adds its scratchpad, empty at the start. *)
Definition build_prompt (input : string) : RM (list PromptMessage) :=
sm <- source_material ;;
pd <- participant_data ;;
hist <- on_self memory ;;
d <- format_input {| input_value := input; source_material_value := sm;
                     participant_data_value := pd; history_value := hist |} ;;
e <- on_self experiment ;;
template <- on_world (gets (system_template e)) ;;
let kw := [("input", input_value d);
           ("source_material", source_material_value d);
           ("participant_data", participant_data_value d)] in
system <- py_format template kw ;;
human <- py_format "{input}" kw ;;
ret ([SystemMessage system] ++ history_value d ++ [HumanMessage human])%list.

(** [_get_output_check_cancellation]: the output, and the usage the
    callback handler has counted when the loop ends. *)
Definition _get_output_check_cancellation (input : string)
  : RM (string * (nat * nat)) :=
messages <- build_prompt input ;;
c <- on_self cls ;;
on_world (emit (ModelCall messages
  (match c with AgentExperimentRunnable => true | _ => false end))) ;;;
response <- on_world (gets (fun w => model_respond (env w) messages)) ;;
r <- consume_stream (chunks response) "" 0 ;;
ret (fst r, usage_after response (snd r)).

(** [_populate_memory]. *)
Definition _populate_memory : RM unit :=
sid <- on_self session ;;
e <- on_self experiment ;;
messages <- on_world (gets (fun w =>
  compress_chat_history (env w) (history sid w) (max_token_limit e))) ;;
set_self (set_memory messages).

(** [ExperimentRunnable._save_message_to_history]: the row is created
    first; with [add_experiment_tag] the keyword of the route from the
    session's experiment to this one is then attached as a tag. *)
Definition _save_message_to_history (message : string)
  (type_ : ChatMessageType) (tag : bool) : RM unit :=
sid <- on_self session ;;
e <- on_self experiment ;;
on_world (create_chat_message sid type_ message) ;;;
if tag then
  s <- on_world (the_session sid) ;;
  route <- on_world (gets (fun w =>
    route_keyword (env w) (experiment_id e) (session_experiment s))) ;;
  match route with
  | None => raise (AttributeError "keyword")
  | Some keyword =>
      on_world (modify (fun w =>
        set_chat_messages
          (removelast (chat_messages w)
           ++ [{| chat := sid; message_type := type_; content := message;
                  tags := [keyword] |}])%list w))
  end
else ret tt.

(** [ExperimentRunnable.invoke]. *)
Definition invoke (input : string) (config : Config) : RM ChainOutput :=
_populate_memory ;;;
(if save_input_to_history config
 then _save_message_to_history input HUMAN false else ret tt) ;;;
r <- _get_output_check_cancellation input ;;
let result := {| output := fst r; prompt_tokens := fst (snd r);
                 completion_tokens := snd (snd r) |} in
stop <- on_self cancelled ;;
if stop then raise (GenerationCancelled result) else
(if save_output_to_history config
 then _save_message_to_history (fst r) AI (add_experiment_tag config)
 else ret tt) ;;;
ret result.

(** The thread-busy pattern with the leading [.*] removed, tried at the
    head of [s]: [(thread_\w+) while a run (run_\w+) is active].  Both
    groups are followed by a space, so each [\w+] takes the whole run of
    word characters. *)
Definition match_busy_here (s : string) : option (string * string) :=
match Py.strip_prefix "thread_" s with
| None => None
| Some r1 =>
    let (w1, r2) := Py.take_word r1 in
    if w1 =? "" then None else
    match Py.strip_prefix " while a run run_" r2 with
    | None => None
    | Some r3 =>
        let (w2, r4) := Py.take_word r3 in
        if w2 =? "" then None else
        match Py.strip_prefix " is active" r4 with
        | None => None
        | Some _ => Some ("thread_" ++ w1, "run_" ++ w2)
        end
    end
end.

(** [re.match(r".*(thread_[\w]+) while a run (run_[\w]+) is active.*",
    message)] and [match.groups()].  The leading [.*] is greedy and does
    not cross a line break: the latest start on the first line wins. *)
Fixpoint match_thread_busy (message : string) : option (string * string) :=
match message with
| EmptyString => None
| String c rest =>
    let later :=
      if Ascii.eqb c (ascii_of_nat 10) then None else match_thread_busy rest in
    match later with
    | Some groups => Some groups
    | None => match_busy_here message
    end
end.

(** [re.search(r"cancelling|cancelled", text)]. *)
Definition search_cancelled (text : string) : bool :=
Py.contains "cancelling" text || Py.contains "cancelled" text.

(** [str(thread_id)] inside an f-string. *)
Definition str_of_thread (t : option string) : string :=
match t with
| Some s => s
| None => "None"
end.

(** The loop of [_cancel_run] after the cancellation answered that the
    run is being cancelled: [more] further reads will say so. *)
Fixpoint poll_cancelling (thread_id run_id : string) (seconds : Q)
  (more : nat) : M World unit :=
emit (RunsRetrieve run_id thread_id) ;;;
match more with
| 0 => ret tt
| S more' => emit (Sleep seconds) ;;; poll_cancelling thread_id run_id seconds more'
end.

(** [_cancel_run]. *)
Definition _cancel_run (a : OpenAiAssistant) (thread_id run_id : string)
  : M World unit :=
emit (RunsCancel thread_id run_id) ;;;
k <- gets cancel_calls ;;
modify (set_cancel_calls (S k)) ;;;
reads <- gets (fun w => cancelling_reads (env w) k) ;;
match reads with
| 0 => ret tt
| S more =>
    poll_cancelling thread_id run_id
      (inject_Z (assistant_check_every_ms a) / 1000)%Q more
end.

(** [_handle_api_error]: returns when the error was handled and the run
    should be tried again, raises otherwise. *)
Definition _handle_api_error (thread_id : option string)
  (a : OpenAiAssistant) (body_message : option string) : M World unit :=
let message := Py.or_empty body_message in
match match_thread_busy message with
| None => raise (BadRequestError body_message)
| Some (error_thread_id, run_id) =>
    match thread_id with
    | Some t =>
        if error_thread_id =? t then _cancel_run a t run_id
        else raise (GenerationError
               ("Thread ID mismatch: " ++ error_thread_id ++ " != " ++ t))
    | None =>
        raise (GenerationError
          ("Thread ID mismatch: " ++ error_thread_id ++ " != None"))
    end
end.

(** What the hosted assistant returns. *)
Record OpenAIAssistantFinish := {
  thread_id : string;
  return_output : string
}.

(** One call of the assistant: the call is recorded and answered by the
    environment. *)
Definition assistant_call (content : string) (thread : option string)
  (new_instructions : string) : M World OpenAIAssistantFinish :=
emit (AssistantInvoke content thread new_instructions) ;;;
k <- gets assistant_calls ;;
modify (set_assistant_calls (S k)) ;;;
answer <- gets (fun w => assistant_respond (env w) k) ;;
match answer with
| AssistantFinish t o _ => ret {| thread_id := t; return_output := o |}
| AssistantRaises e => raise e
end.

(** The [except] clauses of [_get_response_with_retries]: [again] is the
    rest of the loop. *)
Definition on_attempt_error {A} (e : Exc) (a : OpenAiAssistant)
  (thread : option string) (again : RM A) : RM A :=
match e with
| BadRequestError body_message =>
    on_world (_handle_api_error thread a body_message) ;;; again
| ValueError msg =>
    if search_cancelled msg
    then raise (GenerationCancelled
           {| output := ""; prompt_tokens := 0; completion_tokens := 0 |})
    else again
| _ => raise e
end.

Definition truthy_thread (t : option string) : bool :=
match t with
| Some s => Py.truthy s
| None => false
end.

(** The loop of [_get_response_with_retries] with [n] attempts left.
    [content] is the value under the key [content] of the input dictionary;
    [format_input] replaces it in the dictionary, which the next attempt
    receives again.  The dictionary has the key [thread_id] only when the
    chat already had a thread. *)
Fixpoint attempts (n : nat) (a : OpenAiAssistant) (content : string)
  (thread : option string) (new_instructions : string)
  : RM OpenAIAssistantFinish :=
match n with
| 0 => raise (GenerationError "Failed to get response after 3 retries")
| S n' =>
    fun st =>
      match format_input {| input_value := content;
                            source_material_value := "";
                            participant_data_value := "";
                            history_value := [] |} st with
      | (Raise e, st1) =>
          on_attempt_error e a thread
            (attempts n' a content thread new_instructions) st1
      | (Ok d, st1) =>
          let content' := input_value d in
          match on_world
                  (assistant_call content'
                     (if truthy_thread thread then thread else None)
                     new_instructions) st1
          with
          | (Ok response, st2) => (Ok response, st2)
          | (Raise e, st2) =>
              on_attempt_error e a thread
                (attempts n' a content' thread new_instructions) st2
          end
      end
end.

(** [_get_response_with_retries]. *)
Definition _get_response_with_retries (a : OpenAiAssistant) (content : string)
  (thread : option string) (new_instructions : string)
  : RM OpenAIAssistantFinish :=
attempts 3 a content thread new_instructions.

(** [AssistantExperimentRunnable.invoke]. *)
Definition assistant_invoke (input : string) (config : Config)
  : RM ChainOutput :=
e <- on_self experiment ;;
sid <- on_self session ;;
(if save_input_to_history config
 then base_save_message_to_history input HUMAN else ret tt) ;;;
s <- on_world (the_session sid) ;;
let thread := openai_thread_id s in
match assistant e with
| None => raise (AttributeError "instructions")
| Some a =>
    pd <- participant_data ;;
    new_instructions <- py_format (instructions a) [("participant_data", pd)] ;;
    response <- _get_response_with_retries a input thread new_instructions ;;
    (if truthy_thread thread then ret tt
     else on_world (update_session sid
            (with_thread_id (Some (thread_id response))))) ;;;
    base_save_message_to_history (return_output response) AI ;;;
    ret {| output := return_output response;
           prompt_tokens := 0; completion_tokens := 0 |}
end.

(** [runnable.invoke(input, config)], by the class of the runnable. *)
Definition runnable_invoke (input : string) (config : Config)
  : RM ChainOutput :=
c <- on_self cls ;;
match c with
| AssistantExperimentRunnable => assistant_invoke input config
| _ => invoke input config
end.

End Runnables.

(** ** [apps/chat/channels.py] *)

Module Channels.

Definition USER_CONSENT_TEXT : string := "1".

Definition quote : string := String (ascii_of_nat 34) "".

(** The classes of the file. *)
Inductive ChannelClass :=
| WebChannel | TelegramChannel | WhatsappChannel
| FacebookMessengerChannel | ApiChannel | SlackChannel.

(** An inbound message as the handler reads it.  [content_type] is [None]
    when the transport's kind is not one of [MESSAGE_TYPES];
    [transcription] is what fetching the audio and transcribing it gives,
    [None] when either raises. *)
Record Message := {
  chat_id : string;
  content_type : option MESSAGE_TYPES;
  content_type_unparsed : string;
  message_text : string;
  transcription : option string
}.

Record MessagingService := {
  service_voice_replies_supported : bool;
  service_supported_message_types : list MESSAGE_TYPES
}.

(** The handler object. *)
Record ChannelBase := {
  cls : ChannelClass;
  experiment : Experiment;
  experiment_channel : ExperimentChannel;
  experiment_session : option nat;
  message : option Message;
  _user_query : option string;
  messaging_service : MessagingService;
  aws_access_key_id : bool;
  send_response_to_user : bool
}.

Definition set_experiment_session (sid : option nat) (h : ChannelBase)
  : ChannelBase :=
{| cls := cls h; experiment := experiment h;
   experiment_channel := experiment_channel h; experiment_session := sid;
   message := message h; _user_query := _user_query h;
   messaging_service := messaging_service h;
   aws_access_key_id := aws_access_key_id h;
   send_response_to_user := send_response_to_user h |}.

Definition set_message (m : option Message) (h : ChannelBase) : ChannelBase :=
{| cls := cls h; experiment := experiment h;
   experiment_channel := experiment_channel h;
   experiment_session := experiment_session h;
   message := m; _user_query := _user_query h;
   messaging_service := messaging_service h;
   aws_access_key_id := aws_access_key_id h;
   send_response_to_user := send_response_to_user h |}.

Definition set_user_query (q : option string) (h : ChannelBase) : ChannelBase :=
{| cls := cls h; experiment := experiment h;
   experiment_channel := experiment_channel h;
   experiment_session := experiment_session h;
   message := message h; _user_query := q;
   messaging_service := messaging_service h;
   aws_access_key_id := aws_access_key_id h;
   send_response_to_user := send_response_to_user h |}.

Definition CM := M (ChannelBase * World).

(** [voice_replies_supported], a class attribute or a property. *)
Definition voice_replies_supported (h : ChannelBase) : bool :=
match cls h with
| TelegramChannel => true
| WhatsappChannel | FacebookMessengerChannel =>
    aws_access_key_id h
    && service_voice_replies_supported (messaging_service h)
| WebChannel | ApiChannel | SlackChannel => false
end.

(** [supported_message_types]. *)
Definition supported_message_types (h : ChannelBase) : list MESSAGE_TYPES :=
match cls h with
| TelegramChannel => [TEXT; VOICE]
| WhatsappChannel | FacebookMessengerChannel =>
    service_supported_message_types (messaging_service h)
| WebChannel | ApiChannel | SlackChannel => [TEXT]
end.

(** The handler's message; the handler has one whenever a message is being
    handled. *)
Definition the_message : CM Message :=
h <- on_self (fun h => h) ;;
match message h with
| Some m => ret m
| None => raise (AttributeError "message")
end.

(** [message_content_type]. *)
Definition message_content_type : CM (option MESSAGE_TYPES) :=
c <- on_self cls ;;
match c with
| WebChannel | ApiChannel | SlackChannel => ret (Some TEXT)
| TelegramChannel | WhatsappChannel | FacebookMessengerChannel =>
    m <- the_message ;; ret (content_type m)
end.

(** [message_text]. *)
Definition get_message_text : CM string :=
m <- the_message ;; ret (message_text m).

(** [get_chat_id_from_message(self.message)]. *)
Definition get_chat_id_from_message : CM string :=
c <- on_self cls ;;
match c with
| SlackChannel => raise NotImplementedError
| _ => m <- the_message ;; ret (chat_id m)
end.

(** The handler's session; set by [_ensure_sessions_exists]. *)
Definition the_experiment_session : CM nat :=
h <- on_self (fun h => h) ;;
match experiment_session h with
| Some sid => ret sid
| None => raise (AttributeError "experiment_session")
end.

(** [chat_id]. *)
Definition get_chat_id : CM string :=
h <- on_self (fun h => h) ;;
match experiment_session h with
| Some sid =>
    s <- on_world (the_session sid) ;;
    p <- on_world (the_participant (session_participant s)) ;;
    if Py.truthy (identifier p) then ret (identifier p)
    else get_chat_id_from_message
| None => get_chat_id_from_message
end.

(** The loop of [TelegramChannel.send_text_to_user]: one message per
    piece, in order. *)
Fixpoint send_pieces (pieces : list string) : M World unit :=
match pieces with
| [] => ret tt
| piece :: rest => emit (SendTextToUser piece) ;;; send_pieces rest
end.

(** [send_text_to_user]: the call of the transport.  The web and API
    classes inherit the method of the base class, which does nothing. *)
Definition send_text_to_user (text : string) : CM unit :=
h <- on_self (fun h => h) ;;
match cls h with
| WebChannel | ApiChannel => ret tt
| SlackChannel =>
    if send_response_to_user h then on_world (emit (SendTextToUser text))
    else ret tt
| TelegramChannel =>
    on_world (pieces <- gets (fun w => smart_split (env w) text) ;;
              send_pieces pieces)
| WhatsappChannel | FacebookMessengerChannel =>
    on_world (emit (SendTextToUser text))
end.

(** [send_voice_to_user]. *)
Definition send_voice_to_user (voice : SynthesizedAudio) : CM unit :=
h <- on_self (fun h => h) ;;
match cls h with
| TelegramChannel | WhatsappChannel | FacebookMessengerChannel =>
    on_world (emit (SendVoiceToUser voice))
| WebChannel | ApiChannel | SlackChannel =>
    if voice_replies_supported h
    then raise (OtherException "send_voice_to_user is not implemented")
    else ret tt
end.

(** [transcription_started]. *)
Definition transcription_started : CM unit :=
c <- on_self cls ;;
match c with
| TelegramChannel => on_world (emit TranscriptionStarted)
| _ => ret tt
end.

(** [transcription_finished]. *)
Definition transcription_finished (transcript : string) : CM unit :=
c <- on_self cls ;;
match c with
| TelegramChannel => on_world (emit (TranscriptionFinished transcript))
| WhatsappChannel | FacebookMessengerChannel =>
    send_text_to_user ("I heard: " ++ quote ++ transcript ++ quote)
| _ => ret tt
end.

(** [submit_input_to_llm]. *)
Definition submit_input_to_llm : CM unit :=
c <- on_self cls ;;
match c with
| TelegramChannel => on_world (emit SubmitInputToLlm)
| _ => ret tt
end.

(** [enqueue_static_triggers.delay(session_id, trigger)]. *)
Definition enqueue_static_triggers (sid : nat) (t : StaticTriggerType)
  : CM unit :=
on_world (emit (EnqueueStaticTrigger sid t)).

(** [_add_message_to_history]. *)
Definition _add_message_to_history (text : string) (t : ChatMessageType)
  : CM unit :=
sid <- the_experiment_session ;;
on_world (create_chat_message sid t text).

(** [is_message_type_supported]. *)
Definition is_message_type_supported : CM bool :=
t <- message_content_type ;;
h <- on_self (fun h => h) ;;
ret (match t with
     | None => false
     | Some ty => existsb (message_type_eqb ty) (supported_message_types h)
     end).

(** [repr] of a list of message types, as an f-string prints it. *)
Definition repr_message_type (t : MESSAGE_TYPES) : string :=
match t with
| TEXT => "<MESSAGE_TYPES.TEXT: 'text'>"
| VOICE => "<MESSAGE_TYPES.VOICE: 'voice'>"
end.

Definition repr_message_types (l : list MESSAGE_TYPES) : string :=
"[" ++ String.concat ", " (map repr_message_type l) ++ "]".

Definition UNSUPPORTED_MESSAGE_BOT_PROMPT : string :=
newline
++ "Tell the user (in the language being spoken) that they sent an unsupported message."
++ newline
++ "You only support {supported_types} messages types. Respond only with the message for the user"
++ newline.

Definition indent12 : string := "            ".

Definition INFORM_ERROR_PROMPT : string :=
newline ++ indent12
++ "Tell the user that something went wrong while processing their message and that they should"
++ newline ++ indent12 ++ "try again later" ++ newline ++ indent12.

Section Collaborators.

(** [ExperimentChannel.RESET_COMMAND], a constant of
    [apps.channels.models]. *)
Variable RESET_COMMAND : string.

(** [TopicBot(session).process_input(user_input, save_input_to_history)]
    of [apps.chat.bots]. *)
Variable process_input : nat -> string -> bool -> M World string.

(** [session.user_already_engaged()] of [apps.experiments.models]. *)
Variable user_already_engaged : World -> nat -> bool.

(** [session.get_pre_survey_link()] of [apps.experiments.models]. *)
Variable get_pre_survey_link : ExperimentSession -> string.

(** [speech_service.synthesize_voice(text, synthetic_voice)]; [None] when
    it raises [AudioSynthesizeException]. *)
Variable synthesize_voice : string -> option SynthesizedAudio.

(** [_generate_response_for_user]. *)
Definition _generate_response_for_user (prompt : string) : CM string :=
sid <- the_experiment_session ;;
on_world (emit (ProcessInput sid prompt false) ;;; process_input sid prompt false).

(** [_reply_voice_message].  The speech service is taken from the voice
    provider of the experiment before the [try]: without a provider the
    lookup of [get_speech_service] fails and nothing is sent. *)
Definition _reply_voice_message (text : string) : CM unit :=
e <- on_self experiment ;;
match voice_provider e with
| None => raise (AttributeError "get_speech_service")
| Some _ =>
    match synthesize_voice text with
    | Some voice =>
        try_except (send_voice_to_user voice)
          (fun e => match e with
                    | AudioSynthesizeException => Some (send_text_to_user text)
                    | _ => None
                    end)
    | None => send_text_to_user text
    end
end.

(** [_send_message_to_user]. *)
Definition _send_message_to_user (bot_message : string) : CM unit :=
h <- on_self (fun h => h) ;;
user_sent_voice <-
  match message h with
  | None => ret false
  | Some _ =>
      t <- message_content_type ;;
      ret (match t with Some VOICE => true | _ => false end)
  end ;;
if voice_replies_supported h
   && match synthetic_voice (experiment h) with Some _ => true | None => false end
then
  match voice_response_behaviour (experiment h) with
  | ALWAYS => _reply_voice_message bot_message
  | RECIPROCAL =>
      if user_sent_voice then _reply_voice_message bot_message
      else send_text_to_user bot_message
  | NEVER => send_text_to_user bot_message
  end
else send_text_to_user bot_message.

(** [new_bot_message]. *)
Definition new_bot_message (bot_message : string) : CM unit :=
c <- on_self cls ;;
match c with
| WebChannel | ApiChannel => ret tt
| _ => _send_message_to_user bot_message
end.

(** [_inform_user_of_error]. *)
Definition _inform_user_of_error : CM unit :=
bot_message <- _generate_response_for_user INFORM_ERROR_PROMPT ;;
new_bot_message bot_message.

(** [_get_voice_transcript]; fetching the audio and transcribing it are
    answered by the message. *)
Definition _get_voice_transcript : CM string :=
transcription_started ;;;
m <- the_message ;;
match transcription m with
| Some transcript => transcription_finished transcript ;;; ret transcript
| None => raise (OtherException "transcription failed")
end.

(** [_extract_user_query]. *)
Definition _extract_user_query : CM string :=
t <- message_content_type ;;
match t with
| Some VOICE =>
    try_except _get_voice_transcript
      (fun e => Some (_inform_user_of_error ;;; raise e))
| _ => get_message_text
end.

(** [user_query]. *)
Definition user_query : CM string :=
h <- on_self (fun h => h) ;;
match _user_query h with
| Some q =>
    if Py.truthy q then ret q
    else q' <- _extract_user_query ;;
         set_self (set_user_query (Some q')) ;;; ret q'
| None =>
    q' <- _extract_user_query ;;
    set_self (set_user_query (Some q')) ;;; ret q'
end.

(** [_is_reset_conversation_request]. *)
Definition _is_reset_conversation_request : CM bool :=
q <- user_query ;; ret (q =? RESET_COMMAND).

(** [_user_gave_consent]. *)
Definition _user_gave_consent : CM bool :=
q <- user_query ;; ret (Py.strip q =? USER_CONSENT_TEXT).

(** [_handle_supported_message], [_get_llm_response] and
    [_get_experiment_response]. *)
Definition _get_experiment_response (text : string) : CM string :=
sid <- the_experiment_session ;;
answer <- on_world (emit (ProcessInput sid text true) ;;;
                    process_input sid text true) ;;
on_world (update_session sid (with_ping_count 0)) ;;;
ret answer.

Definition _get_llm_response (text : string) : CM string :=
submit_input_to_llm ;;;
_get_experiment_response text.

Definition _handle_supported_message : CM string :=
q <- user_query ;;
response <- _get_llm_response q ;;
_send_message_to_user response ;;;
ret response.

(** [_unsupported_message_type_response]. *)
Definition _unsupported_message_type_response : CM string :=
sid <- the_experiment_session ;;
m <- the_message ;;
on_world (create_chat_message sid SYSTEM
  ("The user sent an unsupported message type: " ++ content_type_unparsed m)) ;;;
h <- on_self (fun h => h) ;;
prompt <- py_format UNSUPPORTED_MESSAGE_BOT_PROMPT
            [("supported_types", repr_message_types (supported_message_types h))] ;;
_generate_response_for_user prompt.

(** [_handle_unsupported_message]: the value of [send_text_to_user], which
    is [None]. *)
Definition _handle_unsupported_message : CM (option string) :=
text <- _unsupported_message_type_response ;;
send_text_to_user text ;;;
ret None.

(** The rows of [ExperimentSession.objects.filter(experiment=...,
    participant__identifier=...)]. *)
Definition session_matches (e : Experiment) (ident : string) (w : World)
  (s : ExperimentSession) : bool :=
(session_experiment s =? experiment_id e)%nat
&& match find_participant (session_participant s) w with
   | Some p => identifier p =? ident
   | None => false
   end.

(** [.order_by("-created_at").first()]: the table is in order of
    creation, so the latest row is the last that matches. *)
Definition latest_session (e : Experiment) (ident : string) (w : World)
  : option ExperimentSession :=
find (session_matches e ident w) (rev (sessions w)).

(** [Participant.objects.get_or_create(identifier=..., team=...)]. *)
Definition get_or_create_participant (ident : string) (team_id : nat)
  : M World Participant :=
fun w =>
  match find (fun p => (identifier p =? ident)
                       && (participant_team p =? team_id)%nat)
             (participants w) with
  | Some p => (Ok p, w)
  | None =>
      let p := {| participant_id := next_id participant_id (participants w);
                  identifier := ident; participant_team := team_id;
                  user := None; participant_data_record := None |} in
      (Ok p, set_participants (participants w ++ [p])%list w)
  end.

(** [ExperimentSession.objects.create(team=..., participant=...,
    experiment=..., llm=..., experiment_channel=...)].  The fields the call
    does not give take the defaults of the model: the status is [SETUP] and
    the session is not ended. *)
Definition create_session (e : Experiment) (pid : nat) (c : ExperimentChannel)
  : M World nat :=
fun w =>
  let sid := next_id session_id (sessions w) in
  let s := {| session_id := sid; session_experiment := experiment_id e;
              session_participant := pid; status := SETUP;
              ended_at := None; session_channel := Some c;
              no_activity_ping_count := 0; openai_thread_id := None |} in
  (Ok sid, set_sessions (sessions w ++ [s])%list w).

(** [_create_new_experiment_session]. *)
Definition _create_new_experiment_session : CM unit :=
h <- on_self (fun h => h) ;;
pid <-
  match experiment_session h with
  | None =>
      ident <- get_chat_id ;;
      p <- on_world (get_or_create_participant ident (team (experiment h))) ;;
      ret (participant_id p)
  | Some sid =>
      s <- on_world (the_session sid) ;;
      ret (session_participant s)
  end ;;
sid' <- on_world (create_session (experiment h) pid (experiment_channel h)) ;;
set_self (set_experiment_session (Some sid')) ;;;
enqueue_static_triggers sid' CONVERSATION_START.

(** [_reset_session]. *)
Definition _reset_session : CM unit :=
sid <- the_experiment_session ;;
on_world (end_session sid) ;;;
_create_new_experiment_session.

(** [ChannelBase._ensure_sessions_exists]. *)
Definition base_ensure_sessions_exists : CM unit :=
h <- on_self (fun h => h) ;;
ident <- get_chat_id ;;
found <- on_world (gets (latest_session (experiment h) ident)) ;;
set_self (set_experiment_session (option_map session_id found)) ;;;
match found with
| None =>
    _create_new_experiment_session ;;;
    sid <- the_experiment_session ;;
    enqueue_static_triggers sid PARTICIPANT_JOINED_EXPERIMENT
| Some s0 =>
    reset <- _is_reset_conversation_request ;;
    engaged <- (if reset
                then on_world (gets (fun w => user_already_engaged w (session_id s0)))
                else ret false) ;;
    (if reset && engaged then _reset_session else ret tt) ;;;
    sid <- the_experiment_session ;;
    s <- on_world (the_session sid) ;;
    match session_channel s with
    | Some _ => ret tt
    | None =>
        on_world (update_session sid
                    (with_channel (Some (experiment_channel h))))
    end
end.

(** [_ensure_sessions_exists], overridden by the web and Slack classes. *)
Definition _ensure_sessions_exists : CM unit :=
h <- on_self (fun h => h) ;;
match cls h with
| WebChannel | SlackChannel =>
    match experiment_session h with
    | Some _ => ret tt
    | None =>
        raise (MessageHandlerException "WebChannel requires an existing session")
    end
| _ => base_ensure_sessions_exists
end.

(** [_add_message]. *)
Definition _add_message (m : Message) : CM unit :=
set_self (set_user_query None) ;;;
set_self (set_message (Some m)) ;;;
_ensure_sessions_exists.

(** [_should_handle_pre_conversation_requirements]. *)
Definition _should_handle_pre_conversation_requirements : CM bool :=
sid <- the_experiment_session ;;
s <- on_world (the_session sid) ;;
ret (match status s with
     | SETUP | PENDING | PENDING_PRE_SURVEY => true
     | _ => false
     end).

(** [_ask_user_for_consent]. *)
Definition _ask_user_for_consent : CM unit :=
e <- on_self experiment ;;
match consent_form e with
| None => raise (AttributeError "consent_text")
| Some form =>
    let bot_message :=
      consent_text form ++ newline ++ newline ++ confirmation_text form in
    _add_message_to_history bot_message AI ;;;
    send_text_to_user bot_message
end.

(** [_ask_user_to_take_survey]. *)
Definition _ask_user_to_take_survey : CM unit :=
sid <- the_experiment_session ;;
s <- on_world (the_session sid) ;;
let pre_survey_link := get_pre_survey_link s in
e <- on_self experiment ;;
match pre_survey e with
| None => raise (AttributeError "confirmation_text")
| Some survey =>
    bot_message <- py_format (survey_confirmation_text survey)
                     [("survey_link", pre_survey_link)] ;;
    _add_message_to_history bot_message AI ;;;
    send_text_to_user bot_message
end.

(** [_chat_initiated]. *)
Definition _chat_initiated : CM unit :=
sid <- the_experiment_session ;;
on_world (update_status sid PENDING) ;;;
_ask_user_for_consent.

(** [start_conversation]. *)
Definition start_conversation : CM unit :=
sid <- the_experiment_session ;;
on_world (update_status sid ACTIVE) ;;;
e <- on_self experiment ;;
if Py.truthy (seed_message e)
then bot_response <- _generate_response_for_user (seed_message e) ;;
     new_bot_message bot_response
else ret tt.

(** [_handle_pre_conversation_requirements]. *)
Definition _handle_pre_conversation_requirements : CM unit :=
q <- user_query ;;
_add_message_to_history q HUMAN ;;;
sid <- the_experiment_session ;;
s <- on_world (the_session sid) ;;
e <- on_self experiment ;;
match status s with
| SETUP => _chat_initiated
| PENDING =>
    consent <- _user_gave_consent ;;
    if consent then
      match pre_survey e with
      | None => start_conversation
      | Some _ =>
          on_world (update_status sid PENDING_PRE_SURVEY) ;;;
          _ask_user_to_take_survey
      end
    else _ask_user_for_consent
| PENDING_PRE_SURVEY =>
    consent <- _user_gave_consent ;;
    if consent then start_conversation else _ask_user_to_take_survey
| _ => ret tt
end.

(** [_new_user_message].  The value is [None] where the source returns
    nothing. *)
Definition _new_user_message (m : Message) : CM (option string) :=
_add_message m ;;;
supported <- is_message_type_supported ;;
if negb supported then _handle_unsupported_message else
h <- on_self (fun h => h) ;;
let proceed : CM (option string) :=
  sid <- the_experiment_session ;;
  enqueue_static_triggers sid NEW_HUMAN_MESSAGE ;;;
  response <- _handle_supported_message ;;
  ret (Some response) in
if negb (platform_eqb (platform (experiment_channel h)) WEB) then
  reset <- _is_reset_conversation_request ;;
  if reset then ret None else
  if conversational_consent_enabled (experiment h) then
    gate <- _should_handle_pre_conversation_requirements ;;
    if gate then _handle_pre_conversation_requirements ;;; ret None
    else proceed
  else
    sid <- the_experiment_session ;;
    on_world (update_status sid ACTIVE) ;;;
    proceed
else proceed.

(** [new_user_message]. *)
Definition new_user_message (m : Message) : CM (option string) :=
try_except (_new_user_message m)
  (fun e => match e with
            | GenerationCancelled _ => Some (ret (Some ""))
            | _ => None
            end).

End Collaborators.

(** [ChannelBase.__init__] with an experiment channel and no session. *)
Definition new_channel (c : ChannelClass) (e : Experiment)
  (ec : ExperimentChannel) (ms : MessagingService) (aws : bool) : ChannelBase :=
{| cls := c; experiment := e; experiment_channel := ec;
   experiment_session := None; message := None; _user_query := None;
   messaging_service := ms; aws_access_key_id := aws;
   send_response_to_user := true |}.

End Channels.

(** ** The bot between the two files *)

Module Bots.

(** Modelled from the spec: [TopicBot.process_input] of [apps.chat.bots],
    which is not among the source files.  The spec says that the
    orchestrator invokes the LLM runnable pipeline with the extracted query
    and obtains a generation result or a cancellation signal, that the
    variant is selected by the experiment configuration, and that
    [save_input_to_history] is an option of the invocation.  The reply is
    the text of the generation result. *)
Definition process_input (e : Experiment) (sid : nat) (user_input : string)
  (save_input : bool) : M World string :=
fun w =>
  match Runnables.create_experiment_runnable e sid with
  | Raise x => (Raise x, w)
  | Ok r =>
      match Runnables.runnable_invoke user_input
              {| Runnables.save_input_to_history := save_input;
                 Runnables.save_output_to_history := true;
                 Runnables.add_experiment_tag := false |} (r, w) with
      | (Ok out, (_, w')) => (Ok (output out), w')
      | (Raise x, (_, w')) => (Raise x, w')
      end
  end.

(** Modelled from the spec: [ExperimentSession.user_already_engaged] of
    [apps.experiments.models], which is not among the source files.  The
    spec words it as: the session has at least one non-system history
    entry. *)
Definition user_already_engaged (w : World) (sid : nat) : bool :=
existsb (fun m => negb (chat_message_type_eqb (message_type m) SYSTEM))
  (history sid w).

End Bots.

(** ** Statements written after the spec, to compare the code with *)

Module Spec.

(** The priority order of the spec: the hosted assistant if the experiment
    references one, else the agent if tools are enabled, else the plain
    completion. *)
Definition variant (e : Experiment) : Runnables.RunnableClass :=
match assistant e with
| Some _ => Runnables.AssistantExperimentRunnable
| None =>
    if tools_enabled e then Runnables.AgentExperimentRunnable
    else Runnables.SimpleExperimentRunnable
end.

(** An experiment the factory accepts: it references an assistant, or it
    has both an LLM model and an LLM provider. *)
Definition has_model (e : Experiment) : bool :=
match assistant e with
| Some _ => true
| None =>
    Py.truthy (llm e)
    && match llm_provider e with Some _ => true | None => false end
end.

(** A prompt template as the spec sees it: literal text and the two
    placeholders, in any order and number. *)
Inductive Segment :=
| Literal (text : string)
| SourceMaterialField
| ParticipantDataField.

Definition render (seg : Segment) : string :=
match seg with
| Literal text => text
| SourceMaterialField => "{source_material}"
| ParticipantDataField => "{participant_data}"
end.

Definition template_of (segs : list Segment) : string :=
fold_right (fun seg rest => render seg ++ rest) "" segs.

(** Each placeholder replaced once by its value, the rest kept. *)
Definition substituted (sm pd : string) (segs : list Segment) : string :=
fold_right (fun seg rest =>
              match seg with
              | Literal text => text
              | SourceMaterialField => sm
              | ParticipantDataField => pd
              end ++ rest) "" segs.

Fixpoint brace_free (s : string) : bool :=
match s with
| EmptyString => true
| String c r => negb (Py.is_brace c) && brace_free r
end.

Definition literals_plain (segs : list Segment) : bool :=
forallb (fun seg => match seg with
                    | Literal text => brace_free text
                    | _ => true
                    end) segs.

(** The participant data of the spec: empty for an unauthorized
    participant, that is, on the web channel without a linked platform user;
    empty when there is none. *)
Definition participant_data_for (c : ExperimentChannel) (p : Participant)
  : string :=
match platform c, user p with
| WEB, None => ""
| _, _ => match participant_data_record p with
          | Some data => data
          | None => ""
          end
end.

(** The source material of the spec: empty when there is none. *)
Definition source_material_of (e : Experiment) : string :=
match source_material e with
| Some m => material m
| None => ""
end.

(** The input as the model receives it: passed through the input
    formatter when the experiment has one. *)
Definition formatted_input (e : Experiment) (input v : string) : Prop :=
if Py.truthy (input_formatter e)
then Py.format (input_formatter e) [("input", input)] = inr v
else v = input.

(** What the gating state machine sends back. *)
Inductive GateReply :=
| ConsentRequest
| SurveyLink
| SeedMessage.

(** The transition table of the spec, by the status of the session,
    whether the reply is the consent token and whether a pre-survey is
    configured: the status after the message and what is sent.  Statuses
    outside the table are not gated. *)
Definition gate_transition (st : SessionStatus) (token survey : bool)
  : option (SessionStatus * GateReply) :=
match st with
| SETUP => Some (PENDING, ConsentRequest)
| PENDING =>
    if token
    then if survey then Some (PENDING_PRE_SURVEY, SurveyLink)
         else Some (ACTIVE, SeedMessage)
    else Some (PENDING, ConsentRequest)
| PENDING_PRE_SURVEY =>
    if token then Some (ACTIVE, SeedMessage)
    else Some (PENDING_PRE_SURVEY, SurveyLink)
| _ => None
end.

(** The text of a reply: the consent request is the consent text and the
    confirmation text of the consent form, two line breaks apart; the
    survey link is the confirmation text of the pre-survey with the link
    filled in; the seed message has no fixed text. *)
Definition reply_text (e : Experiment) (link : string) (reply : GateReply)
  (text : string) : Prop :=
match reply with
| ConsentRequest =>
    exists form, consent_form e = Some form
      /\ text = consent_text form ++ newline ++ newline
                ++ confirmation_text form
| SurveyLink =>
    exists survey, pre_survey e = Some survey
      /\ Py.format (survey_confirmation_text survey) [("survey_link", link)]
         = inr text
| SeedMessage => True
end.

Definition has_survey (e : Experiment) : bool :=
match pre_survey e with Some _ => true | None => false end.

(** The messages a text makes on the transport of the handler: on
    Telegram one for each of the pieces the library cuts the text into; on
    WhatsApp and Facebook one; on Slack one unless the handler was told not
    to send; none for the web and API classes, which have no transport. *)
Definition sent (h : Channels.ChannelBase) (ev : Env) (text : string)
  : list Event :=
match Channels.cls h with
| Channels.WebChannel | Channels.ApiChannel => []
| Channels.SlackChannel =>
    if Channels.send_response_to_user h then [SendTextToUser text] else []
| Channels.TelegramChannel => map SendTextToUser (smart_split ev text)
| Channels.WhatsappChannel | Channels.FacebookMessengerChannel =>
    [SendTextToUser text]
end.

(** The platform can answer by voice: Telegram always; WhatsApp and
    Facebook when the deployment has an AWS key and the messaging service
    supports voice replies; the other platforms never. *)
Definition voice_capable (h : Channels.ChannelBase) : bool :=
match Channels.cls h with
| Channels.TelegramChannel => true
| Channels.WhatsappChannel | Channels.FacebookMessengerChannel =>
    Channels.aws_access_key_id h
    && Channels.service_voice_replies_supported (Channels.messaging_service h)
| _ => false
end.

(** The inbound message being handled is a voice message. *)
Definition user_sent_voice (h : Channels.ChannelBase) : bool :=
match Channels.message h with
| Some m =>
    match Channels.cls h with
    | Channels.TelegramChannel | Channels.WhatsappChannel
    | Channels.FacebookMessengerChannel =>
        match Channels.content_type m with
        | Some VOICE => true
        | _ => false
        end
    | _ => false
    end
| None => false
end.

(** The reply is made by voice: the platform can, the experiment has a
    synthetic voice, and the policy of the experiment is to answer by voice
    always, or in kind when the user sent a voice message. *)
Definition replies_with_voice (h : Channels.ChannelBase) : bool :=
voice_capable h
&& match synthetic_voice (Channels.experiment h) with
   | Some _ => true
   | None => false
   end
&& match voice_response_behaviour (Channels.experiment h) with
   | ALWAYS => true
   | RECIPROCAL => user_sent_voice h
   | NEVER => false
   end.

(** The transport calls that send a reply to the user; [None] when the
    reply is to be made by voice and the experiment has no voice provider,
    in which case the dispatch fails before any call.  A reply by voice is
    one voice message; when the synthesis fails the text is sent instead. *)
Definition dispatch (synthesize_voice : string -> option SynthesizedAudio)
  (h : Channels.ChannelBase) (ev : Env) (text : string)
  : option (list Event) :=
if replies_with_voice h
then match voice_provider (Channels.experiment h) with
     | None => None
     | Some _ =>
         Some match synthesize_voice text with
              | Some voice => [SendVoiceToUser voice]
              | None => sent h ev text
              end
     end
else Some (sent h ev text).

(** The transport calls of a message of the bot: none on the web and API
    classes, whose clients read the history or the return value; the
    dispatch of the reply on the others. *)
Definition bot_message (synthesize_voice : string -> option SynthesizedAudio)
  (h : Channels.ChannelBase) (ev : Env) (text : string)
  : option (list Event) :=
match Channels.cls h with
| Channels.WebChannel | Channels.ApiChannel => Some []
| _ => dispatch synthesize_voice h ev text
end.

(** The handler's own effect of a row of the table on the store, from [w]
    to [w']: the session [sid] takes the status of the row; the message is
    appended to the history as a human entry, followed by the consent
    request or the survey link as an AI entry; that text is sent; all else
    is as it was. *)
Definition gate_effect (h : Channels.ChannelBase) (sid : nat) (q : string)
  (st next : SessionStatus) (reply : GateReply) (text : string)
  (w w' : World) : Prop :=
participants w' = participants w
/\ sessions w'
   = (if status_eqb st next then sessions w
      else map (fun s => if (session_id s =? sid)%nat
                         then with_status next s else s) (sessions w))
/\ chat_messages w'
   = (chat_messages w
      ++ {| chat := sid; message_type := HUMAN; content := q; tags := [] |}
         :: match reply with
            | SeedMessage => []
            | _ => [{| chat := sid; message_type := AI; content := text;
                       tags := [] |}]
            end)%list
/\ trace w'
   = (trace w ++ match reply with
                 | SeedMessage => []
                 | _ => sent h (env w) text
                 end)%list
/\ now w' = now w /\ env w' = env w /\ clock_reads w' = clock_reads w
/\ db_refreshes w' = db_refreshes w
/\ assistant_calls w' = assistant_calls w
/\ cancel_calls w' = cancel_calls w.

(** Whether a row runs the bot: it replies with the seed message and the
    experiment has one. *)
Definition runs_seed (reply : GateReply) (seed : string) : bool :=
match reply with
| SeedMessage => Py.truthy seed
| _ => false
end.

(** The reply to the seed message, on the store [w] the row leaves: the
    bot is called on the seed message with the input not saved; what it
    raises is raised; its response is sent as a message of the bot. *)
Definition seed_outcome
  (process_input : nat -> string -> bool -> M World string)
  (synthesize_voice : string -> option SynthesizedAudio)
  (h : Channels.ChannelBase) (sid : nat) (seed : string) (w : World)
  : Res unit * (Channels.ChannelBase * World) :=
match process_input sid seed false
        (set_trace (trace w ++ [ProcessInput sid seed false])%list w) with
| (Raise e, w1) => (Raise e, (h, w1))
| (Ok response, w1) =>
    match bot_message synthesize_voice h (env w1) response with
    | Some calls => (Ok tt, (h, set_trace (trace w1 ++ calls)%list w1))
    | None => (Raise (AttributeError "get_speech_service"), (h, w1))
    end
end.

(** A session that has not ended. *)
Definition is_open (s : ExperimentSession) : bool :=
match ended_at s with
| None => true
| Some _ => false
end.

(** The non-ended sessions of an experiment and a participant. *)
Definition open_sessions (e : Experiment) (ident : string) (w : World)
  : list ExperimentSession :=
filter (fun s => Channels.session_matches e ident w s && is_open s) (sessions w).

(** The invariant of the spec on the sessions of an experiment and a
    participant: a session that has not ended is the current one, the
    session the handler finds for the pair. *)
Definition one_current (w : World) : Prop :=
forall (e : Experiment) (ident : string) (s : ExperimentSession),
  In s (sessions w) ->
  Channels.session_matches e ident w s = true ->
  ended_at s = None ->
  Channels.latest_session e ident w = Some s.

(** Session ids are keys of the table. *)
Definition session_keys (w : World) : Prop :=
NoDup (map session_id (sessions w)).

(** The channel of the handler filled in on a session that has none (a
    session created by the data migration); other stores are left as they
    are. *)
Definition backfill (h : Channels.ChannelBase) (sid : nat) (w : World) : World :=
match find_session sid w with
| Some s =>
    match session_channel s with
    | Some _ => w
    | None =>
        set_sessions
          (map (fun s => if (session_id s =? sid)%nat
                         then with_channel
                                (Some (Channels.experiment_channel h)) s
                         else s) (sessions w)) w
    end
| None => w
end.

(** The session [sid] ended at time [t]. *)
Definition ended (sid t : nat) (s : ExperimentSession) : ExperimentSession :=
if (session_id s =? sid)%nat then with_ended_at (Some t) s else s.

(** The session a reset creates: for the participant of the session it
    replaces, in SETUP, not ended. *)
Definition new_session (h : Channels.ChannelBase) (s0 : ExperimentSession)
  (w : World) : ExperimentSession :=
{| session_id := next_id session_id (sessions w);
   session_experiment := experiment_id (Channels.experiment h);
   session_participant := session_participant s0; status := SETUP;
   ended_at := None;
   session_channel := Some (Channels.experiment_channel h);
   no_activity_ping_count := 0; openai_thread_id := None |}.

(** The store after a reset of the session [s0]: the session is ended, one
    session is created and its start is announced. *)
Definition reset_world (h : Channels.ChannelBase) (s0 : ExperimentSession)
  (w : World) : World :=
set_trace
  (trace w ++ [EnqueueStaticTrigger (next_id session_id (sessions w))
                 CONVERSATION_START])%list
  (set_sessions
     (map (ended (session_id s0) (now w)) (sessions w)
      ++ [new_session h s0 w])%list
     (set_now (S (now w)) w)).

(** The kind of content of a message: the web, API and Slack classes
    carry text only; the others say so in the message. *)
Definition content_kind (h : Channels.ChannelBase) (m : Channels.Message)
  : option MESSAGE_TYPES :=
match Channels.cls h with
| Channels.WebChannel | Channels.ApiChannel | Channels.SlackChannel =>
    Some TEXT
| _ => Channels.content_type m
end.

(** The kinds of content a handler supports: text and voice on Telegram,
    what the messaging service supports on WhatsApp and Facebook, text on
    the others. *)
Definition supported_kinds (h : Channels.ChannelBase) : list MESSAGE_TYPES :=
match Channels.cls h with
| Channels.TelegramChannel => [TEXT; VOICE]
| Channels.WhatsappChannel | Channels.FacebookMessengerChannel =>
    Channels.service_supported_message_types (Channels.messaging_service h)
| _ => [TEXT]
end.

Definition supported (h : Channels.ChannelBase) (m : Channels.Message)
  : bool :=
match content_kind h m with
| Some kind => existsb (message_type_eqb kind) (supported_kinds h)
| None => false
end.

(** The query of a message: the text of a text message, the transcript of
    a voice message; none when the transcription fails. *)
Definition query_of (h : Channels.ChannelBase) (m : Channels.Message)
  : option string :=
match content_kind h m with
| Some VOICE => Channels.transcription m
| _ => Some (Channels.message_text m)
end.

(** The transport calls of a transcription: Telegram shows that a voice
    message is being processed and then the transcript; WhatsApp and
    Facebook send the transcript as a text. *)
Definition heard (h : Channels.ChannelBase) (ev : Env) (m : Channels.Message)
  : list Event :=
match content_kind h m, Channels.transcription m with
| Some VOICE, Some transcript =>
    match Channels.cls h with
    | Channels.TelegramChannel =>
        [TranscriptionStarted; TranscriptionFinished transcript]
    | _ => sent h ev ("I heard: " ++ Channels.quote ++ transcript
                      ++ Channels.quote)
    end
| _, _ => []
end.

(** The participant of a chat identity in the team of the experiment, if
    the table has one. *)
Definition known_participant (e : Experiment) (ident : string) (w : World)
  : option Participant :=
find (fun p => (identifier p =? ident) && (participant_team p =? team e)%nat)
  (participants w).

(** The store after the first message of a chat: the participant is
    created unless the team has one with the identity; one session is
    created for the participant, in SETUP, not ended, on the channel of the
    handler; the start of the conversation and the joining of the
    participant are announced. *)
Definition first_contact (h : Channels.ChannelBase) (ident : string)
  (w : World) : World :=
let e := Channels.experiment h in
let created :=
  {| participant_id := next_id participant_id (participants w);
     identifier := ident; participant_team := team e; user := None;
     participant_data_record := None |} in
let sid := next_id session_id (sessions w) in
let session (p : Participant) :=
  {| session_id := sid; session_experiment := experiment_id e;
     session_participant := participant_id p; status := SETUP;
     ended_at := None;
     session_channel := Some (Channels.experiment_channel h);
     no_activity_ping_count := 0; openai_thread_id := None |} in
set_trace
  (trace w ++ [EnqueueStaticTrigger sid CONVERSATION_START;
               EnqueueStaticTrigger sid PARTICIPANT_JOINED_EXPERIMENT])%list
  match known_participant e ident w with
  | Some p => set_sessions (sessions w ++ [session p])%list w
  | None =>
      set_sessions (sessions w ++ [session created])%list
        (set_participants (participants w ++ [created])%list w)
  end.

(** The session a message is handled in, and the store once the session
    is resolved.  A handler of the web or Slack class is built with its
    session.  A handler of another class is built for a channel: it takes
    the latest session of the experiment and the chat identity of the
    message, giving it the channel of the handler if it has none; if there
    is no session yet, this is the first message of the chat. *)
Definition resolved (h : Channels.ChannelBase) (m : Channels.Message)
  (w : World) : option (nat * World) :=
match Channels.cls h with
| Channels.WebChannel | Channels.SlackChannel =>
    match Channels.experiment_session h with
    | Some sid => Some (sid, w)
    | None => None
    end
| _ =>
    match Channels.experiment_session h with
    | Some _ => None
    | None =>
        match Channels.latest_session (Channels.experiment h)
                (Channels.chat_id m) w with
        | Some s0 => Some (session_id s0, backfill h (session_id s0) w)
        | None =>
            Some (next_id session_id (sessions w),
                  first_contact h (Channels.chat_id m) w)
        end
    end
end.

(** The store once the query of the message is read: the transport calls
    of the transcription are made, nothing else changes. *)
Definition read_on (h : Channels.ChannelBase) (m : Channels.Message)
  (w : World) : World :=
set_trace (trace w ++ heard h (env w) m)%list w.

(** The handler while it handles the message [m] in the session [sid],
    with the query [q] read. *)
Definition handling (h : Channels.ChannelBase) (m : Channels.Message)
  (sid : nat) (q : string) : Channels.ChannelBase :=
Channels.set_user_query (Some q)
  (Channels.set_experiment_session (Some sid)
     (Channels.set_message (Some m) h)).

End Spec.

(** ** The control flow of the handler, flattened for the proofs *)

Module Flow.

(** The calls [_handle_pre_conversation_requirements] makes in a row of
    the table, in order. *)
Definition gate_steps (process_input : nat -> string -> bool -> M World string)
  (synthesize_voice : string -> option SynthesizedAudio)
  (sid : nat) (q : string) (st next : SessionStatus) (reply : Spec.GateReply)
  (text seed : string) : Channels.CM unit :=
on_world (create_chat_message sid HUMAN q) ;;;
(if status_eqb st next then ret tt else on_world (update_status sid next)) ;;;
match reply with
| Spec.ConsentRequest | Spec.SurveyLink =>
    on_world (create_chat_message sid AI text) ;;;
    Channels.send_text_to_user text
| Spec.SeedMessage =>
    if Py.truthy seed
    then response <- on_world (emit (ProcessInput sid seed false) ;;;
                               process_input sid seed false) ;;
         Channels.new_bot_message synthesize_voice response
    else ret tt
end.

End Flow.

(** ** Concrete configurations, after the fixtures of the test suites *)

Module Fixtures.

Definition to_prompt_message (m : ChatMessage) : PromptMessage :=
match message_type m with
| HUMAN => HumanMessage (content m)
| AI => AIMessage (content m)
| SYSTEM => SystemMessage (content m)
end.

(** An environment in which the clock is frozen, the model streams one
    chunk, the assistant finishes at once, nobody cancels, the history is
    not compressed, and a text is short enough to be sent in one piece. *)
Definition env0 : Env :=
{| time_time := fun _ => inject_Z 1707397208;
   db_cancelled := fun _ => false;
   model_respond := fun _ =>
     {| chunks := [Some "this is a test message"];
        usage_after := fun _ => (30, 20) |};
   assistant_respond := fun _ => AssistantFinish "thread_abc" "OK" (30, 20);
   cancelling_reads := fun _ => 0;
   compress_chat_history := fun msgs _ => map to_prompt_message msgs;
   current_datetime := "Thursday, 08 February 2024 13:00:08 UTC";
   route_keyword := fun _ _ => None;
   smart_split := fun text => [text] |}.

Definition world_of (e : Env) : World :=
{| participants := []; sessions := []; chat_messages := []; trace := [];
   now := 0; env := e; clock_reads := 0; db_refreshes := 0;
   assistant_calls := 0; cancel_calls := 0 |}.

Definition world0 : World := world_of env0.

Definition default_consent_form : ConsentForm :=
{| consent_text := "Welcome to this chatbot. Do you consent?";
   confirmation_text := "Respond with '1' if you agree" |}.

Definition default_survey : Survey :=
{| survey_confirmation_text :=
     "Before starting the experiment, we ask that you complete a short survey. Please click on the survey link, fill it out, and, when you have finished, respond with a '1' to let us know that you've completed it. Survey link: {survey_link}" |}.

(** The experiment of [TelegramMessageHandlerTest.setUp]. *)
Definition experiment0 : Experiment :=
{| experiment_id := 1; team := 1;
   prompt_text := "You are a helpful assistant";
   input_formatter := ""; source_material := None; assistant := None;
   llm := "gpt-4"; llm_provider := Some 1; temperature := (7 # 10)%Q;
   max_token_limit := 0; tools_enabled := false;
   conversational_consent_enabled := false;
   consent_form := Some default_consent_form; pre_survey := None;
   seed_message := ""; voice_provider := None;
   synthetic_voice := None;
   voice_response_behaviour := RECIPROCAL |}.

Definition with_consent (survey : option Survey) (seed : string)
  (e : Experiment) : Experiment :=
{| experiment_id := experiment_id e; team := team e;
   prompt_text := prompt_text e; input_formatter := input_formatter e;
   source_material := source_material e; assistant := assistant e;
   llm := llm e; llm_provider := llm_provider e;
   temperature := temperature e; max_token_limit := max_token_limit e;
   tools_enabled := tools_enabled e;
   conversational_consent_enabled := true;
   consent_form := consent_form e; pre_survey := survey;
   seed_message := seed; voice_provider := voice_provider e;
   synthetic_voice := synthetic_voice e;
   voice_response_behaviour := voice_response_behaviour e |}.

(** The experiment of [test_pre_conversation_flow]. *)
Definition experiment_consent : Experiment :=
with_consent (Some default_survey) "Hi human" experiment0.

Definition telegram_channel : ExperimentChannel :=
{| channel_id := 1; platform := TELEGRAM |}.

Definition no_service : Channels.MessagingService :=
{| Channels.service_voice_replies_supported := false;
   Channels.service_supported_message_types := [TEXT] |}.

(** [TelegramChannel(experiment_channel=...)]. *)
Definition telegram_handler (e : Experiment) : Channels.ChannelBase :=
Channels.new_channel Channels.TelegramChannel e telegram_channel
  no_service false.

(** [_telegram_message(chat_id, message_text)]. *)
Definition telegram_message (chat : string) (text : string) : Channels.Message :=
{| Channels.chat_id := chat; Channels.content_type := Some TEXT;
   Channels.content_type_unparsed := "text";
   Channels.message_text := text; Channels.transcription := None |}.

Definition RESET_COMMAND : string := "/reset".

Definition pre_survey_link (s : ExperimentSession) : string :=
"https://example.com/survey".

Definition no_voice (text : string) : option SynthesizedAudio := None.

(** The handler of a message with the collaborators of the fixtures: the
    bot is the pipeline of the experiment. *)
Definition handle (e : Experiment) (m : Channels.Message)
  : Channels.CM (option string) :=
Channels.new_user_message RESET_COMMAND (Bots.process_input e)
  Bots.user_already_engaged pre_survey_link no_voice m.

(** An experiment with tools enabled and a model name, whose provider was
    removed. *)
Definition experiment_without_provider : Experiment :=
{| experiment_id := 2; team := 1;
   prompt_text := "You are a helpful assistant";
   input_formatter := ""; source_material := None; assistant := None;
   llm := "gpt-4"; llm_provider := None; temperature := (7 # 10)%Q;
   max_token_limit := 0; tools_enabled := true;
   conversational_consent_enabled := false;
   consent_form := None; pre_survey := None;
   seed_message := ""; voice_provider := None;
   synthetic_voice := None;
   voice_response_behaviour := RECIPROCAL |}.

(** An experiment that references a hosted assistant; the tools are
    enabled as well. *)
Definition experiment_assistant : Experiment :=
{| experiment_id := 3; team := 1;
   prompt_text := "You are a helpful assistant";
   input_formatter := ""; source_material := None;
   assistant := Some {| instructions := "Help {participant_data}";
                        assistant_check_every_ms := 1000 |};
   llm := ""; llm_provider := None; temperature := (7 # 10)%Q;
   max_token_limit := 0; tools_enabled := true;
   conversational_consent_enabled := false;
   consent_form := None; pre_survey := None;
   seed_message := ""; voice_provider := None;
   synthetic_voice := None;
   voice_response_behaviour := RECIPROCAL |}.

Definition participant1 : Participant :=
{| participant_id := 1; identifier := "123"; participant_team := 1;
   user := None; participant_data_record := Some "{'name': 'Tester'}" |}.

Definition session1 (e : Experiment) (st : SessionStatus) (c : ExperimentChannel)
  : ExperimentSession :=
{| session_id := 1; session_experiment := experiment_id e;
   session_participant := 1; status := st; ended_at := None;
   session_channel := Some c; no_activity_ping_count := 0;
   openai_thread_id := None |}.

(** A store with one participant and one session of [e]. *)
Definition world1 (ev : Env) (e : Experiment) (st : SessionStatus)
  (c : ExperimentChannel) : World :=
set_sessions [session1 e st c] (set_participants [participant1] (world_of ev)).

(** A runnable of the plain chain that last checked for cancellation when
    the clock read 100 seconds. *)
Definition runnable_checked_at_100 : Runnables.Runnable :=
Runnables.set_last_cancel_check (Some (inject_Z 100))
  (Runnables.new_runnable Runnables.SimpleExperimentRunnable experiment0 1).

(** Two seconds later the clock reads 102 seconds, and another actor has
    set the cancellation flag of the chat. *)
Definition env_cancelled_at_102 : Env :=
{| time_time := fun _ => inject_Z 102;
   db_cancelled := fun _ => true;
   model_respond := model_respond env0;
   assistant_respond := assistant_respond env0;
   cancelling_reads := cancelling_reads env0;
   compress_chat_history := compress_chat_history env0;
   current_datetime := current_datetime env0;
   route_keyword := route_keyword env0;
   smart_split := smart_split env0 |}.

(** The model streams three chunks; the flag is already set when the
    stream starts. *)
Definition env_cancelled_mid_stream : Env :=
{| time_time := time_time env0;
   db_cancelled := fun _ => true;
   model_respond := fun _ =>
     {| chunks := [Some "this "; Some "is a "; Some "test message"];
        usage_after := fun n => (30, 5 * n) |};
   assistant_respond := assistant_respond env0;
   cancelling_reads := cancelling_reads env0;
   compress_chat_history := compress_chat_history env0;
   current_datetime := current_datetime env0;
   route_keyword := route_keyword env0;
   smart_split := smart_split env0 |}.

(** An environment whose assistant answers the calls in the order of
    [answers] and finishes afterwards. *)
Definition env_assistant (answers : list AssistantOutcome) (polls : nat) : Env :=
{| time_time := time_time env0;
   db_cancelled := db_cancelled env0;
   model_respond := model_respond env0;
   assistant_respond := fun k =>
     nth k answers (AssistantFinish "thread_abc" "OK" (30, 20));
   cancelling_reads := fun _ => polls;
   compress_chat_history := compress_chat_history env0;
   current_datetime := current_datetime env0;
   route_keyword := route_keyword env0;
   smart_split := smart_split env0 |}.

Definition the_assistant : OpenAiAssistant :=
{| instructions := "Help {participant_data}";
   assistant_check_every_ms := 1000 |}.

Definition assistant_runnable : Runnables.Runnable :=
Runnables.new_runnable Runnables.AssistantExperimentRunnable
  experiment_assistant 1.

(** The provider error for a message sent to a thread with an active run,
    and the failure of a run that expired. *)
Definition thread_busy (thread run : string) : Exc :=
BadRequestError
  (Some ("Can't add messages to " ++ thread ++ " while a run " ++ run
         ++ " is active.")).

Definition run_expired : Exc :=
ValueError "Unexpected run status: expired. Full run info:".

Definition run_cancelled : Exc :=
ValueError "Unexpected run status: cancelled. Full run info:".

(** The handler in the middle of a conversation: it holds session 1 and
    has read the query [q] off its message. *)
Definition handler_with_query (e : Experiment) (q : string)
  : Channels.ChannelBase :=
Channels.set_user_query (Some q)
  (Channels.set_message (Some (telegram_message "123" q))
     (Channels.set_experiment_session (Some 1) (telegram_handler e))).

Definition survey_text : string :=
"Before starting the experiment, we ask that you complete a short survey. Please click on the survey link, fill it out, and, when you have finished, respond with a '1' to let us know that you've completed it. Survey link: https://example.com/survey".

Definition consent_request_text : string :=
consent_text default_consent_form ++ newline ++ newline
++ confirmation_text default_consent_form.

(** The store of [test_reset_command_creates_new_experiment_session]
    after the first exchange: one active session with a human and an AI
    entry. *)
Definition world_engaged : World :=
set_chat_messages
  [{| chat := 1; message_type := HUMAN; content := "Hi there"; tags := [] |};
   {| chat := 1; message_type := AI; content := "OK"; tags := [] |}]
  (world1 env0 experiment0 ACTIVE telegram_channel).

(** A new handler that has just been given the reset command. *)
Definition handler_given_reset : Channels.ChannelBase :=
Channels.set_message (Some (telegram_message "123" RESET_COMMAND))
  (Channels.set_user_query None (telegram_handler experiment0)).

(** One run of the retry loop against the answers of the assistant: the
    result, and how many calls and cancellations were made. *)
Definition retry_run (answers : list AssistantOutcome) (polls : nat)
  (thread : option string) :=
let run := Runnables._get_response_with_retries the_assistant
             "hi" thread "Help "
             (assistant_runnable,
              world1 (env_assistant answers polls)
                experiment_assistant ACTIVE telegram_channel)
in (fst run, assistant_calls (snd (snd run)), cancel_calls (snd (snd run))).

(** The experiment of [test_runnable_with_participant_data], with source
    material as well. *)
Definition experiment_with_placeholders (sm : option SourceMaterial)
  : Experiment :=
{| experiment_id := 1; team := 1;
   prompt_text := "System prompt with {source_material} for {participant_data}";
   input_formatter := ""; source_material := sm; assistant := None;
   llm := "gpt-4"; llm_provider := Some 1; temperature := (7 # 10)%Q;
   max_token_limit := 0; tools_enabled := false;
   conversational_consent_enabled := false;
   consent_form := None; pre_survey := None;
   seed_message := ""; voice_provider := None;
   synthetic_voice := None;
   voice_response_behaviour := RECIPROCAL |}.

Definition placeholder_segments : list Spec.Segment :=
[Spec.Literal "System prompt with "; Spec.SourceMaterialField;
 Spec.Literal " for "; Spec.ParticipantDataField].

Definition web_channel : ExperimentChannel :=
{| channel_id := 2; platform := WEB |}.

Definition api_channel : ExperimentChannel :=
{| channel_id := 4; platform := API |}.

(** [ApiChannel(experiment_channel=...)]. *)
Definition api_handler (e : Experiment) : Channels.ChannelBase :=
Channels.new_channel Channels.ApiChannel e api_channel no_service false.

End Fixtures.

(** ** Vocabulary of the further properties *)

Module Obs.

(** An outward call of the retry loop of the hosted assistant made for the
    thread [thread] of the chat: a call of the assistant on that thread (on
    no thread while the chat has none), a cancellation or a status read of
    a run of that thread, or a pause of the assistant's polling interval in
    seconds. *)
Definition on_thread (thread : option string) (a : OpenAiAssistant)
  (ev : Event) : Prop :=
match ev with
| AssistantInvoke _ th _ =>
    th = (if Runnables.truthy_thread thread then thread else None)
| RunsCancel t _ => thread = Some t
| RunsRetrieve _ t => thread = Some t
| Sleep seconds => seconds = (inject_Z (assistant_check_every_ms a) / 1000)%Q
| _ => False
end.

(** The store [w'] differs from [w] at most in the trace and in the
    counters of questions put to the environment. *)
Definition same_tables (w w' : World) : Prop :=
participants w' = participants w /\ sessions w' = sessions w
/\ chat_messages w' = chat_messages w /\ now w' = now w /\ env w' = env w.

(** A run of the retry loop from [w] to [w'] with at most [n] attempts
    left: the tables are as they were, the outward calls are calls for the
    thread, at most [n] calls of the assistant were made, and the runs
    cancelled are at most the calls made plus [slack], fewer when the run
    ends with a response. *)
Definition retried {A} (thread : option string) (a : OpenAiAssistant)
  (n slack : nat) (w : World) (res : Res A) (w' : World) : Prop :=
same_tables w w'
/\ (exists added, trace w' = (trace w ++ added)%list
                  /\ Forall (on_thread thread a) added)
/\ exists c k,
     assistant_calls w' = assistant_calls w + c
     /\ cancel_calls w' = cancel_calls w + k
     /\ c <= n /\ k <= c + slack
     /\ (forall x, res = Ok x -> k < c + slack).

Definition is_digit (c : ascii) : bool :=
let n := nat_of_ascii c in ((48 <=? n) && (n <=? 57))%nat.

Fixpoint all_digits (s : string) : bool :=
match s with
| EmptyString => true
| String c r => is_digit c && all_digits r
end.

Fixpoint plain_chars (s : string) : bool :=
match s with
| EmptyString => true
| String c r =>
    negb (Py.is_brace c) && negb (Py.is_field_special c) && plain_chars r
end.

(** A field name that [str.format] looks up among the keyword arguments:
    not empty, not a number (a number is a positional field), and free of
    braces, conversions, format specs, attribute and index access. *)
Definition plain_name (s : string) : bool :=
negb (s =? "") && negb (all_digits s) && plain_chars s.

End Obs.


(** ** Starting a session from outside a conversation *)

Module Start.

(** A platform user, as [_start_experiment_session] reads it. *)
Record CustomUser := {
  user_id : nat;
  email : string
}.

(** What starting a session writes besides the tables of the store: the
    external id of a session, the timezone put in the memory of a
    participant, and the tasks queued for a seed message. *)
Record Ledger := {
  external_ids : list (nat * string);
  timezones : list (nat * string);
  seed_tasks : list (nat * string)
}.

Definition SM := M (Ledger * World).

Definition with_user (u : option nat) (p : Participant) : Participant :=
{| participant_id := participant_id p; identifier := identifier p;
   participant_team := participant_team p; user := u;
   participant_data_record := participant_data_record p |}.

(** The rows of [Participant.objects.get(team=..., identifier=...)]. *)
Definition matching_participants (team_id : nat) (ident : string) (w : World)
  : list Participant :=
filter (fun p => (participant_team p =? team_id)%nat && (identifier p =? ident))
  (participants w).

(** [Participant.objects.create(user=..., identifier=..., team=...)]. *)
Definition create_participant (u : option nat) (ident : string) (team_id : nat)
  : M World nat :=
fun w =>
  let pid := next_id participant_id (participants w) in
  (Ok pid,
   set_participants
     (participants w
      ++ [{| participant_id := pid; identifier := ident;
             participant_team := team_id; user := u;
             participant_data_record := None |}])%list w).

(** [participant.user = participant_user; participant.save()]. *)
Definition link_user (pid : nat) (u : nat) : M World unit :=
modify (fun w =>
  set_participants
    (map (fun p => if (participant_id p =? pid)%nat
                   then with_user (Some u) p else p) (participants w)) w).

(** [ExperimentSession.objects.create(team=..., experiment=..., llm=...,
    experiment_channel=..., status=..., participant=..., external_id=...)]. *)
Definition create_session (e : Experiment) (c : ExperimentChannel)
  (st : SessionStatus) (pid : nat) : M World nat :=
fun w =>
  let sid := next_id session_id (sessions w) in
  (Ok sid,
   set_sessions
     (sessions w
      ++ [{| session_id := sid; session_experiment := experiment_id e;
             session_participant := pid; status := st; ended_at := None;
             session_channel := Some c; no_activity_ping_count := 0;
             openai_thread_id := None |}])%list w).

Definition on_ledger (f : Ledger -> Ledger) : SM unit :=
fun s => (Ok tt, (f (fst s), snd s)).

Definition add_external_id (sid : nat) (x : string) (l : Ledger) : Ledger :=
{| external_ids := (external_ids l ++ [(sid, x)])%list;
   timezones := timezones l; seed_tasks := seed_tasks l |}.

Definition add_timezone (pid : nat) (tz : string) (l : Ledger) : Ledger :=
{| external_ids := external_ids l;
   timezones := (timezones l ++ [(pid, tz)])%list;
   seed_tasks := seed_tasks l |}.

Definition add_seed_task (sid : nat) (text : string) (l : Ledger) : Ledger :=
{| external_ids := external_ids l; timezones := timezones l;
   seed_tasks := (seed_tasks l ++ [(sid, text)])%list |}.

(** [participant.experimentsession_set.count()]. *)
Definition session_count (pid : nat) (w : World) : nat :=
length (filter (fun s => session_participant s =? pid)%nat (sessions w)).

(** The body of the [transaction.atomic()] block: nothing is written
    before the one statement that can raise. *)
Definition start_in_transaction (e : Experiment) (c : ExperimentChannel)
  (participant_identifier : string) (participant_user : option CustomUser)
  (session_status : SessionStatus) (timezone : option string)
  (session_external_id : option string) : SM (nat * nat) :=
found <- on_world (gets (matching_participants (team e) participant_identifier)) ;;
pid <-
  match found with
  | [] =>
      on_world (create_participant (option_map user_id participant_user)
                  participant_identifier (team e))
  | [p] =>
      match participant_user, user p with
      | Some u, None => on_world (link_user (participant_id p) (user_id u))
      | _, _ => ret tt
      end ;;;
      ret (participant_id p)
  | _ :: _ :: _ => raise (OtherException "MultipleObjectsReturned")
  end ;;
sid <- on_world (create_session e c session_status pid) ;;
match session_external_id with
| Some x => on_ledger (add_external_id sid x)
| None => ret tt
end ;;;
match timezone with
| Some tz => if Py.truthy tz then on_ledger (add_timezone pid tz) else ret tt
| None => ret tt
end ;;;
ret (pid, sid).

(** [_start_experiment_session]; the value is the key of the session. *)
Definition _start_experiment_session (e : Experiment) (c : ExperimentChannel)
  (participant_identifier : string) (participant_user : option CustomUser)
  (session_status : SessionStatus) (timezone : option string)
  (session_external_id : option string) : SM nat :=
if negb (Py.truthy participant_identifier)
   && match participant_user with None => true | Some _ => false end
then raise (ValueError
       "Either participant_identifier or participant_user must be specified!")
else
if match participant_user with
   | Some u => negb (participant_identifier =? email u)
   | None => false
   end
then raise (OtherException
       ("User " ++ match participant_user with
                   | Some u => email u
                   | None => ""
                   end
        ++ " cannot impersonate participant " ++ participant_identifier))
else
ids <- start_in_transaction e c participant_identifier participant_user
         session_status timezone session_external_id ;;
let (pid, sid) := ids in
n <- on_world (gets (session_count pid)) ;;
(if (n =? 1)%nat
 then on_world (emit (EnqueueStaticTrigger sid PARTICIPANT_JOINED_EXPERIMENT))
 else ret tt) ;;;
on_world (emit (EnqueueStaticTrigger sid CONVERSATION_START)) ;;;
ret sid.

(** [WebChannel.check_and_process_seed_message]. *)
Definition check_and_process_seed_message (e : Experiment) (sid : nat)
  : SM nat :=
(if Py.truthy (seed_message e)
 then on_ledger (add_seed_task sid (seed_message e))
 else ret tt) ;;;
ret sid.

(** [WebChannel.start_new_session]. *)
Definition web_start_new_session (e : Experiment) (c : ExperimentChannel)
  (participant_identifier : string) (participant_user : option CustomUser)
  (session_status : SessionStatus) (timezone : option string) : SM nat :=
sid <- _start_experiment_session e c participant_identifier participant_user
         session_status timezone None ;;
check_and_process_seed_message e sid.

(** [SlackChannel.start_new_session]. *)
Definition slack_start_new_session (e : Experiment) (c : ExperimentChannel)
  (participant_identifier : string) (external_id : string) : SM nat :=
_start_experiment_session e c participant_identifier None ACTIVE None
  (Some external_id).

End Start.

(** ** Further configurations *)

Module Cases.

(** An experiment whose input formatter frames the input. *)
Definition experiment_with_formatter : Experiment :=
{| experiment_id := 1; team := 1;
   prompt_text := "You are a helpful assistant";
   input_formatter := "Question: {input} Answer briefly.";
   source_material := None; assistant := None;
   llm := "gpt-4"; llm_provider := Some 1; temperature := (7 # 10)%Q;
   max_token_limit := 0; tools_enabled := false;
   conversational_consent_enabled := false;
   consent_form := None; pre_survey := None;
   seed_message := ""; voice_provider := None;
   synthetic_voice := None;
   voice_response_behaviour := RECIPROCAL |}.

Definition input_hi : Runnables.InputDict :=
{| Runnables.input_value := "hi"; Runnables.source_material_value := "";
   Runnables.participant_data_value := ""; Runnables.history_value := [] |}.

(** [WebChannel(experiment_session=session)] for session 1. *)
Definition web_handler (e : Experiment) : Channels.ChannelBase :=
Channels.set_experiment_session (Some 1)
  (Channels.new_channel Channels.WebChannel e Fixtures.web_channel
     Fixtures.no_service false).

(** A web handler built without a session. *)
Definition web_handler_without_session : Channels.ChannelBase :=
Channels.new_channel Channels.WebChannel Fixtures.experiment0
  Fixtures.web_channel Fixtures.no_service false.

(** A Telegram message that is neither text nor voice. *)
Definition photo_message : Channels.Message :=
{| Channels.chat_id := "123"; Channels.content_type := None;
   Channels.content_type_unparsed := "photo";
   Channels.message_text := ""; Channels.transcription := None |}.

Definition empty_ledger : Start.Ledger :=
{| Start.external_ids := []; Start.timezones := []; Start.seed_tasks := [] |}.

Definition slack_channel : ExperimentChannel :=
{| channel_id := 3; platform := SLACK |}.

(** A store in which the latest session of the chat has ended while an
    older one has not: session 1 is open, session 2 was created after it,
    saw a conversation and was ended, as a job outside the handler ends
    sessions. *)
Definition world_latest_ended : World :=
set_chat_messages
  [{| chat := 2; message_type := HUMAN; content := "Hi there"; tags := [] |};
   {| chat := 2; message_type := AI; content := "OK"; tags := [] |}]
  (set_now 8
     (set_sessions
        [Fixtures.session1 Fixtures.experiment0 ACTIVE
           Fixtures.telegram_channel;
         {| session_id := 2; session_experiment := 1;
            session_participant := 1; status := ACTIVE;
            ended_at := Some 7;
            session_channel := Some Fixtures.telegram_channel;
            no_activity_ping_count := 0; openai_thread_id := None |}]
        (set_participants [Fixtures.participant1] Fixtures.world0))).

End Cases.

Module Migrated.

(** A store whose only session was made by the data migration: it has no
    channel. *)
Definition world : World :=
set_sessions
  [with_channel None
     (Fixtures.session1 Fixtures.experiment0 ACTIVE Fixtures.telegram_channel)]
  (set_participants [Fixtures.participant1] Fixtures.world0).

(** A voice message of the participant of that session. *)
Definition voice_message : Channels.Message :=
{| Channels.chat_id := "123"; Channels.content_type := Some VOICE;
   Channels.content_type_unparsed := "voice";
   Channels.message_text := ""; Channels.transcription := Some "Hi there" |}.

Definition handler : Channels.ChannelBase :=
Channels.set_message (Some voice_message)
  (Fixtures.telegram_handler Fixtures.experiment0).

End Migrated.

(** * Properties *)

(** ** The built-ins on examples *)

Example strip_ex : Py.strip " 1 " = "1".
Proof. reflexivity. Qed.

Example format_ex :
  Py.format "Go to {survey_link} {{now}}" [("survey_link", "http://x")]
  = inr "Go to http://x {now}".
Proof. reflexivity. Qed.

(** ** Whitespace stripping and the consent token *)

Section Strip.

Arguments Py.isspace : simpl never.

Lemma lstrip_spaces (l s : string) :
  Py.all_space l = true -> Py.lstrip (l ++ s) = Py.lstrip s.
Proof.
  induction l as [|c l IH]; simpl; intros H; [reflexivity|].
  apply andb_true_iff in H as [Hc Hl]. rewrite Hc. auto.
Qed.

Lemma rstrip_spaces (r : string) :
  Py.all_space r = true -> Py.rstrip r = "".
Proof.
  induction r as [|c r IH]; simpl; intros H; [reflexivity|].
  apply andb_true_iff in H as [Hc Hr]. rewrite (IH Hr), Hc. reflexivity.
Qed.

(** What [lstrip] removes is whitespace. *)
Lemma lstrip_split (s : string) :
  exists l, s = l ++ Py.lstrip s /\ Py.all_space l = true.
Proof.
  induction s as [|c s [l [Hs Hl]]]; simpl.
  - exists "". auto.
  - destruct (Py.isspace c) eqn:Hc.
    + exists (String c l). simpl. rewrite Hc, Hl, <- Hs. auto.
    + exists "". auto.
Qed.

(** What [rstrip] removes is whitespace. *)
Lemma rstrip_split (s : string) :
  exists r, s = Py.rstrip s ++ r /\ Py.all_space r = true.
Proof.
  induction s as [|c s [r [Hs Hr]]]; simpl.
  - exists "". auto.
  - destruct (Py.isspace c) eqn:Hc; simpl.
    + destruct (Py.rstrip s) eqn:Hrs; simpl.
      * exists (String c r). simpl in Hs. subst r. simpl.
        rewrite Hc, Hr. auto.
      * exists r. simpl in Hs. rewrite Hs at 1. auto.
    + exists r. rewrite Hs at 1. auto.
Qed.

Lemma strip_token_padded (l r : string) :
  Py.all_space l = true -> Py.all_space r = true ->
  Py.strip (l ++ "1" ++ r) = "1".
Proof.
  intros Hl Hr. unfold Py.strip. rewrite (lstrip_spaces _ _ Hl).
  simpl. rewrite (rstrip_spaces _ Hr). reflexivity.
Qed.

Lemma strip_token_only_padded (q : string) :
  Py.strip q = "1" ->
  exists l r, q = l ++ "1" ++ r
              /\ Py.all_space l = true /\ Py.all_space r = true.
Proof.
  unfold Py.strip. intros H.
  destruct (lstrip_split q) as [l [Hq Hl]].
  destruct (rstrip_split (Py.lstrip q)) as [r [Hs Hr]].
  exists l, r. rewrite H in Hs. rewrite Hq at 1. rewrite Hs at 1. auto.
Qed.

End Strip.

(** ** The handler's view of the user query *)

Section UserQuery.

Variable process_input : nat -> string -> bool -> M World string.
Variable synthesize_voice : string -> option SynthesizedAudio.

(** Once extracted and not empty, the query is read without any effect. *)
Lemma user_query_cached (h : Channels.ChannelBase) (w : World) (q : string) :
  Channels._user_query h = Some q -> Py.truthy q = true ->
  Channels.user_query process_input synthesize_voice (h, w) = (Ok q, (h, w)).
Proof.
  intros Hq Ht. unfold Channels.user_query, bind, on_self. simpl.
  rewrite Hq, Ht. reflexivity.
Qed.

(** C10: the consent check compares the user query, with leading and
    trailing whitespace stripped, against the token [1]: a reply is accepted
    exactly when it is the token surrounded by whitespace only, and the
    check changes nothing. *)
Theorem C10_consent_check_strips_whitespace
  (h : Channels.ChannelBase) (w : World) (q : string) :
  Channels._user_query h = Some q -> Py.truthy q = true ->
  exists b,
    Channels._user_gave_consent process_input synthesize_voice (h, w)
    = (Ok b, (h, w))
    /\ b = (Py.strip q =? Channels.USER_CONSENT_TEXT)
    /\ (b = true <->
        exists l r, q = l ++ "1" ++ r
                    /\ Py.all_space l = true /\ Py.all_space r = true).
Proof.
  intros Hq Ht. exists (Py.strip q =? Channels.USER_CONSENT_TEXT).
  split; [|split; [reflexivity|]].
  - unfold Channels._user_gave_consent, bind.
    rewrite (user_query_cached h w q Hq Ht). reflexivity.
  - unfold Channels.USER_CONSENT_TEXT. rewrite String.eqb_eq. split.
    + apply strip_token_only_padded.
    + intros [l [r [-> [Hl Hr]]]]. apply strip_token_padded; assumption.
Qed.

End UserQuery.

(** The reply [ 1 ] of the tests is accepted. *)
Lemma C10_witness :
  exists b,
    Channels._user_gave_consent (Bots.process_input Fixtures.experiment0)
      Fixtures.no_voice
      (Channels.set_user_query (Some " 1 ")
         (Fixtures.telegram_handler Fixtures.experiment0), Fixtures.world0)
    = (Ok b, (Channels.set_user_query (Some " 1 ")
                (Fixtures.telegram_handler Fixtures.experiment0),
              Fixtures.world0))
    /\ b = (Py.strip " 1 " =? Channels.USER_CONSENT_TEXT)
    /\ (b = true <->
        exists l r, " 1 " = l ++ "1" ++ r
                    /\ Py.all_space l = true /\ Py.all_space r = true).
Proof.
  apply (C10_consent_check_strips_whitespace
           (Bots.process_input Fixtures.experiment0) Fixtures.no_voice
           (Channels.set_user_query (Some " 1 ")
              (Fixtures.telegram_handler Fixtures.experiment0))
           Fixtures.world0 " 1 "); reflexivity.
Defined.

(** No other normalisation: case, other digits and embedded text are not
    the token. *)
Example consent_not_normalised :
  map (fun q => Py.strip q =? Channels.USER_CONSENT_TEXT)
      ["1"; " 1 "; "1 1"; "one"; "I"; "1."; "yes 1"; "01"; ""]
  = [true; true; false; false; false; false; false; false; false].
Proof. reflexivity. Qed.

(** ** The runnable factory *)

(** C6 as stated fails: with tools enabled and no assistant the claim
    promises the agent, but without a provider the factory makes no
    runnable at all. *)
Lemma C6_counterexample :
  Spec.variant Fixtures.experiment_without_provider = Runnables.AgentExperimentRunnable
  /\ Runnables.create_experiment_runnable Fixtures.experiment_without_provider 1
     = Raise (AssertionError "Experiment must have an LLM provider")
  /\ forall r, Runnables.create_experiment_runnable Fixtures.experiment_without_provider 1
               <> Ok r.
Proof.
  split; [reflexivity|]. split; [reflexivity|].
  intros r H. discriminate H.
Qed.

(** C6, amended: for every experiment that references an assistant or has
    both a model and a provider, the factory makes a fresh runnable of the
    variant the priority order selects (the assistant first, even when tools
    are enabled; else the agent when tools are enabled; else the plain
    completion); for any other experiment it fails an assertion. *)
Theorem C6_factory_priority (e : Experiment) (sid : nat) :
  if Spec.has_model e
  then Runnables.create_experiment_runnable e sid
       = Ok (Runnables.new_runnable (Spec.variant e) e sid)
  else exists msg,
       Runnables.create_experiment_runnable e sid = Raise (AssertionError msg).
Proof.
  unfold Spec.has_model, Spec.variant, Runnables.create_experiment_runnable.
  destruct (assistant e); [reflexivity|].
  destruct (Py.truthy (llm e)); simpl; [|eexists; reflexivity].
  destruct (llm_provider e); [|eexists; reflexivity].
  destruct (tools_enabled e); reflexivity.
Qed.

(** An assistant wins over enabled tools. *)
Example factory_assistant_first :
  Runnables.cls
    (Runnables.new_runnable
       (Spec.variant
          {| experiment_id := 3; team := 1; prompt_text := "";
             input_formatter := ""; source_material := None;
             assistant := Some {| instructions := "Be kind";
                                  assistant_check_every_ms := 1000 |};
             llm := ""; llm_provider := None; temperature := 0%Q;
             max_token_limit := 0; tools_enabled := true;
             conversational_consent_enabled := false;
             consent_form := None; pre_survey := None;
             seed_message := ""; voice_provider := None;
   synthetic_voice := None;
             voice_response_behaviour := RECIPROCAL |})
       Fixtures.experiment0 1)
  = Runnables.AssistantExperimentRunnable.
Proof. reflexivity. Qed.

(** ** Inversion of computations *)

Lemma bind_ok_inv {S A B} (m : M S A) (k : A -> M S B) (s s' : S) (b : B) :
  bind m k s = (Ok b, s') ->
  exists a s1, m s = (Ok a, s1) /\ k a s1 = (Ok b, s').
Proof.
  unfold bind. destruct (m s) as [[a|e] s1]; intros H.
  - exists a, s1. auto.
  - discriminate H.
Qed.

Ltac bind_inv H :=
  let a := fresh "a" in
  let s1 := fresh "st" in
  let H1 := fresh "Hrun" in
  apply bind_ok_inv in H as [a [s1 [H1 H]]].

(** ** The hosted assistant *)

(** C9: an invocation of the hosted-assistant runnable that returns gives a
    generation result whose token counts are both zero, whatever the
    provider counted. *)
Theorem C9_assistant_zero_tokens (r : Runnables.Runnable) (w : World)
  (input : string) (config : Runnables.Config) (out : ChainOutput)
  (st' : Runnables.Runnable * World) :
  Runnables.assistant_invoke input config (r, w) = (Ok out, st') ->
  prompt_tokens out = 0 /\ completion_tokens out = 0.
Proof.
  unfold Runnables.assistant_invoke. intros H.
  repeat bind_inv H.
  destruct (assistant a); [|discriminate H].
  repeat bind_inv H.
  inversion H. subst. simpl. auto.
Qed.

(** The assistant of the fixtures finishes a run for which the provider
    counted 30 and 20 tokens; the result carries zeros. *)
Lemma C9_witness :
  assistant_respond Fixtures.env0 0 = AssistantFinish "thread_abc" "OK" (30, 20)
  /\ exists out st',
       Runnables.assistant_invoke "hi" Runnables.default_config
         (Fixtures.assistant_runnable,
          Fixtures.world1 Fixtures.env0 Fixtures.experiment_assistant ACTIVE
            Fixtures.telegram_channel)
       = (Ok out, st')
       /\ output out = "OK"
       /\ prompt_tokens out = 0 /\ completion_tokens out = 0.
Proof.
  split; [reflexivity|].
  eexists. eexists. split; [vm_compute; reflexivity|].
  split; [reflexivity|].
  eapply (C9_assistant_zero_tokens Fixtures.assistant_runnable
            (Fixtures.world1 Fixtures.env0 Fixtures.experiment_assistant ACTIVE
               Fixtures.telegram_channel)
            "hi" Runnables.default_config).
  vm_compute. reflexivity.
Defined.

(** ** Polling the cancellation flag *)

Lemma Qltb_lt (a b : Q) : (a < b)%Q -> Runnables.Qltb a b = true.
Proof.
  intros H. unfold Runnables.Qltb.
  destruct (Qle_bool b a) eqn:E; [|reflexivity].
  apply Qle_bool_iff in E. exfalso. exact (Qlt_not_le _ _ H E).
Qed.

(** The comparison that decides whether the flag is read adds
    [check_every_ms] to a clock reading in seconds: with the default of
    1000, nothing is read while the clock is less than 1000 seconds past the
    last check. *)
Lemma chat_is_cancelled_window (r : Runnables.Runnable) (w : World) (last : Q) :
  Runnables.cancelled r = false ->
  Runnables.last_cancel_check r = Some last ->
  Qeq_bool last 0 = false ->
  Runnables.check_every_ms r = 1000%Z ->
  (time_time (env w) (clock_reads w) < last + inject_Z 1000)%Q ->
  Runnables._chat_is_cancelled (r, w)
  = (Ok false, (r, set_clock_reads (S (clock_reads w)) w)).
Proof.
  intros Hc Hl Hz Hms Hlt.
  unfold Runnables._chat_is_cancelled, bind, on_self, on_world, ret,
    Runnables.time_time_call.
  cbn [fst snd]. rewrite Hc, Hl, Hz, Hms. cbn [negb andb Z.eqb fst snd].
  rewrite (Qltb_lt _ _ Hlt). reflexivity.
Qed.

(** The first check of a runnable reads the flag. *)
Lemma chat_is_cancelled_first_check (r : Runnables.Runnable) (w : World) :
  Runnables.cancelled r = false ->
  Runnables.last_cancel_check r = None ->
  exists r' w',
    Runnables._chat_is_cancelled (r, w)
    = (Ok (db_cancelled (env w) (db_refreshes w)), (r', w'))
    /\ Runnables.cancelled r' = db_cancelled (env w) (db_refreshes w)
    /\ db_refreshes w' = S (db_refreshes w).
Proof.
  intros Hc Hl.
  unfold Runnables._chat_is_cancelled, bind, on_self, on_world, ret,
    set_self, Runnables.time_time_call, Runnables.refresh_cancelled. simpl.
  rewrite Hc, Hl. simpl.
  destruct (db_cancelled (env w) (db_refreshes w)) eqn:E; simpl.
  - eexists. eexists. split; [reflexivity|]. simpl. auto.
  - rewrite Hc. eexists. eexists. split; [reflexivity|]. simpl. auto.
Qed.

(** C2, the failing input: the runnable last checked at 100 seconds, the
    clock now reads 102 seconds, so 2000 milliseconds have elapsed, and the
    flag is set in the database; the check answers that the chat is not
    cancelled and does not read the flag. *)
Theorem C2_flag_not_reread_after_two_seconds :
  let w := Fixtures.world_of Fixtures.env_cancelled_at_102 in
  Runnables.last_cancel_check Fixtures.runnable_checked_at_100
  = Some (inject_Z 100)
  /\ ((time_time (env w) (clock_reads w) - inject_Z 100) * 1000 == 2000)%Q
  /\ db_cancelled (env w) (db_refreshes w) = true
  /\ exists w',
       Runnables._chat_is_cancelled (Fixtures.runnable_checked_at_100, w)
       = (Ok false, (Fixtures.runnable_checked_at_100, w'))
       /\ db_refreshes w' = db_refreshes w.
Proof.
  simpl. split; [reflexivity|]. split; [reflexivity|]. split; [reflexivity|].
  eexists. split; [vm_compute; reflexivity|]. reflexivity.
Qed.

(** Once the flag is observed, the stream is left and the partial output
    is raised as a cancellation; the input is already in the history. *)
Example invoke_cancelled_mid_stream :
  let w := Fixtures.world1 Fixtures.env_cancelled_mid_stream
             Fixtures.experiment0 ACTIVE Fixtures.telegram_channel in
  let run := Runnables.invoke "hi" Runnables.default_config
               (Runnables.new_runnable Runnables.SimpleExperimentRunnable
                  Fixtures.experiment0 1, w) in
  fst run = Raise (GenerationCancelled
                     {| output := "this "; prompt_tokens := 30;
                        completion_tokens := 5 |})
  /\ chat_messages (snd (snd run))
     = [{| chat := 1; message_type := HUMAN; content := "hi"; tags := [] |}].
Proof. vm_compute. split; reflexivity. Qed.

(** ** Retries of the hosted assistant *)

(** C3, the failing input: the first call of the assistant raises a
    [ValueError] that does not speak of a cancellation (the run expired);
    the error is swallowed and the assistant is called again, with no run
    cancelled in between. *)
Theorem C3_unrecognised_error_is_retried :
  let w := Fixtures.world1
             (Fixtures.env_assistant [AssistantRaises Fixtures.run_expired] 0)
             Fixtures.experiment_assistant ACTIVE Fixtures.telegram_channel in
  let run := Runnables._get_response_with_retries Fixtures.the_assistant
               "hi" None "Help " (Fixtures.assistant_runnable, w) in
  assistant_respond (env w) 0
  = AssistantRaises (ValueError "Unexpected run status: expired. Full run info:")
  /\ Runnables.search_cancelled "Unexpected run status: expired. Full run info:"
     = false
  /\ Runnables.match_thread_busy "Unexpected run status: expired. Full run info:"
     = None
  /\ fst run = Ok {| Runnables.thread_id := "thread_abc";
                     Runnables.return_output := "OK" |}
  /\ assistant_calls (snd (snd run)) = 2
  /\ trace (snd (snd run))
     = [AssistantInvoke "hi" None "Help "; AssistantInvoke "hi" None "Help "].
Proof. vm_compute. repeat split. Qed.

(** The parts of the retry policy that hold, on the errors of the
    provider. *)
Example retry_after_thread_busy :
  Fixtures.retry_run [AssistantRaises (Fixtures.thread_busy "thread_abc" "run_1")] 2
    (Some "thread_abc")
  = (Ok {| Runnables.thread_id := "thread_abc";
           Runnables.return_output := "OK" |}, 2, 1).
Proof. vm_compute. reflexivity. Qed.

Example thread_mismatch_raises_at_once :
  Fixtures.retry_run [AssistantRaises (Fixtures.thread_busy "thread_abc" "run_1")] 0
    (Some "thread_xyz")
  = (Raise (GenerationError "Thread ID mismatch: thread_abc != thread_xyz"),
     1, 0).
Proof. vm_compute. reflexivity. Qed.

Example three_busy_attempts_fail :
  Fixtures.retry_run [AssistantRaises (Fixtures.thread_busy "thread_abc" "run_1");
             AssistantRaises (Fixtures.thread_busy "thread_abc" "run_2");
             AssistantRaises (Fixtures.thread_busy "thread_abc" "run_3")] 1
    (Some "thread_abc")
  = (Raise (GenerationError "Failed to get response after 3 retries"), 3, 3).
Proof. vm_compute. reflexivity. Qed.

Example cancelled_run_is_a_cancellation :
  Fixtures.retry_run [AssistantRaises Fixtures.run_cancelled] 0 None
  = (Raise (GenerationCancelled
              {| output := ""; prompt_tokens := 0; completion_tokens := 0 |}),
     1, 0).
Proof. vm_compute. reflexivity. Qed.

Example other_bad_request_raises_at_once :
  Fixtures.retry_run [AssistantRaises (BadRequestError (Some "Invalid request"))] 0 None
  = (Raise (BadRequestError (Some "Invalid request")), 1, 0).
Proof. vm_compute. reflexivity. Qed.

(** ** Prompt templates *)

Lemma string_app_assoc (a b c : string) : (a ++ b) ++ c = a ++ (b ++ c).
Proof. induction a; simpl; congruence. Qed.

Lemma brace_free_app (a b : string) :
  Spec.brace_free (a ++ b) = Spec.brace_free a && Spec.brace_free b.
Proof.
  induction a as [|c a IH]; simpl; [reflexivity|].
  rewrite IH. apply andb_assoc.
Qed.

Lemma format_literal (kw : list (string * string)) (t rest out : string) :
  Spec.brace_free t = true ->
  Py.format_go kw rest None = inr out ->
  Py.format_go kw (t ++ rest) None = inr (t ++ out).
Proof.
  induction t as [|c t IH]; simpl; intros Ht Hrest; [assumption|].
  apply andb_true_iff in Ht as [Hc Ht].
  unfold Py.is_brace in Hc. apply negb_true_iff, orb_false_iff in Hc as [H1 H2].
  rewrite H1, H2, (IH Ht Hrest). reflexivity.
Qed.

Lemma format_literal_only (kw : list (string * string)) (t : string) :
  Spec.brace_free t = true -> Py.format_go kw t None = inr t.
Proof.
  induction t as [|c t IH]; simpl; intros Ht; [reflexivity|].
  apply andb_true_iff in Ht as [Hc Ht].
  unfold Py.is_brace in Hc. apply negb_true_iff, orb_false_iff in Hc as [H1 H2].
  rewrite H1, H2, (IH Ht). reflexivity.
Qed.

Lemma format_source_material kw rest out v :
  Py.kwarg "source_material" kw = Some v ->
  Py.format_go kw rest None = inr out ->
  Py.format_go kw ("{source_material}" ++ rest) None = inr (v ++ out).
Proof.
  intros Hk Hrest. cbn. rewrite Hk, Hrest. reflexivity.
Qed.

Lemma format_participant_data kw rest out v :
  Py.kwarg "participant_data" kw = Some v ->
  Py.format_go kw rest None = inr out ->
  Py.format_go kw ("{participant_data}" ++ rest) None = inr (v ++ out).
Proof.
  intros Hk Hrest. cbn. rewrite Hk, Hrest. reflexivity.
Qed.

Lemma format_segments kw segs sm pd rest out :
  Py.kwarg "source_material" kw = Some sm ->
  Py.kwarg "participant_data" kw = Some pd ->
  Spec.literals_plain segs = true ->
  Py.format_go kw rest None = inr out ->
  Py.format_go kw (Spec.template_of segs ++ rest) None
  = inr (Spec.substituted sm pd segs ++ out).
Proof.
  intros Hsm Hpd. revert rest out.
  induction segs as [|seg segs IH]; intros rest out Hp Hrest; simpl; [assumption|].
  simpl in Hp. apply andb_true_iff in Hp as [Hseg Hp].
  rewrite !string_app_assoc.
  destruct seg; simpl.
  - apply format_literal; auto.
  - apply format_source_material; auto.
  - apply format_participant_data; auto.
Qed.

Lemma format_input_field kw v :
  Py.kwarg "input" kw = Some v ->
  Py.format "{input}" kw = inr v.
Proof.
  intros Hk. unfold Py.format. cbn. rewrite Hk.
  f_equal. clear. induction v; simpl; congruence.
Qed.

Lemma chat_is_cancelled_trace (r : Runnables.Runnable) (w : World) res r' w' :
  Runnables._chat_is_cancelled (r, w) = (res, (r', w')) ->
  trace w' = trace w /\ exists b, res = Ok b.
Proof.
  unfold Runnables._chat_is_cancelled, bind, on_self, on_world, ret, set_self,
    Runnables.time_time_call, Runnables.refresh_cancelled.
  cbn [fst snd].
  destruct (Runnables.cancelled r).
  { intros H. inversion H. subst. eauto. }
  destruct (Runnables.last_cancel_check r) as [last|].
  - destruct (negb (Qeq_bool last 0) && negb (Runnables.check_every_ms r =? 0)%Z).
    + cbn [fst snd].
      destruct (Runnables.Qltb _ _); cbn [fst snd].
      * intros H. inversion H. subst. eauto.
      * destruct (db_cancelled _ _); cbn [fst snd];
          intros H; inversion H; subst; eauto.
    + cbn [fst snd].
      destruct (db_cancelled _ _); cbn [fst snd];
        intros H; inversion H; subst; eauto.
  - cbn [fst snd].
    destruct (db_cancelled _ _); cbn [fst snd];
      intros H; inversion H; subst; eauto.
Qed.

Lemma consume_stream_trace tokens : forall acc n r w res r' w',
  Runnables.consume_stream tokens acc n (r, w) = (res, (r', w')) ->
  trace w' = trace w /\ exists out, res = Ok out.
Proof.
  induction tokens as [|t rest IH]; intros acc n r w res r' w' H.
  - inversion H. subst. eauto.
  - cbn [Runnables.consume_stream] in H. unfold bind at 1 in H.
    unfold on_self at 1 in H. cbn [fst snd] in H.
    unfold bind at 1 in H.
    destruct (Runnables._chat_is_cancelled (r, w)) as [res1 [r1 w1]] eqn:E.
    apply chat_is_cancelled_trace in E as [Ht [b ->]].
    destruct b.
    + inversion H. subst. rewrite Ht. eauto.
    + apply IH in H as [Ht' Hout]. rewrite Ht', Ht. auto.
Qed.

(** The prompt handed to the model: each placeholder of the template
    replaced by its value, the datetime line, the memory, and the input as
    the human message.  Building it changes nothing and does not raise. *)
Lemma build_prompt_substitutes
  (r : Runnables.Runnable) (w : World) (segs : list Spec.Segment)
  (input v : string) (s : ExperimentSession) (c : ExperimentChannel)
  (p : Participant) :
  prompt_text (Runnables.experiment r) = Spec.template_of segs ->
  Spec.literals_plain segs = true ->
  Spec.brace_free (current_datetime (env w)) = true ->
  Spec.formatted_input (Runnables.experiment r) input v ->
  find_session (Runnables.session r) w = Some s ->
  session_channel s = Some c ->
  find_participant (session_participant s) w = Some p ->
  Runnables.build_prompt input (r, w)
  = (Ok ([SystemMessage
            (Spec.substituted
               (Spec.source_material_of (Runnables.experiment r))
               (Spec.participant_data_for c p) segs
             ++ newline ++ "The current datetime is "
             ++ current_datetime (env w) ++ " (timezone preserved)")]
         ++ Runnables.memory r ++ [HumanMessage v])%list,
     (r, w)).
Proof.
  intros Htpl Hplain Hdt Hfmt Hs Hc Hp.
  set (sm := Spec.source_material_of (Runnables.experiment r)).
  set (pd := Spec.participant_data_for c p).
  assert (Hpd : Runnables.participant_data (r, w) = (Ok pd, (r, w))).
  { unfold Runnables.participant_data, Runnables.is_unauthorized_participant,
      bind, on_self, on_world, ret, the_session, the_participant.
    cbn [fst snd]. rewrite Hs, Hc.
    unfold pd, Spec.participant_data_for, Py.or_empty.
    destruct (platform c); cbn [platform_eqb fst snd]; rewrite ?Hs, ?Hp;
      cbn [fst snd]; rewrite ?Hp; try reflexivity.
    destruct (user p); cbv beta iota delta [fst snd]; rewrite ?Hs;
      cbv beta iota delta [fst snd]; rewrite ?Hp; reflexivity. }
  assert (Hsm : Runnables.source_material (r, w) = (Ok sm, (r, w))) by reflexivity.
  unfold Runnables.build_prompt.
  unfold bind at 1. rewrite Hsm.
  unfold bind at 1. rewrite Hpd.
  unfold bind at 1. unfold on_self at 1. cbn [fst snd].
  unfold bind at 1.
  assert (Hfi : Runnables.format_input
            {| Runnables.input_value := input;
               Runnables.source_material_value := sm;
               Runnables.participant_data_value := pd;
               Runnables.history_value := Runnables.memory r |} (r, w)
          = (Ok {| Runnables.input_value := v;
               Runnables.source_material_value := sm;
               Runnables.participant_data_value := pd;
               Runnables.history_value := Runnables.memory r |}, (r, w))).
  { unfold Runnables.format_input, bind, on_self, py_format.
    cbn [fst snd Runnables.input_value].
    unfold Spec.formatted_input in Hfmt.
    destruct (Py.truthy (input_formatter (Runnables.experiment r))).
    - rewrite Hfmt. reflexivity.
    - subst v. reflexivity. }
  rewrite Hfi.
  unfold bind, on_self, on_world, gets, py_format, ret. cbn [fst snd].
  unfold Runnables.system_template. rewrite Htpl.
  cbn [Runnables.input_value Runnables.source_material_value
       Runnables.participant_data_value Runnables.history_value].
  unfold Py.format at 1.
  erewrite format_segments; [| reflexivity | reflexivity | assumption |].
  2:{ apply format_literal_only.
      rewrite !brace_free_app, Hdt. reflexivity. }
  rewrite (format_input_field _ v) by reflexivity.
  reflexivity.
Qed.

(** C8: on an invocation of an in-process runnable whose prompt template
    is literal text with the placeholders [{source_material}] and
    [{participant_data}], the model is called once, with a system message in
    which every placeholder is replaced once by its value (the values are
    not read as templates again); the participant data is the empty string
    exactly for a web session whose participant has no linked user, and an
    absent source material or participant data gives the empty string;
    building the prompt does not raise. *)
Theorem C8_placeholders_substituted_once
  (r : Runnables.Runnable) (w : World) (segs : list Spec.Segment)
  (input v : string) (s : ExperimentSession) (c : ExperimentChannel)
  (p : Participant) :
  prompt_text (Runnables.experiment r) = Spec.template_of segs ->
  Spec.literals_plain segs = true ->
  Spec.brace_free (current_datetime (env w)) = true ->
  Spec.formatted_input (Runnables.experiment r) input v ->
  find_session (Runnables.session r) w = Some s ->
  session_channel s = Some c ->
  find_participant (session_participant s) w = Some p ->
  Runnables.build_prompt input (r, w)
  = (Ok ([SystemMessage
            (Spec.substituted
               (Spec.source_material_of (Runnables.experiment r))
               (Spec.participant_data_for c p) segs
             ++ newline ++ "The current datetime is "
             ++ current_datetime (env w) ++ " (timezone preserved)")]
         ++ Runnables.memory r ++ [HumanMessage v])%list,
     (r, w))
  /\ exists out r' w',
       Runnables._get_output_check_cancellation input (r, w)
       = (Ok out, (r', w'))
       /\ trace w'
          = (trace w
             ++ [ModelCall
                   ([SystemMessage
                       (Spec.substituted
                          (Spec.source_material_of (Runnables.experiment r))
                          (Spec.participant_data_for c p) segs
                        ++ newline ++ "The current datetime is "
                        ++ current_datetime (env w) ++ " (timezone preserved)")]
                    ++ Runnables.memory r ++ [HumanMessage v])
                   (match Runnables.cls r with
                    | Runnables.AgentExperimentRunnable => true
                    | _ => false
                    end)])%list.
Proof.
  intros Htpl Hplain Hdt Hfmt Hs Hc Hp.
  pose proof (build_prompt_substitutes r w segs input v s c p
                Htpl Hplain Hdt Hfmt Hs Hc Hp) as Hb.
  split; [exact Hb|].
  unfold Runnables._get_output_check_cancellation.
  unfold bind at 1. rewrite Hb.
  unfold bind at 1. unfold on_self at 1. cbn [fst snd].
  unfold bind at 1. unfold on_world at 1, emit, modify. cbn [fst snd].
  unfold bind at 1. unfold on_world at 1, gets. cbn [fst snd].
  unfold bind at 1.
  match goal with
  | |- context [Runnables.consume_stream ?t ?a ?n ?st] =>
      destruct (Runnables.consume_stream t a n st) as [res [r' w']] eqn:E
  end.
  apply consume_stream_trace in E as [Ht [o ->]].
  exists (fst o, usage_after
            (model_respond (env w)
               ([SystemMessage
                   (Spec.substituted
                      (Spec.source_material_of (Runnables.experiment r))
                      (Spec.participant_data_for c p) segs
                    ++ newline ++ "The current datetime is "
                    ++ current_datetime (env w) ++ " (timezone preserved)")]
                ++ Runnables.memory r ++ [HumanMessage v])%list) (snd o)), r', w'.
  split; [reflexivity|]. rewrite Ht. reflexivity.
Qed.

(** A web session whose participant has no linked user, with source
    material configured: the participant data is left out. *)
Lemma C8_witness :
  Runnables.build_prompt "hi"
    (Runnables.new_runnable Runnables.SimpleExperimentRunnable
       (Fixtures.experiment_with_placeholders
          (Some {| material := "this is the source material" |})) 1,
     Fixtures.world1 Fixtures.env0
       (Fixtures.experiment_with_placeholders
          (Some {| material := "this is the source material" |}))
       ACTIVE Fixtures.web_channel)
  = (Ok [SystemMessage
           ("System prompt with this is the source material for "
            ++ newline ++ "The current datetime is "
            ++ "Thursday, 08 February 2024 13:00:08 UTC"
            ++ " (timezone preserved)");
         HumanMessage "hi"],
     (Runnables.new_runnable Runnables.SimpleExperimentRunnable
       (Fixtures.experiment_with_placeholders
          (Some {| material := "this is the source material" |})) 1,
      Fixtures.world1 Fixtures.env0
       (Fixtures.experiment_with_placeholders
          (Some {| material := "this is the source material" |}))
       ACTIVE Fixtures.web_channel)).
Proof.
  exact (proj1
    (C8_placeholders_substituted_once
       (Runnables.new_runnable Runnables.SimpleExperimentRunnable
          (Fixtures.experiment_with_placeholders
             (Some {| material := "this is the source material" |})) 1)
       (Fixtures.world1 Fixtures.env0
          (Fixtures.experiment_with_placeholders
             (Some {| material := "this is the source material" |}))
          ACTIVE Fixtures.web_channel)
       Fixtures.placeholder_segments "hi" "hi"
       (Fixtures.session1
          (Fixtures.experiment_with_placeholders
             (Some {| material := "this is the source material" |}))
          ACTIVE Fixtures.web_channel)
       Fixtures.web_channel Fixtures.participant1
       eq_refl eq_refl eq_refl eq_refl eq_refl eq_refl eq_refl)).
Defined.

(** The four cases of [test_runnable_with_participant_data], and values
    that look like placeholders. *)
Example participant_data_cases :
  map (fun cu : ChannelPlatform * option nat =>
         Spec.participant_data_for
           {| channel_id := 1; platform := fst cu |}
           {| participant_id := 1; identifier := "123"; participant_team := 1;
              user := snd cu; participant_data_record := Some "{'name': 'Tester'}" |})
      [(WEB, Some 7); (WEB, None); (TELEGRAM, Some 7); (TELEGRAM, None)]
  = ["{'name': 'Tester'}"; ""; "{'name': 'Tester'}"; "{'name': 'Tester'}"].
Proof. reflexivity. Qed.

Example substituted_values_are_not_templates :
  Py.format "A {source_material} B {participant_data} C"
    [("source_material", "{participant_data}"); ("participant_data", "{x}")]
  = inr "A {participant_data} B {x} C".
Proof. reflexivity. Qed.

(** ** The gating state machine *)

Lemma find_session_create_chat_message sid c t text w :
  find_session sid
    (set_chat_messages
       (chat_messages w
        ++ [{| chat := c; message_type := t; content := text; tags := [] |}])%list
       w)
  = find_session sid w.
Proof. reflexivity. Qed.

Lemma find_map_key {A} (key : A -> nat) (f : A -> A) (k : nat) (l : list A) :
  (forall a, key (f a) = key a) ->
  find (fun a => key a =? k)%nat
    (map (fun a => if (key a =? k)%nat then f a else a) l)
  = option_map f (find (fun a => key a =? k)%nat l).
Proof.
  intros Hkey. induction l as [|a l IH]; simpl; [reflexivity|].
  destruct (key a =? k)%nat eqn:E.
  - rewrite Hkey, E. reflexivity.
  - rewrite E. exact IH.
Qed.

Lemma find_session_update_status sid st w :
  find_session sid
    (set_sessions
       (map (fun s => if (session_id s =? sid)%nat then with_status st s else s)
          (sessions w)) w)
  = option_map (with_status st) (find_session sid w).
Proof.
  unfold find_session. simpl. apply (find_map_key session_id). reflexivity.
Qed.

(** Unfolding of the handler's plumbing, down to the questions put to the
    store and to the configuration. *)
Ltac mstep :=
  cbv beta iota zeta delta
    [bind ret raise on_self on_world set_self gets modify fst snd
     Channels.the_experiment_session the_session Channels._add_message_to_history
     create_chat_message update_status update_session
     Channels._user_gave_consent Channels._chat_initiated
     Channels.start_conversation Channels._ask_user_for_consent
     Channels._ask_user_to_take_survey Channels._generate_response_for_user
     py_format Flow.gate_steps Channels.USER_CONSENT_TEXT
     Channels.experiment_session Channels.experiment Channels._user_query
     Channels.user_query].

Section Gate.

Variable process_input : nat -> string -> bool -> M World string.
Variable get_pre_survey_link : ExperimentSession -> string.
Variable synthesize_voice : string -> option SynthesizedAudio.

(** The nested conditionals of [_handle_pre_conversation_requirements]
    compute the row of the table. *)
Lemma gate_follows_table (h : Channels.ChannelBase) (w : World) (sid : nat)
  (s : ExperimentSession) (q text : string) (next : SessionStatus)
  (reply : Spec.GateReply) :
  Channels.experiment_session h = Some sid ->
  find_session sid w = Some s ->
  Channels._user_query h = Some q -> Py.truthy q = true ->
  Spec.gate_transition (status s) (Py.strip q =? "1")
    (Spec.has_survey (Channels.experiment h)) = Some (next, reply) ->
  Spec.reply_text (Channels.experiment h)
    (get_pre_survey_link (with_status next s)) reply text ->
  Channels._handle_pre_conversation_requirements process_input
    get_pre_survey_link synthesize_voice (h, w)
  = Flow.gate_steps process_input synthesize_voice sid q (status s) next
      reply text (seed_message (Channels.experiment h)) (h, w).
Proof.
  intros Hsid Hs Hq Ht Htab Htext.
  destruct h as [c e ec es m uq ms aws sr].
  cbn [Channels.experiment_session Channels._user_query Channels.experiment] in *.
  subst es uq.
  unfold Channels._handle_pre_conversation_requirements.
  mstep. rewrite Ht. mstep.
  rewrite find_session_create_chat_message, Hs. mstep.
  unfold Spec.has_survey in Htab.
  destruct (status s) eqn:Est; simpl in Htab; try discriminate Htab.
  - (* SETUP *)
    inversion Htab; subst next reply. simpl in Htext.
    destruct Htext as [form [Hform ->]].
    rewrite Hform. mstep. cbn [status_eqb]. mstep. reflexivity.
  - (* PENDING *)
    rewrite Ht. mstep.
    destruct (Py.strip q =? "1").
    + destruct (pre_survey e) as [survey|] eqn:Esv;
        inversion Htab; subst next reply; simpl in Htext.
      * destruct Htext as [sv [Hsv Hfmt]].
        rewrite Esv in Hsv. injection Hsv as <-.
        rewrite find_session_update_status, find_session_create_chat_message, Hs.
        cbn [option_map status_eqb]. rewrite Esv. mstep. rewrite Hfmt. mstep. reflexivity.
      * cbn [status_eqb]. mstep.
        destruct (Py.truthy (seed_message e)); mstep; reflexivity.
    + inversion Htab; subst next reply. simpl in Htext.
      destruct Htext as [form [Hform ->]].
      rewrite Hform. cbn [status_eqb]. mstep. reflexivity.
  - (* PENDING_PRE_SURVEY *)
    rewrite Ht. mstep.
    destruct (Py.strip q =? "1").
    + inversion Htab; subst next reply.
      cbn [status_eqb]. mstep.
      destruct (Py.truthy (seed_message e)); mstep; reflexivity.
    + inversion Htab; subst next reply. simpl in Htext.
      destruct Htext as [sv [Hsv Hfmt]].
      rewrite find_session_create_chat_message, Hs. mstep.
      rewrite Hsv.
      assert (Hw : with_status PENDING_PRE_SURVEY s = s).
      { destruct s; simpl in *; subst; reflexivity. }
      rewrite Hw in Hfmt. rewrite Hfmt. cbn [status_eqb]. mstep. reflexivity.
Qed.

End Gate.

Section GateOutcome.

Variable process_input : nat -> string -> bool -> M World string.
Variable get_pre_survey_link : ExperimentSession -> string.
Variable synthesize_voice : string -> option SynthesizedAudio.

Lemma set_trace_same (w : World) : set_trace (trace w ++ [])%list w = w.
Proof. destruct w. cbn. rewrite app_nil_r. reflexivity. Qed.

(** The loop over the pieces of a text appends one message per piece. *)
Lemma send_pieces_eq (pieces : list string) (w : World) :
  Channels.send_pieces pieces w
  = (Ok tt, set_trace (trace w ++ map SendTextToUser pieces)%list w).
Proof.
  revert w. induction pieces as [|piece rest IH]; intros w;
    cbn [Channels.send_pieces map].
  - rewrite set_trace_same. reflexivity.
  - unfold bind at 1, emit at 1, modify at 1. rewrite IH.
    cbn [trace set_trace]. rewrite <- app_assoc. reflexivity.
Qed.

Lemma send_text_to_user_eq (h : Channels.ChannelBase) (w : World)
  (text : string) :
  Channels.send_text_to_user text (h, w)
  = (Ok tt, (h, set_trace (trace w ++ Spec.sent h (env w) text)%list w)).
Proof.
  unfold Channels.send_text_to_user, Spec.sent, bind, on_self, on_world,
    emit, modify, gets, ret.
  cbn [fst snd].
  destruct (Channels.cls h); cbn [fst snd];
    try destruct (Channels.send_response_to_user h); cbn [fst snd];
    rewrite ?send_pieces_eq, ?set_trace_same; reflexivity.
Qed.

Lemma send_text_to_user_run (h : Channels.ChannelBase) (w : World) (text : string) :
  exists w', Channels.send_text_to_user text (h, w) = (Ok tt, (h, w'))
    /\ participants w' = participants w /\ sessions w' = sessions w
    /\ chat_messages w' = chat_messages w
    /\ trace w' = (trace w ++ Spec.sent h (env w) text)%list
    /\ now w' = now w /\ env w' = env w /\ clock_reads w' = clock_reads w
    /\ db_refreshes w' = db_refreshes w
    /\ assistant_calls w' = assistant_calls w
    /\ cancel_calls w' = cancel_calls w.
Proof.
  eexists. split; [apply send_text_to_user_eq|]. repeat split.
Qed.

(** The dispatch of a reply: by voice or as text, as the configuration
    says. *)
Lemma send_message_to_user_eq (h : Channels.ChannelBase) (w : World)
  (text : string) :
  Channels._send_message_to_user synthesize_voice text (h, w)
  = match Spec.dispatch synthesize_voice h (env w) text with
    | Some calls => (Ok tt, (h, set_trace (trace w ++ calls)%list w))
    | None => (Raise (AttributeError "get_speech_service"), (h, w))
    end.
Proof.
  destruct h as [c e ec es mo uq ms aws sr].
  unfold Channels._send_message_to_user, Channels._reply_voice_message,
    Channels.message_content_type, Channels.the_message,
    Channels.send_voice_to_user, Spec.dispatch, Spec.replies_with_voice,
    Spec.voice_capable, Spec.user_sent_voice,
    Channels.voice_replies_supported, try_except.
  cbv beta iota zeta delta
    [bind ret raise on_self on_world emit modify fst snd
     Channels.cls Channels.message Channels.experiment
     Channels.aws_access_key_id Channels.messaging_service
     Channels.send_response_to_user].
  destruct c; cbv beta iota zeta;
    repeat (match goal with
            | |- context [match ?x with _ => _ end] =>
                lazymatch type of x with
                | bool => idtac
                | option _ => idtac
                | VoiceResponseBehaviours => idtac
                | MESSAGE_TYPES => idtac
                end;
                destruct x; cbv beta iota zeta delta [andb fst snd]
            end);
    rewrite ?send_text_to_user_eq; reflexivity.
Qed.

Lemma new_bot_message_eq (h : Channels.ChannelBase) (w : World)
  (text : string) :
  Channels.new_bot_message synthesize_voice text (h, w)
  = match Spec.bot_message synthesize_voice h (env w) text with
    | Some calls => (Ok tt, (h, set_trace (trace w ++ calls)%list w))
    | None => (Raise (AttributeError "get_speech_service"), (h, w))
    end.
Proof.
  unfold Channels.new_bot_message, Spec.bot_message, bind, on_self, ret.
  cbn [fst snd].
  destruct (Channels.cls h); rewrite ?set_trace_same; try reflexivity;
    apply send_message_to_user_eq.
Qed.

Lemma gate_steps_run (h : Channels.ChannelBase) (w : World) (sid : nat)
  (q text seed : string) (st next : SessionStatus) (reply : Spec.GateReply) :
  exists w3,
    Spec.gate_effect h sid q st next reply text w w3
    /\ Flow.gate_steps process_input synthesize_voice sid q st next reply
         text seed (h, w)
       = if Spec.runs_seed reply seed
         then Spec.seed_outcome process_input synthesize_voice h sid seed w3
         else (Ok tt, (h, w3)).
Proof.
  unfold Flow.gate_steps, Spec.gate_effect, Spec.runs_seed, Spec.seed_outcome.
  destruct reply; destruct (status_eqb st next);
    cbv beta iota zeta delta
      [bind ret on_world fst snd create_chat_message modify update_status
       update_session emit];
    rewrite ?send_text_to_user_eq;
    eexists; (split; cycle 1);
    try (destruct (Py.truthy seed); cycle 1);
    try reflexivity;
    try (cbn; rewrite <- ?app_assoc, ?app_nil_r; cbn; repeat split; fail).
  all: match goal with
       | |- context [process_input ?a ?b ?c ?ww] =>
           destruct (process_input a b c ww) as [[response|err] w4]
       end; [|reflexivity].
  all: apply new_bot_message_eq.
Qed.


End GateOutcome.


(** C1 as stated fails in two ways.  A reply that is not ["1"] can be the
    token: to a PENDING session on Telegram, with a pre-survey configured,
    the reply [" 1 "] moves the session to PENDING_PRE_SURVEY and the
    survey link is sent, not the consent request again.  And a request is
    not always sent: on the API channel the first message moves the session
    to PENDING and the consent request is recorded in the history, but
    nothing goes out. *)
Lemma C1_counterexample :
  let e := Fixtures.experiment_consent in
  let w := Fixtures.world1 Fixtures.env0 e PENDING Fixtures.telegram_channel in
  let run := Fixtures.handle e (Fixtures.telegram_message "123" " 1 ")
               (Fixtures.telegram_handler e, w) in
  let w_api := Fixtures.world1 Fixtures.env0 e SETUP Fixtures.api_channel in
  let run_api := Fixtures.handle e (Fixtures.telegram_message "123" "Hi")
                   (Fixtures.api_handler e, w_api) in
  " 1 " <> "1"
  /\ conversational_consent_enabled e = true
  /\ map status (sessions w) = [PENDING]
  /\ fst run = Ok None
  /\ map status (sessions (snd (snd run))) = [PENDING_PRE_SURVEY]
  /\ trace (snd (snd run)) = [SendTextToUser Fixtures.survey_text]
  /\ platform Fixtures.api_channel <> WEB
  /\ map status (sessions w_api) = [SETUP]
  /\ fst run_api = Ok None
  /\ map status (sessions (snd (snd run_api))) = [PENDING]
  /\ map (fun msg => (message_type msg, content msg))
       (chat_messages (snd (snd run_api)))
     = [(HUMAN, "Hi"); (AI, Fixtures.consent_request_text)]
  /\ trace (snd (snd run_api)) = [].
Proof.
  vm_compute. repeat split; discriminate.
Qed.

(** ** The top of the handler *)

Lemma run_bind {S A B} (m : M S A) (k : A -> M S B) (s s1 : S) (a : A) :
  m s = (Ok a, s1) -> bind m k s = k a s1.
Proof. intros H. unfold bind. rewrite H. reflexivity. Qed.

Lemma run_bind_raise {S A B} (m : M S A) (k : A -> M S B) (s s1 : S) (e : Exc) :
  m s = (Raise e, s1) -> bind m k s = (Raise e, s1).
Proof. intros H. unfold bind. rewrite H. reflexivity. Qed.

Section Top.

Variable RESET_COMMAND : string.
Variable process_input : nat -> string -> bool -> M World string.
Variable user_already_engaged : World -> nat -> bool.
Variable get_pre_survey_link : ExperimentSession -> string.
Variable synthesize_voice : string -> option SynthesizedAudio.

(** C4: when handling a message ends in a generation cancellation, the
    public entry point returns the empty string instead; the partial output
    carried by the cancellation is not returned, and the store is the store
    as the cancellation left it. *)
Theorem C4_cancellation_returns_empty_reply
  (m : Channels.Message) (h : Channels.ChannelBase) (w : World)
  (out : ChainOutput) (st' : Channels.ChannelBase * World) :
  Channels._new_user_message RESET_COMMAND process_input user_already_engaged
    get_pre_survey_link synthesize_voice m (h, w)
  = (Raise (GenerationCancelled out), st') ->
  Channels.new_user_message RESET_COMMAND process_input user_already_engaged
    get_pre_survey_link synthesize_voice m (h, w)
  = (Ok (Some ""), st').
Proof.
  intros H. unfold Channels.new_user_message, try_except.
  rewrite H. reflexivity.
Qed.

(** Every other outcome of the handler is the outcome of the entry
    point. *)
Lemma new_user_message_otherwise
  (m : Channels.Message) (h : Channels.ChannelBase) (w : World) :
  (forall out, fst (Channels._new_user_message RESET_COMMAND process_input
                      user_already_engaged get_pre_survey_link
                      synthesize_voice m (h, w))
               <> Raise (GenerationCancelled out)) ->
  Channels.new_user_message RESET_COMMAND process_input user_already_engaged
    get_pre_survey_link synthesize_voice m (h, w)
  = Channels._new_user_message RESET_COMMAND process_input
      user_already_engaged get_pre_survey_link synthesize_voice m (h, w).
Proof.
  intros H. unfold Channels.new_user_message, try_except.
  destruct (Channels._new_user_message _ _ _ _ _ m (h, w)) as [[a|e] st'];
    [reflexivity|].
  destruct e; try reflexivity. exfalso. exact (H out eq_refl).
Qed.

End Top.

(** A generation cancelled in the middle of the stream: the reply is the
    empty string, the partial output is dropped, and the human entry saved
    before the generation stays. *)
Lemma C4_witness :
  exists out st',
    Channels._new_user_message Fixtures.RESET_COMMAND
      (Bots.process_input Fixtures.experiment0) Bots.user_already_engaged
      Fixtures.pre_survey_link Fixtures.no_voice
      (Fixtures.telegram_message "123" "Hi there")
      (Fixtures.telegram_handler Fixtures.experiment0,
       Fixtures.world_of Fixtures.env_cancelled_mid_stream)
    = (Raise (GenerationCancelled out), st')
    /\ output out = "this "
    /\ Channels.new_user_message Fixtures.RESET_COMMAND
         (Bots.process_input Fixtures.experiment0) Bots.user_already_engaged
         Fixtures.pre_survey_link Fixtures.no_voice
         (Fixtures.telegram_message "123" "Hi there")
         (Fixtures.telegram_handler Fixtures.experiment0,
          Fixtures.world_of Fixtures.env_cancelled_mid_stream)
       = (Ok (Some ""), st')
    /\ map (fun msg => (message_type msg, content msg))
         (chat_messages (snd st'))
       = [(HUMAN, "Hi there")].
Proof.
  eexists. eexists. split; [vm_compute; reflexivity|].
  split; [reflexivity|]. split; [|reflexivity].
  eapply (C4_cancellation_returns_empty_reply Fixtures.RESET_COMMAND
            (Bots.process_input Fixtures.experiment0)
            Bots.user_already_engaged Fixtures.pre_survey_link
            Fixtures.no_voice (Fixtures.telegram_message "123" "Hi there")
            (Fixtures.telegram_handler Fixtures.experiment0)
            (Fixtures.world_of Fixtures.env_cancelled_mid_stream)).
  vm_compute. reflexivity.
Defined.

(** The conversation of [test_pre_conversation_flow], message by message:
    the status of the session after each. *)
Example pre_conversation_flow :
  let e := Fixtures.experiment_consent in
  let step st text :=
    snd (Fixtures.handle e (Fixtures.telegram_message "123" text) st) in
  let status_of (st : Channels.ChannelBase * World) :=
    map status (sessions (snd st)) in
  let s0 := (Fixtures.telegram_handler e, Fixtures.world0) in
  let s1 := step s0 "Hi" in
  let s2 := step s1 "1" in
  let s3 := step s2 "Hi there" in
  let s4 := step s3 "1" in
  (status_of s1, status_of s2, status_of s3, status_of s4)
  = ([PENDING], [PENDING_PRE_SURVEY], [PENDING_PRE_SURVEY], [ACTIVE]).
Proof. vm_compute. reflexivity. Qed.

(** ** Session resolution and the reset command *)

Section Sessions.
Variable RESET_COMMAND : string.
Variable process_input : nat -> string -> bool -> M World string.
Variable user_already_engaged : World -> nat -> bool.
Variable synthesize_voice : string -> option SynthesizedAudio.

(** The query of a text message is its text; reading it fills the cache. *)
Lemma user_query_text (h : Channels.ChannelBase) (w : World) (m : Channels.Message) :
  Channels.message h = Some m ->
  Channels._user_query h = None ->
  Channels.content_type m = Some TEXT ->
  Channels.user_query process_input synthesize_voice (h, w)
  = (Ok (Channels.message_text m),
     (Channels.set_user_query (Some (Channels.message_text m)) h, w)).
Proof.
  intros Hm Hq Ht. destruct h as [c e ec es mo uq ms aws sr].
  cbn [Channels.message Channels._user_query] in *. subst mo uq.
  unfold Channels.user_query, Channels._extract_user_query,
    Channels.message_content_type, Channels.get_message_text,
    Channels.the_message.
  destruct c;
    cbv beta iota zeta delta [bind ret raise on_self on_world set_self fst snd
      Channels._user_query Channels.cls Channels.message];
    rewrite ?Ht; reflexivity.
Qed.

Lemma reset_request_text (h : Channels.ChannelBase) (w : World) (m : Channels.Message) :
  Channels.message h = Some m ->
  Channels._user_query h = None ->
  Channels.content_type m = Some TEXT ->
  Channels._is_reset_conversation_request RESET_COMMAND process_input
    synthesize_voice (h, w)
  = (Ok (Channels.message_text m =? RESET_COMMAND),
     (Channels.set_user_query (Some (Channels.message_text m)) h, w)).
Proof.
  intros Hm Hq Ht. unfold Channels._is_reset_conversation_request.
  unfold bind. rewrite (user_query_text h w m Hm Hq Ht). reflexivity.
Qed.

Lemma ensure_found_no_reset (h : Channels.ChannelBase) (w : World)
  (m : Channels.Message) (ident : string) (s0 : ExperimentSession) :
  Channels.message h = Some m ->
  Channels._user_query h = None ->
  Channels.content_type m = Some TEXT ->
  Channels.get_chat_id (h, w) = (Ok ident, (h, w)) ->
  Channels.latest_session (Channels.experiment h) ident w = Some s0 ->
  find_session (session_id s0) w = Some s0 ->
  (Channels.message_text m =? RESET_COMMAND)
  && user_already_engaged w (session_id s0) = false ->
  Channels.base_ensure_sessions_exists RESET_COMMAND process_input
    user_already_engaged synthesize_voice (h, w)
  = (Ok tt,
     (Channels.set_user_query (Some (Channels.message_text m))
        (Channels.set_experiment_session (Some (session_id s0)) h),
      Spec.backfill h (session_id s0) w)).
Proof.
  intros Hm Hq Ht Hid Hfound Hrow Hno.
  unfold Channels.base_ensure_sessions_exists.
  unfold bind at 1. unfold on_self at 1. cbn [fst snd].
  rewrite (run_bind _ _ _ _ _ Hid).
  unfold bind at 1. unfold on_world at 1, gets at 1. cbn [fst snd].
  rewrite Hfound. cbn [option_map].
  unfold bind at 1. unfold set_self at 1. cbn [fst snd].
  rewrite (run_bind _ _ _ _ _
             (reset_request_text
                (Channels.set_experiment_session (Some (session_id s0)) h)
                w m Hm Hq Ht)).
  assert (Hk : forall (hh : Channels.ChannelBase) (ww : World),
     Channels.experiment_session hh = Some (session_id s0) ->
     find_session (session_id s0) ww = Some s0 ->
     bind Channels.the_experiment_session
       (fun sid => bind (on_world (the_session sid))
          (fun s => match session_channel s with
                    | Some _ => ret tt
                    | None => on_world (update_session sid
                                (with_channel (Some (Channels.experiment_channel h))))
                    end)) (hh, ww)
     = (Ok tt, (hh, Spec.backfill h (session_id s0) ww))).
  { intros hh ww Hh Hw. unfold Spec.backfill. rewrite Hw.
    unfold Channels.the_experiment_session, bind, on_self, on_world, the_session,
      update_session, modify, ret. cbn [fst snd]. rewrite Hh. cbn [fst snd].
    rewrite Hw. destruct (session_channel s0); reflexivity. }
  destruct (Channels.message_text m =? RESET_COMMAND) eqn:Er.
  - cbn [andb] in Hno.
    unfold bind at 1. unfold on_world at 1, gets at 1. cbn [fst snd].
    rewrite Hno. cbn [andb].
    unfold bind at 1. unfold ret at 1.
    apply Hk; [reflexivity|assumption].
  - unfold bind at 1. unfold ret at 1. cbn [andb].
    unfold bind at 1. unfold ret at 1.
    apply Hk; [reflexivity|assumption].
Qed.

Lemma next_id_gt {A} (key : A -> nat) (l : list A) (a : A) :
  In a l -> key a < next_id key l.
Proof.
  unfold next_id. induction l as [|b l IH]; simpl; [tauto|].
  intros [->|H]; [lia|]. specialize (IH H). lia.
Qed.

Lemma next_id_map {A} (key : A -> nat) (f : A -> A) (l : list A) :
  (forall a, key (f a) = key a) -> next_id key (map f l) = next_id key l.
Proof.
  intros Hk. unfold next_id. f_equal.
  induction l as [|b l IH]; simpl; [reflexivity|]. rewrite Hk, IH. reflexivity.
Qed.

Lemma find_app_none {A} (P : A -> bool) (l1 l2 : list A) :
  (forall a, In a l1 -> P a = false) ->
  find P (l1 ++ l2) = find P l2.
Proof.
  induction l1 as [|b l1 IH]; simpl; intros H; [reflexivity|].
  rewrite (H b (or_introl eq_refl)). apply IH. intros a Ha. apply H. auto.
Qed.

Lemma ended_id sid t s : session_id (Spec.ended sid t s) = session_id s.
Proof. unfold Spec.ended. destruct (session_id s =? sid)%nat; reflexivity. Qed.

Lemma find_session_fresh (l : list ExperimentSession) (s : ExperimentSession) (w : World) :
  (forall a, In a l -> session_id a <> session_id s) ->
  find_session (session_id s) (set_sessions (l ++ [s]) w) = Some s.
Proof.
  intros H. unfold find_session. cbn [sessions set_sessions].
  rewrite find_app_none.
  - simpl. rewrite Nat.eqb_refl. reflexivity.
  - intros a Ha. apply Nat.eqb_neq. apply H. exact Ha.
Qed.

Lemma ensure_found_reset (h : Channels.ChannelBase) (w : World)
  (m : Channels.Message) (ident : string) (s0 : ExperimentSession) :
  Channels.message h = Some m ->
  Channels._user_query h = None ->
  Channels.content_type m = Some TEXT ->
  Channels.get_chat_id (h, w) = (Ok ident, (h, w)) ->
  Channels.latest_session (Channels.experiment h) ident w = Some s0 ->
  find_session (session_id s0) w = Some s0 ->
  Channels.message_text m = RESET_COMMAND ->
  user_already_engaged w (session_id s0) = true ->
  Channels.base_ensure_sessions_exists RESET_COMMAND process_input
    user_already_engaged synthesize_voice (h, w)
  = (Ok tt,
     (Channels.set_experiment_session
        (Some (next_id session_id (sessions w)))
        (Channels.set_user_query (Some (Channels.message_text m))
           (Channels.set_experiment_session (Some (session_id s0)) h)),
      Spec.reset_world h s0 w)).
Proof.
  intros Hm Hq Ht Hid Hfound Hrow Hr Heng.
  unfold Channels.base_ensure_sessions_exists.
  unfold bind at 1. unfold on_self at 1. cbn [fst snd].
  rewrite (run_bind _ _ _ _ _ Hid).
  unfold bind at 1. unfold on_world at 1, gets at 1. cbn [fst snd].
  rewrite Hfound. cbn [option_map].
  unfold bind at 1. unfold set_self at 1. cbn [fst snd].
  rewrite (run_bind _ _ _ _ _
             (reset_request_text
                (Channels.set_experiment_session (Some (session_id s0)) h)
                w m Hm Hq Ht)).
  rewrite Hr, String.eqb_refl.
  unfold bind at 1. unfold on_world at 1, gets at 1. cbn [fst snd].
  rewrite Heng. cbn [andb].
  destruct h as [c e ec es mo uq ms aws sr].
  cbn [Channels.message Channels._user_query Channels.experiment
       Channels.experiment_channel] in *.
  unfold Channels._reset_session, Channels._create_new_experiment_session,
    Channels.the_experiment_session, Channels.enqueue_static_triggers,
    end_session, Channels.create_session, update_session.
  cbv beta iota zeta delta [bind ret raise on_self on_world set_self gets modify
    fst snd the_session emit
    Channels.set_user_query Channels.set_experiment_session
    Channels.experiment_session Channels.experiment Channels.experiment_channel
    Channels.cls Channels.message Channels._user_query
    Channels.messaging_service Channels.aws_access_key_id
    Channels.send_response_to_user].
  assert (Hf1 : find_session (session_id s0)
               (set_now (S (now w))
                  (set_sessions
                     (map (fun s : ExperimentSession =>
                             if (session_id s =? session_id s0)%nat
                             then with_ended_at (Some (now w)) s else s)
                        (sessions w)) w))
             = Some (with_ended_at (Some (now w)) s0)).
  { unfold find_session in *. cbn [sessions set_now set_sessions].
    rewrite (find_map_key session_id) by reflexivity.
    rewrite Hrow. reflexivity. }
  rewrite Hf1.
  cbv beta iota zeta delta [fst snd].
  cbn [sessions set_now set_sessions set_trace trace session_participant
       with_ended_at].
  match goal with
  | |- context [find_session ?k ?ww] =>
      assert (Hf2 : find_session k ww
                    = Some (Spec.new_session
                              {| Channels.cls := c; Channels.experiment := e;
                                 Channels.experiment_channel := ec;
                                 Channels.experiment_session := es;
                                 Channels.message := mo; Channels._user_query := uq;
                                 Channels.messaging_service := ms;
                                 Channels.aws_access_key_id := aws;
                                 Channels.send_response_to_user := sr |} s0 w))
  end.
  { unfold find_session. cbn [sessions set_trace set_sessions].
    rewrite find_app_none.
    - cbn [find session_id]. rewrite Nat.eqb_refl.
      unfold Spec.new_session. cbn [Channels.experiment Channels.experiment_channel].
      rewrite (next_id_map session_id) by (intros a; destruct (session_id a =? session_id s0)%nat; reflexivity).
      reflexivity.
    - intros a Ha. apply Nat.eqb_neq. apply Nat.lt_neq.
      apply (next_id_gt session_id _ a Ha). }
  rewrite Hf2. cbn [session_channel Spec.new_session].
  unfold Spec.reset_world, Spec.new_session, Spec.ended.
  cbn [Channels.experiment Channels.experiment_channel].
  rewrite (next_id_map session_id) by (intros a; destruct (session_id a =? session_id s0)%nat; reflexivity).
  reflexivity.
Qed.

(** *** The invariant *)

Lemma session_matches_ext (e : Experiment) (ident : string) (w w' : World)
  (s s' : ExperimentSession) :
  participants w' = participants w ->
  session_experiment s' = session_experiment s ->
  session_participant s' = session_participant s ->
  Channels.session_matches e ident w' s' = Channels.session_matches e ident w s.
Proof.
  intros Hp He Hs. unfold Channels.session_matches, find_participant.
  rewrite Hp, He, Hs. reflexivity.
Qed.

Lemma find_map_pred {A} (P P' : A -> bool) (f : A -> A) (l : list A) :
  (forall a, P' (f a) = P a) ->
  find P' (map f l) = option_map f (find P l).
Proof.
  intros H. induction l as [|a l IH]; simpl; [reflexivity|].
  rewrite H. destruct (P a); [reflexivity|exact IH].
Qed.

Lemma find_ext {A} (P P' : A -> bool) (l : list A) :
  (forall a, P' a = P a) -> find P' l = find P l.
Proof.
  intros H. induction l as [|a l IH]; simpl; [reflexivity|].
  rewrite H, IH. reflexivity.
Qed.

Lemma latest_session_map (e : Experiment) (ident : string) (w w' : World)
  (f : ExperimentSession -> ExperimentSession) :
  participants w' = participants w ->
  sessions w' = map f (sessions w) ->
  (forall s, session_experiment (f s) = session_experiment s
             /\ session_participant (f s) = session_participant s) ->
  Channels.latest_session e ident w'
  = option_map f (Channels.latest_session e ident w).
Proof.
  intros Hp Hs Hf. unfold Channels.latest_session.
  rewrite Hs, <- map_rev.
  apply find_map_pred. intros a. destruct (Hf a) as [H1 H2].
  apply session_matches_ext; assumption.
Qed.

Lemma find_by_key {A} (key : A -> nat) (l : list A) (a : A) :
  NoDup (map key l) -> In a l ->
  find (fun x => key x =? key a)%nat l = Some a.
Proof.
  induction l as [|b l IH]; simpl; intros Hn Hin; [tauto|].
  inversion Hn as [|k ks Hnotin Hn']; subst.
  destruct Hin as [->|Hin].
  - rewrite Nat.eqb_refl. reflexivity.
  - destruct (key b =? key a)%nat eqn:E.
    + apply Nat.eqb_eq in E. exfalso. apply Hnotin. rewrite E.
      apply in_map. exact Hin.
    + apply IH; assumption.
Qed.

Lemma NoDup_snoc {A} (l : list A) (a : A) :
  NoDup l -> ~ In a l -> NoDup (l ++ [a]).
Proof.
  induction l as [|b l IH]; simpl; intros Hn Hin.
  - constructor; [tauto|constructor].
  - inversion Hn as [|k ks Hb Hn']; subst. constructor.
    + rewrite in_app_iff. simpl. intros [H|[H|[]]]; [tauto|].
      apply Hin. left. symmetry. exact H.
    + apply IH; [assumption|]. intros H. apply Hin. right. exact H.
Qed.

Lemma NoDup_all_equal {A} (l : list A) :
  NoDup l -> (forall x y, In x l -> In y l -> x = y) -> length l <= 1.
Proof.
  destruct l as [|a [|b l]]; simpl; intros Hn H; try lia.
  exfalso. inversion Hn as [|k ks Ha Hn']; subst.
  apply Ha. left. apply H; simpl; auto.
Qed.

Lemma one_current_at_most_one (w : World) :
  Spec.session_keys w -> Spec.one_current w ->
  forall e ident, length (Spec.open_sessions e ident w) <= 1.
Proof.
  intros Hk Hinv e ident. unfold Spec.open_sessions.
  apply NoDup_all_equal.
  - apply NoDup_filter. exact (NoDup_map_inv _ _ Hk).
  - intros x y Hx Hy.
    apply filter_In in Hx as [Hx Px]. apply filter_In in Hy as [Hy Py].
    apply andb_true_iff in Px as [Px Ox]. apply andb_true_iff in Py as [Py Oy].
    unfold Spec.is_open in Ox, Oy.
    destruct (ended_at x) eqn:Ex; [discriminate|].
    destruct (ended_at y) eqn:Ey; [discriminate|].
    pose proof (Hinv e ident x Hx Px Ex) as H1.
    pose proof (Hinv e ident y Hy Py Ey) as H2.
    congruence.
Qed.

Lemma backfill_facts (h : Channels.ChannelBase) (sid : nat) (w : World) :
  participants (Spec.backfill h sid w) = participants w
  /\ exists f, sessions (Spec.backfill h sid w) = map f (sessions w)
       /\ forall s, session_id (f s) = session_id s
                    /\ session_experiment (f s) = session_experiment s
                    /\ session_participant (f s) = session_participant s
                    /\ ended_at (f s) = ended_at s
                    /\ status (f s) = status s.
Proof.
  unfold Spec.backfill.
  destruct (find_session sid w) as [s|];
    [destruct (session_channel s)|].
  - split; [reflexivity|]. exists (fun s => s). rewrite map_id.
    split; [reflexivity|]. intros a. repeat split.
  - split; [reflexivity|].
    exists (fun s => if (session_id s =? sid)%nat
                     then with_channel (Some (Channels.experiment_channel h)) s
                     else s).
    split; [reflexivity|].
    intros a. destruct (session_id a =? sid)%nat; simpl; repeat split.
  - split; [reflexivity|]. exists (fun s => s). rewrite map_id.
    split; [reflexivity|]. intros a. repeat split.
Qed.

Lemma backfill_keeps_invariant (h : Channels.ChannelBase) (sid : nat) (w : World) :
  Spec.session_keys w ->
  Spec.session_keys (Spec.backfill h sid w)
  /\ (Spec.one_current w -> Spec.one_current (Spec.backfill h sid w)).
Proof.
  intros Hk.
  destruct (backfill_facts h sid w) as [Hp [f [Hs Hf]]].
  split.
  - unfold Spec.session_keys. rewrite Hs, map_map.
    rewrite (map_ext _ session_id); [exact Hk|]. intros a. apply Hf.
  - intros Hinv e ident s Hin Hm Ho.
    rewrite Hs in Hin. apply in_map_iff in Hin as [y [<- Hy]].
    destruct (Hf y) as [_ [He [Hpa [Hen _]]]].
    rewrite (session_matches_ext e ident w _ y _ Hp He Hpa) in Hm.
    rewrite Hen in Ho.
    rewrite (latest_session_map e ident w _ f Hp Hs).
    + rewrite (Hinv e ident y Hy Hm Ho). reflexivity.
    + intros a. destruct (Hf a) as [_ [H1 [H2 _]]]. auto.
Qed.

Lemma reset_keeps_invariant (h : Channels.ChannelBase) (ident : string)
  (s0 : ExperimentSession) (w : World) :
  Channels.latest_session (Channels.experiment h) ident w = Some s0 ->
  Spec.session_keys w ->
  Spec.session_keys (Spec.reset_world h s0 w)
  /\ (Spec.one_current w -> Spec.one_current (Spec.reset_world h s0 w)).
Proof.
  intros Hfound Hk.
  assert (Hfe : forall a, session_experiment (Spec.ended (session_id s0) (now w) a)
                          = session_experiment a
                          /\ session_participant (Spec.ended (session_id s0) (now w) a)
                             = session_participant a).
  { intros a. unfold Spec.ended. destruct (session_id a =? session_id s0)%nat; auto. }
  pose proof Hfound as Hfound'. unfold Channels.latest_session in Hfound'.
  apply find_some in Hfound' as [Hin0 Hm0]. apply in_rev in Hin0.
  split.
  - unfold Spec.session_keys, Spec.reset_world.
    cbn [sessions set_trace set_sessions]. rewrite map_app, map_map.
    rewrite (map_ext _ session_id) by (intros a; apply ended_id).
    apply NoDup_snoc; [exact Hk|]. cbn [map Spec.new_session session_id].
    intros Hin. apply in_map_iff in Hin as [a [Ha Hina]].
    pose proof (next_id_gt session_id _ a Hina). lia.
  - intros Hinv e' id' s Hin Hm Ho.
    unfold Channels.latest_session, Spec.reset_world in *.
    cbn [sessions set_trace set_sessions] in *.
    rewrite rev_app_distr. cbn [rev app find].
    set (w' := set_trace _ _) in *.
    assert (Hp : participants w' = participants w) by reflexivity.
    apply in_app_iff in Hin as [Hin|[<-|[]]].
    + apply in_map_iff in Hin as [y [<- Hy]].
      destruct (Hfe y) as [He Hpa].
      rewrite (session_matches_ext e' id' w w' y _ Hp He Hpa) in Hm.
      assert (Hne : (session_id y =? session_id s0)%nat = false).
      { unfold Spec.ended in Ho. destruct (session_id y =? session_id s0)%nat;
          [discriminate Ho|reflexivity]. }
      assert (Hey : Spec.ended (session_id s0) (now w) y = y).
      { unfold Spec.ended. rewrite Hne. reflexivity. }
      rewrite Hey in *.
      pose proof (Hinv e' id' y Hy Hm Ho) as Hlat.
      unfold Channels.latest_session in Hlat.
      destruct (Channels.session_matches e' id' w' (Spec.new_session h s0 w)) eqn:Enew.
      * exfalso.
        assert (Hsame : forall a, Channels.session_matches e' id' w a
                                  = Channels.session_matches (Channels.experiment h) ident w a).
        { unfold Channels.session_matches in *.
          cbn [Spec.new_session session_experiment session_participant] in Enew.
          replace (find_participant (session_participant s0) w')
            with (find_participant (session_participant s0) w) in Enew by reflexivity.
          apply andb_true_iff in Enew as [E1 E2].
          apply andb_true_iff in Hm0 as [E3 E4].
          apply Nat.eqb_eq in E1.
          destruct (find_participant (session_participant s0) w) as [p|];
            [|discriminate E2].
          apply String.eqb_eq in E2. apply String.eqb_eq in E4.
          intros a. rewrite <- E1. subst id' ident. reflexivity. }
        rewrite (find_ext _ _ _ Hsame) in Hlat.
        rewrite Hfound in Hlat. injection Hlat as <-.
        rewrite Nat.eqb_refl in Hne. discriminate Hne.
      * rewrite <- map_rev.
        rewrite (find_map_pred (Channels.session_matches e' id' w)).
        -- rewrite Hlat. cbn [option_map]. rewrite Hey. reflexivity.
        -- intros a. destruct (Hfe a) as [H1 H2].
           apply session_matches_ext; assumption.
    + rewrite Hm. reflexivity.
Qed.


End Sessions.


(** C5 as stated fails for the bound alone: the handler takes the latest
    session of the chat whether it has ended or not.  In a store where the
    only session of the chat that has not ended is an older one, each
    experiment and participant have at most one session that has not ended;
    after a reset command they have two, the older one and the new one. *)
Lemma C5_counterexample :
  let w := Cases.world_latest_ended in
  let run := Channels.base_ensure_sessions_exists Fixtures.RESET_COMMAND
               (Bots.process_input Fixtures.experiment0)
               Bots.user_already_engaged Fixtures.no_voice
               (Fixtures.handler_given_reset, w) in
  map (fun s => (session_id s, ended_at s)) (sessions w)
  = [(1, None); (2, Some 7)]
  /\ (forall e i, length (Spec.open_sessions e i w) <= 1)
  /\ fst run = Ok tt
  /\ map (fun s => (session_id s, session_participant s, ended_at s))
       (sessions (snd (snd run)))
     = [(1, 1, None); (2, 1, Some 8); (3, 1, None)]
  /\ length (Spec.open_sessions Fixtures.experiment0 "123" (snd (snd run)))
     = 2.
Proof.
  cbv zeta. split; [reflexivity|]. split.
  - intros e i. unfold Spec.open_sessions. cbn [sessions filter
      Cases.world_latest_ended set_chat_messages set_now set_sessions
      Spec.is_open ended_at Fixtures.session1].
    rewrite andb_false_r.
    destruct (Channels.session_matches e i _ _ && true); cbn; lia.
  - vm_compute. repeat split.
Qed.

(** ** A message held back by the gate *)

Section Gated.

Variable RESET_COMMAND : string.
Variable process_input : nat -> string -> bool -> M World string.
Variable user_already_engaged : World -> nat -> bool.
Variable get_pre_survey_link : ExperimentSession -> string.
Variable synthesize_voice : string -> option SynthesizedAudio.

(** The check of the content kind reads the handler only. *)
Lemma is_message_type_supported_eq (h : Channels.ChannelBase) (w : World)
  (m : Channels.Message) :
  Channels.message h = Some m ->
  Channels.is_message_type_supported (h, w) = (Ok (Spec.supported h m), (h, w)).
Proof.
  intros Hm. destruct h as [c e ec es mo uq ms aws sr].
  cbn [Channels.message] in Hm. subst mo.
  unfold Channels.is_message_type_supported, Channels.message_content_type,
    Channels.the_message, Channels.supported_message_types, Spec.supported,
    Spec.content_kind, Spec.supported_kinds.
  destruct c; reflexivity.
Qed.

(** The first read of the query of a message that can be read. *)
Lemma user_query_read (h : Channels.ChannelBase) (w : World)
  (m : Channels.Message) (q : string) :
  Channels.message h = Some m ->
  Channels._user_query h = None ->
  Spec.query_of h m = Some q ->
  Channels.user_query process_input synthesize_voice (h, w)
  = (Ok q, (Channels.set_user_query (Some q) h,
            set_trace (trace w ++ Spec.heard h (env w) m)%list w)).
Proof.
  intros Hm Hq Hread. destruct h as [c e ec es mo uq ms aws sr].
  cbn [Channels.message Channels._user_query] in Hm, Hq. subst mo uq.
  unfold Spec.query_of, Spec.heard, Spec.content_kind in *.
  unfold Channels.user_query, Channels._extract_user_query,
    Channels.message_content_type, Channels.get_message_text,
    Channels._get_voice_transcript, Channels.transcription_started,
    Channels.transcription_finished, Channels.the_message, try_except.
  cbn [Channels.cls Channels.message Channels._user_query] in *.
  destruct c; cbn [Channels.cls] in *;
    cbv beta iota zeta delta
      [bind ret raise on_self on_world set_self emit modify fst snd
       Channels.cls Channels.message Channels._user_query];
    try (injection Hread as <-; rewrite set_trace_same; reflexivity);
    destruct (Channels.content_type m) as [[|]|];
    try (injection Hread as <-; rewrite set_trace_same; reflexivity);
    rewrite Hread;
    cbv beta iota zeta delta
      [bind ret raise on_self on_world set_self emit modify fst snd
       Channels.cls Channels.message Channels._user_query];
    rewrite ?send_text_to_user_eq;
    cbn [trace set_trace fst snd]; rewrite <- ?app_assoc; reflexivity.
Qed.

(** The chat identity of a handler that has no session yet is the one
    in the message. *)
Lemma get_chat_id_of_message (h : Channels.ChannelBase) (w : World)
  (m : Channels.Message) :
  Channels.message h = Some m ->
  Channels.experiment_session h = None ->
  Channels.cls h <> Channels.SlackChannel ->
  Channels.get_chat_id (h, w) = (Ok (Channels.chat_id m), (h, w)).
Proof.
  intros Hm Hes Hcls.
  unfold Channels.get_chat_id, Channels.get_chat_id_from_message,
    Channels.the_message.
  cbv beta iota zeta delta [bind ret raise on_self on_world fst snd].
  rewrite Hes.
  destruct (Channels.cls h); try (rewrite Hm; reflexivity).
  exfalso. apply Hcls. reflexivity.
Qed.

Lemma backfill_set_trace (h : Channels.ChannelBase) (sid : nat)
  (t : list Event) (w : World) :
  Spec.backfill h sid (set_trace t w) = set_trace t (Spec.backfill h sid w).
Proof.
  unfold Spec.backfill.
  change (find_session sid (set_trace t w)) with (find_session sid w).
  destruct (find_session sid w) as [s|]; [|reflexivity].
  destruct (session_channel s); reflexivity.
Qed.

Lemma find_session_set_trace (sid : nat) (t : list Event) (w : World) :
  find_session sid (set_trace t w) = find_session sid w.
Proof. reflexivity. Qed.

Lemma heard_set_session (h : Channels.ChannelBase) (es : option nat)
  (ev : Env) (m : Channels.Message) :
  Spec.heard (Channels.set_experiment_session es h) ev m = Spec.heard h ev m.
Proof. reflexivity. Qed.

(** Session resolution for a message that is not the reset command, when
    the chat has a session. *)
Lemma ensure_found_read (h : Channels.ChannelBase) (w : World)
  (m : Channels.Message) (q : string) (s0 s : ExperimentSession) :
  Channels.message h = Some m ->
  Channels._user_query h = None ->
  Channels.experiment_session h = None ->
  Channels.cls h <> Channels.SlackChannel ->
  Spec.query_of h m = Some q ->
  (q =? RESET_COMMAND) = false ->
  Channels.latest_session (Channels.experiment h) (Channels.chat_id m) w
  = Some s0 ->
  find_session (session_id s0) w = Some s ->
  Channels.base_ensure_sessions_exists RESET_COMMAND process_input
    user_already_engaged synthesize_voice (h, w)
  = (Ok tt,
     (Channels.set_user_query (Some q)
        (Channels.set_experiment_session (Some (session_id s0)) h),
      set_trace (trace w ++ Spec.heard h (env w) m)%list
        (Spec.backfill h (session_id s0) w))).
Proof.
  intros Hm Hq Hes Hcls Hread Hr Hfound Hrow.
  unfold Channels.base_ensure_sessions_exists.
  unfold bind at 1. unfold on_self at 1. cbn [fst snd].
  rewrite (run_bind _ _ _ _ _ (get_chat_id_of_message h w m Hm Hes Hcls)).
  unfold bind at 1. unfold on_world at 1, gets at 1. cbn [fst snd].
  rewrite Hfound. cbn [option_map].
  unfold bind at 1. unfold set_self at 1. cbn [fst snd].
  unfold Channels._is_reset_conversation_request.
  assert (Hread' : Spec.query_of
                     (Channels.set_experiment_session (Some (session_id s0)) h)
                     m = Some q)
    by (destruct h; exact Hread).
  unfold bind at 1. unfold bind at 1.
  rewrite (user_query_read
             (Channels.set_experiment_session (Some (session_id s0)) h)
             w m q Hm Hq Hread').
  unfold ret at 1. rewrite Hr.
  unfold bind at 1. unfold ret at 1. cbn [andb].
  unfold bind at 1. unfold ret at 1.
  rewrite <- backfill_set_trace.
  unfold Spec.backfill.
  unfold Channels.the_experiment_session, bind, on_self, on_world,
    the_session, update_session, modify, ret.
  cbn [fst snd Channels.experiment_session Channels.set_user_query
       Channels.set_experiment_session].
  rewrite (heard_set_session h (Some (session_id s0))).
  rewrite !find_session_set_trace, Hrow.
  destruct (session_channel s); reflexivity.
Qed.

(** Session resolution for the first message of a chat. *)
Lemma ensure_first_contact (h : Channels.ChannelBase) (w : World)
  (m : Channels.Message) :
  Channels.message h = Some m ->
  Channels.experiment_session h = None ->
  Channels.cls h <> Channels.SlackChannel ->
  Channels.latest_session (Channels.experiment h) (Channels.chat_id m) w
  = None ->
  Channels.base_ensure_sessions_exists RESET_COMMAND process_input
    user_already_engaged synthesize_voice (h, w)
  = (Ok tt,
     (Channels.set_experiment_session
        (Some (next_id session_id (sessions w))) h,
      Spec.first_contact h (Channels.chat_id m) w)).
Proof.
  intros Hm Hes Hcls Hnone.
  unfold Channels.base_ensure_sessions_exists.
  unfold bind at 1. unfold on_self at 1. cbn [fst snd].
  rewrite (run_bind _ _ _ _ _ (get_chat_id_of_message h w m Hm Hes Hcls)).
  unfold bind at 1. unfold on_world at 1, gets at 1. cbn [fst snd].
  rewrite Hnone. cbn [option_map].
  unfold bind at 1. unfold set_self at 1. cbn [fst snd].
  unfold Channels._create_new_experiment_session.
  unfold bind at 1. unfold bind at 1. unfold on_self at 1. cbn [fst snd].
  unfold bind at 1.
  cbn [Channels.experiment_session Channels.set_experiment_session].
  unfold bind at 1.
  rewrite (get_chat_id_of_message
             (Channels.set_experiment_session None h) w m Hm eq_refl Hcls).
  unfold bind at 1. unfold on_world at 1. cbn [fst snd].
  unfold Channels.get_or_create_participant, Spec.first_contact,
    Spec.known_participant.
  cbn [Channels.experiment Channels.set_experiment_session].
  destruct (find _ (participants w)) as [p|];
    cbv beta iota zeta delta
      [bind ret raise on_self on_world set_self gets modify emit fst snd
       Channels.create_session Channels.enqueue_static_triggers
       Channels.the_experiment_session Channels.set_experiment_session
       Channels.experiment_session Channels.experiment
       Channels.experiment_channel Channels.cls Channels.message
       Channels._user_query Channels.messaging_service
       Channels.aws_access_key_id Channels.send_response_to_user];
    cbn [session_id participant_id trace set_trace set_sessions sessions
         set_participants participants];
    rewrite <- app_assoc; reflexivity.
Qed.

Lemma backfill_trace (h : Channels.ChannelBase) (sid : nat) (w : World) :
  trace (Spec.backfill h sid w) = trace w
  /\ env (Spec.backfill h sid w) = env w.
Proof.
  unfold Spec.backfill. destruct (find_session sid w) as [s|]; [|auto].
  destruct (session_channel s); auto.
Qed.

(** A message that finds the gate closed goes to the gating state machine
    and nowhere else. *)
Lemma gate_reached (m : Channels.Message) (h0 h1 h2 : Channels.ChannelBase)
  (w0 w1 w2 : World) (sid : nat) (s : ExperimentSession) :
  Channels._add_message RESET_COMMAND process_input user_already_engaged
    synthesize_voice m (h0, w0) = (Ok tt, (h1, w1)) ->
  Channels.is_message_type_supported (h1, w1) = (Ok true, (h1, w1)) ->
  platform_eqb (platform (Channels.experiment_channel h1)) WEB = false ->
  Channels._is_reset_conversation_request RESET_COMMAND process_input
    synthesize_voice (h1, w1) = (Ok false, (h2, w2)) ->
  conversational_consent_enabled (Channels.experiment h1) = true ->
  Channels.experiment_session h2 = Some sid ->
  find_session sid w2 = Some s ->
  (exists token survey row,
     Spec.gate_transition (status s) token survey = Some row) ->
  Channels._new_user_message RESET_COMMAND process_input
    user_already_engaged get_pre_survey_link synthesize_voice m (h0, w0)
  = bind (Channels._handle_pre_conversation_requirements process_input
            get_pre_survey_link synthesize_voice)
      (fun _ => ret None) (h2, w2).
Proof.
  intros Hadd Hsup Hweb Hreset Hcons Hsid Hs (token & survey & row & Htab).
  unfold Channels._new_user_message.
  rewrite (run_bind _ _ _ _ _ Hadd).
  rewrite (run_bind _ _ _ _ _ Hsup). cbn [negb].
  unfold bind at 1. unfold on_self at 1. cbn [fst snd].
  rewrite Hweb. cbn [negb].
  rewrite (run_bind _ _ _ _ _ Hreset).
  rewrite Hcons.
  assert (Hgate : Channels._should_handle_pre_conversation_requirements (h2, w2)
                  = (Ok true, (h2, w2))).
  { unfold Channels._should_handle_pre_conversation_requirements,
      Channels.the_experiment_session, bind, on_self, on_world, the_session, ret.
    cbn [fst snd]. rewrite Hsid. cbn [fst snd]. rewrite Hs.
    destruct (status s); simpl in Htab; try discriminate Htab; reflexivity. }
  rewrite (run_bind _ _ _ _ _ Hgate). reflexivity.
Qed.

Lemma reset_check_read (h : Channels.ChannelBase) (w : World)
  (m : Channels.Message) (q : string) :
  Channels.message h = Some m ->
  Channels._user_query h = None ->
  Spec.query_of h m = Some q ->
  Channels._is_reset_conversation_request RESET_COMMAND process_input
    synthesize_voice (h, w)
  = (Ok (q =? RESET_COMMAND),
     (Channels.set_user_query (Some q) h, Spec.read_on h m w)).
Proof.
  intros Hm Hq Hread. unfold Channels._is_reset_conversation_request.
  unfold bind. rewrite (user_query_read h w m q Hm Hq Hread). reflexivity.
Qed.

Lemma reset_check_cached (h : Channels.ChannelBase) (w : World) (q : string) :
  Channels._user_query h = Some q -> Py.truthy q = true ->
  Channels._is_reset_conversation_request RESET_COMMAND process_input
    synthesize_voice (h, w)
  = (Ok (q =? RESET_COMMAND), (h, w)).
Proof.
  intros Hq Ht. unfold Channels._is_reset_conversation_request.
  unfold bind.
  rewrite (user_query_cached process_input synthesize_voice h w q Hq Ht).
  reflexivity.
Qed.

Section Way.

Variables (m : Channels.Message) (h0 : Channels.ChannelBase) (w0 w1 : World)
  (sid : nat) (s : ExperimentSession) (q : string).

Hypothesis Hweb :
  platform_eqb (platform (Channels.experiment_channel h0)) WEB = false.
Hypothesis Hcons : conversational_consent_enabled (Channels.experiment h0) = true.
Hypothesis Hsup : Spec.supported h0 m = true.
Hypothesis Hread : Spec.query_of h0 m = Some q.
Hypothesis Ht : Py.truthy q = true.
Hypothesis Hr : (q =? RESET_COMMAND) = false.
Hypothesis Hs : find_session sid w1 = Some s.
Hypothesis Htab :
  exists token survey row,
    Spec.gate_transition (status s) token survey = Some row.

Let hA := Channels.set_message (Some m) (Channels.set_user_query None h0).

Lemma supported_on_the_way (ww : World) (hh : Channels.ChannelBase) :
  Channels.message hh = Some m ->
  Spec.supported hh m = Spec.supported h0 m ->
  Channels.is_message_type_supported (hh, ww) = (Ok true, (hh, ww)).
Proof.
  intros Hm Hsame. rewrite (is_message_type_supported_eq hh ww m Hm).
  rewrite Hsame, Hsup. reflexivity.
Qed.

Lemma add_message_run (st : Channels.ChannelBase * World) :
  Channels._ensure_sessions_exists RESET_COMMAND process_input
    user_already_engaged synthesize_voice (hA, w0) = (Ok tt, st) ->
  Channels._add_message RESET_COMMAND process_input
    user_already_engaged synthesize_voice m (h0, w0) = (Ok tt, st).
Proof.
  intros H. unfold Channels._add_message.
  unfold bind at 1. unfold set_self at 1. cbn [fst snd].
  unfold bind at 1. unfold set_self at 1. cbn [fst snd]. exact H.
Qed.

(** A handler built with its session. *)
Lemma way_with_a_session :
  Channels.cls h0 = Channels.WebChannel
  \/ Channels.cls h0 = Channels.SlackChannel ->
  Channels.experiment_session h0 = Some sid ->
  w1 = w0 ->
  Channels._new_user_message RESET_COMMAND process_input
    user_already_engaged get_pre_survey_link synthesize_voice m (h0, w0)
  = bind (Channels._handle_pre_conversation_requirements process_input
            get_pre_survey_link synthesize_voice)
      (fun _ => ret None)
      (Spec.handling h0 m sid q, Spec.read_on h0 m w1).
Proof.
  intros Hcls Hes ->.
  assert (Hens : Channels._ensure_sessions_exists RESET_COMMAND process_input
                   user_already_engaged synthesize_voice (hA, w0)
                 = (Ok tt, (hA, w0))).
  { unfold Channels._ensure_sessions_exists.
    unfold bind at 1. unfold on_self at 1. cbn [fst snd].
    change (Channels.cls hA) with (Channels.cls h0).
    change (Channels.experiment_session hA)
      with (Channels.experiment_session h0).
    rewrite Hes. destruct Hcls as [-> | ->]; reflexivity. }
  assert (Hh : Channels.set_user_query (Some q) hA = Spec.handling h0 m sid q).
  { unfold Spec.handling, hA. destruct h0 as [c e ec es mo uq ms aws sr].
    cbn in Hes. subst es. reflexivity. }
  rewrite <- Hh.
  apply (gate_reached m h0 hA _ w0 w0 _ sid s (add_message_run _ Hens)).
  - apply supported_on_the_way; reflexivity.
  - exact Hweb.
  - rewrite (reset_check_read hA w0 m q eq_refl eq_refl Hread), Hr.
    reflexivity.
  - exact Hcons.
  - exact Hes.
  - exact Hs.
  - exact Htab.
Qed.

(** A handler built for a channel, when the chat has a session. *)
Lemma way_to_a_session_found (s0 : ExperimentSession) :
  Channels.cls h0 <> Channels.WebChannel ->
  Channels.cls h0 <> Channels.SlackChannel ->
  Channels.experiment_session h0 = None ->
  Channels.latest_session (Channels.experiment h0) (Channels.chat_id m) w0
  = Some s0 ->
  sid = session_id s0 ->
  w1 = Spec.backfill h0 sid w0 ->
  Channels._new_user_message RESET_COMMAND process_input
    user_already_engaged get_pre_survey_link synthesize_voice m (h0, w0)
  = bind (Channels._handle_pre_conversation_requirements process_input
            get_pre_survey_link synthesize_voice)
      (fun _ => ret None)
      (Spec.handling h0 m sid q, Spec.read_on h0 m w1).
Proof.
  intros Hnw Hns Hes Hfound Hsid Hw1.
  assert (Hrow : exists s', find_session sid w0 = Some s').
  { rewrite Hw1 in Hs. unfold Spec.backfill in Hs.
    destruct (find_session sid w0) as [s'|] eqn:E; [eauto|].
    rewrite E in Hs. discriminate Hs. }
  destruct Hrow as [s' Hrow]. subst sid.
  assert (Hbase : Channels._ensure_sessions_exists RESET_COMMAND process_input
                    user_already_engaged synthesize_voice (hA, w0)
                  = Channels.base_ensure_sessions_exists RESET_COMMAND
                      process_input user_already_engaged synthesize_voice
                      (hA, w0)).
  { unfold Channels._ensure_sessions_exists.
    unfold bind at 1. unfold on_self at 1. cbn [fst snd].
    change (Channels.cls hA) with (Channels.cls h0).
    destruct (Channels.cls h0); try reflexivity; contradiction. }
  pose proof (ensure_found_read hA w0 m q s0 s' eq_refl eq_refl Hes Hns Hread
                Hr Hfound Hrow) as Hens.
  rewrite <- Hbase in Hens.
  assert (Hw : set_trace (trace w0 ++ Spec.heard hA (env w0) m)%list
                 (Spec.backfill hA (session_id s0) w0)
               = Spec.read_on h0 m w1).
  { rewrite Hw1. unfold Spec.read_on.
    destruct (backfill_trace h0 (session_id s0) w0) as [Htr Hev].
    rewrite Htr, Hev. reflexivity. }
  rewrite Hw in Hens.
  apply (gate_reached m h0 _ _ w0 _ _ (session_id s0) s
           (add_message_run _ Hens)).
  - apply supported_on_the_way; reflexivity.
  - exact Hweb.
  - rewrite (reset_check_cached
               (Channels.set_user_query (Some q)
                  (Channels.set_experiment_session (Some (session_id s0)) hA))
               _ q eq_refl Ht), Hr.
    reflexivity.
  - exact Hcons.
  - reflexivity.
  - unfold Spec.read_on. rewrite find_session_set_trace. exact Hs.
  - exact Htab.
Qed.

(** A handler built for a channel, on the first message of a chat. *)
Lemma way_of_a_first_message :
  Channels.cls h0 <> Channels.WebChannel ->
  Channels.cls h0 <> Channels.SlackChannel ->
  Channels.experiment_session h0 = None ->
  Channels.latest_session (Channels.experiment h0) (Channels.chat_id m) w0
  = None ->
  sid = next_id session_id (sessions w0) ->
  w1 = Spec.first_contact h0 (Channels.chat_id m) w0 ->
  Channels._new_user_message RESET_COMMAND process_input
    user_already_engaged get_pre_survey_link synthesize_voice m (h0, w0)
  = bind (Channels._handle_pre_conversation_requirements process_input
            get_pre_survey_link synthesize_voice)
      (fun _ => ret None)
      (Spec.handling h0 m sid q, Spec.read_on h0 m w1).
Proof.
  intros Hnw Hns Hes Hnone Hsid Hw1.
  assert (Hbase : Channels._ensure_sessions_exists RESET_COMMAND process_input
                    user_already_engaged synthesize_voice (hA, w0)
                  = Channels.base_ensure_sessions_exists RESET_COMMAND
                      process_input user_already_engaged synthesize_voice
                      (hA, w0)).
  { unfold Channels._ensure_sessions_exists.
    unfold bind at 1. unfold on_self at 1. cbn [fst snd].
    change (Channels.cls hA) with (Channels.cls h0).
    destruct (Channels.cls h0); try reflexivity; contradiction. }
  pose proof (ensure_first_contact hA w0 m eq_refl Hes Hns Hnone) as Hens.
  rewrite <- Hbase in Hens.
  change (Spec.first_contact hA (Channels.chat_id m) w0)
    with (Spec.first_contact h0 (Channels.chat_id m) w0) in Hens.
  rewrite <- Hw1, <- Hsid in Hens.
  apply (gate_reached m h0 _ _ w0 _ _ sid s (add_message_run _ Hens)).
  - apply supported_on_the_way; reflexivity.
  - exact Hweb.
  - rewrite (reset_check_read
               (Channels.set_experiment_session (Some sid) hA)
               w1 m q eq_refl eq_refl Hread), Hr.
    reflexivity.
  - exact Hcons.
  - reflexivity.
  - unfold Spec.read_on. rewrite find_session_set_trace. exact Hs.
  - exact Htab.
Qed.

(** The way of a message to the gate: the session is resolved, the kind of
    content is checked, the query is read and compared with the reset
    command. *)
Lemma way_to_the_gate :
  Spec.resolved h0 m w0 = Some (sid, w1) ->
  Channels._new_user_message RESET_COMMAND process_input
    user_already_engaged get_pre_survey_link synthesize_voice m (h0, w0)
  = bind (Channels._handle_pre_conversation_requirements process_input
            get_pre_survey_link synthesize_voice)
      (fun _ => ret None)
      (Spec.handling h0 m sid q, Spec.read_on h0 m w1).
Proof.
  intros Hres. unfold Spec.resolved in Hres.
  destruct (Channels.cls h0) eqn:Ecls;
    destruct (Channels.experiment_session h0) as [sid0|] eqn:Hes;
    try discriminate Hres.
  all: try (injection Hres as Hsid Hw1;
            apply way_with_a_session;
            [auto|rewrite <- Hsid; exact Hes|symmetry; exact Hw1]).
  all: destruct (Channels.latest_session (Channels.experiment h0)
                   (Channels.chat_id m) w0) as [s0|] eqn:Hfound;
    injection Hres as Hsid Hw1;
    [apply (way_to_a_session_found s0)|apply way_of_a_first_message];
    try (rewrite Ecls; discriminate); try assumption;
    try (symmetry; exact Hsid);
    try rewrite <- Hsid; symmetry; exact Hw1.
Qed.

End Way.


End Gated.



(** * Further properties of the code *)

(** ** More on the runnables *)

(** *** The cancellation flag *)

(** What a check of the cancellation flag leaves alone: the tables, the
    trace, the database clock and the configuration of the runnable. *)
Lemma chat_is_cancelled_frame (r : Runnables.Runnable) (w : World) :
  exists b r' w',
    Runnables._chat_is_cancelled (r, w) = (Ok b, (r', w'))
    /\ Runnables.cancelled r' = b
    /\ Runnables.cls r' = Runnables.cls r
    /\ Runnables.experiment r' = Runnables.experiment r
    /\ Runnables.session r' = Runnables.session r
    /\ Runnables.memory r' = Runnables.memory r
    /\ Runnables.check_every_ms r' = Runnables.check_every_ms r
    /\ participants w' = participants w /\ sessions w' = sessions w
    /\ chat_messages w' = chat_messages w /\ trace w' = trace w
    /\ now w' = now w /\ env w' = env w
    /\ assistant_calls w' = assistant_calls w
    /\ cancel_calls w' = cancel_calls w
    /\ (Runnables.cancelled r = true -> b = true).
Proof.
  unfold Runnables._chat_is_cancelled, bind, on_self, on_world, ret, set_self,
    Runnables.time_time_call, Runnables.refresh_cancelled.
  cbn [fst snd].
  destruct (Runnables.cancelled r) eqn:Hc.
  { exists true, r, w. repeat split; auto. }
  destruct (Runnables.last_cancel_check r) as [last|];
    [destruct (negb (Qeq_bool last 0)
               && negb (Runnables.check_every_ms r =? 0)%Z);
     [cbn [fst snd]; destruct (Runnables.Qltb _ _)|]|];
    cbn [fst snd];
    try (eexists; eexists; eexists; split; [reflexivity|];
         repeat split; auto; discriminate);
    destruct (db_cancelled _ _); cbn [fst snd];
    eexists; eexists; eexists; (split; [reflexivity|]);
    cbn; repeat split; auto; discriminate.
Qed.

(** X1: a check of the cancellation flag answers with the flag as the
    runnable then holds it, and the flag is sticky: a runnable that is
    cancelled answers so at once, reading neither the clock nor the
    database, and no check ever clears the flag.  A runnable that is not
    cancelled becomes so only by reading the flag set in the database, and
    a check reads the database at most once. *)
Theorem X1_cancellation_flag_is_sticky (r : Runnables.Runnable) (w : World) :
  exists b r' w',
    Runnables._chat_is_cancelled (r, w) = (Ok b, (r', w'))
    /\ Runnables.cancelled r' = b
    /\ (Runnables.cancelled r = true -> b = true /\ r' = r /\ w' = w)
    /\ (Runnables.cancelled r = false -> b = true ->
        db_cancelled (env w) (db_refreshes w) = true
        /\ db_refreshes w' = S (db_refreshes w))
    /\ (db_refreshes w' = db_refreshes w
        \/ db_refreshes w' = S (db_refreshes w)).
Proof.
  unfold Runnables._chat_is_cancelled, bind, on_self, on_world, ret, set_self,
    Runnables.time_time_call, Runnables.refresh_cancelled.
  cbn [fst snd].
  destruct (Runnables.cancelled r) eqn:Hc.
  { exists true, r, w. repeat split; auto; discriminate. }
  destruct (Runnables.last_cancel_check r) as [last|];
    [destruct (negb (Qeq_bool last 0)
               && negb (Runnables.check_every_ms r =? 0)%Z);
     [cbn [fst snd]; destruct (Runnables.Qltb _ _)|]|];
    cbn [fst snd];
    try (eexists; eexists; eexists; split; [reflexivity|];
         cbn; repeat split; auto; discriminate);
    destruct (db_cancelled _ _) eqn:Hdb; cbn [fst snd];
    eexists; eexists; eexists; (split; [reflexivity|]);
    cbn; repeat split; auto; try discriminate; congruence.
Qed.

(** *** The stream *)

Lemma concat_cons (x : string) (l : list string) :
  String.concat "" (x :: l) = x ++ String.concat "" l.
Proof.
  destruct l as [|y l]; simpl; [|reflexivity].
  induction x as [|c x IH]; simpl; congruence.
Qed.

(** What the loop over the stream leaves alone. *)
Lemma consume_stream_frame tokens : forall acc n r w,
  exists out r' w',
    Runnables.consume_stream tokens acc n (r, w) = (Ok out, (r', w'))
    /\ Runnables.cls r' = Runnables.cls r
    /\ Runnables.experiment r' = Runnables.experiment r
    /\ Runnables.session r' = Runnables.session r
    /\ Runnables.memory r' = Runnables.memory r
    /\ participants w' = participants w /\ sessions w' = sessions w
    /\ chat_messages w' = chat_messages w /\ trace w' = trace w
    /\ now w' = now w /\ env w' = env w
    /\ assistant_calls w' = assistant_calls w
    /\ cancel_calls w' = cancel_calls w
    /\ (tokens = [] -> r' = r).
Proof.
  induction tokens as [|t rest IH]; intros acc n r w.
  - exists (acc, n), r, w. repeat split; auto.
  - cbn [Runnables.consume_stream]. unfold bind at 1.
    unfold on_self at 1. cbn [fst snd]. unfold bind at 1.
    destruct (chat_is_cancelled_frame r w)
      as (b & r1 & w1 & Hrun & _ & H1 & H2 & H3 & H4 & _ & H5 & H6 & H7 & H8
          & H9 & H10 & H11 & H12 & _).
    rewrite Hrun. destruct b.
    + eexists; exists r1, w1. split; [reflexivity|].
      repeat split; auto; discriminate.
    + destruct (IH (acc ++ Runnables._parse_output (Runnables.cls r) t)
                  (S n) r1 w1)
        as (out & r2 & w2 & Hrun2 & G1 & G2 & G3 & G4 & G5 & G6 & G7 & G8
            & G9 & G10 & G11 & G12 & _).
      rewrite Hrun2. exists out, r2, w2. split; [reflexivity|].
      repeat split; try congruence; discriminate.
Qed.

(** X2: the output of a streamed generation is the text of the chunks
    consumed, in order, and the chunks consumed are a prefix of the stream:
    the whole stream unless the runnable is cancelled when the loop ends.
    The flag is looked at after a chunk is taken, so a stream that is not
    empty always gives its first chunk, and a chunk of the agent without
    output adds nothing. *)
Theorem X2_stream_output_is_a_prefix (tokens : list (option string))
  (acc : string) (n : nat) (r : Runnables.Runnable) (w : World) :
  exists k r' w',
    Runnables.consume_stream tokens acc n (r, w)
    = (Ok (acc ++ String.concat ""
                    (map (Runnables._parse_output (Runnables.cls r))
                       (firstn k tokens)),
           n + k), (r', w'))
    /\ k <= length tokens
    /\ (tokens <> [] -> 1 <= k)
    /\ (k < length tokens -> Runnables.cancelled r' = true)
    /\ (Runnables.cancelled r = true -> k = Nat.min 1 (length tokens)).
Proof.
  revert acc n r w.
  induction tokens as [|t rest IH]; intros acc n r w.
  - exists 0, r, w. cbn. rewrite Nat.add_0_r.
    replace (acc ++ "") with acc
      by (clear; induction acc; simpl; congruence).
    repeat split; auto; try lia. congruence.
  - cbn [Runnables.consume_stream]. unfold bind at 1.
    unfold on_self at 1. cbn [fst snd]. unfold bind at 1.
    destruct (chat_is_cancelled_frame r w)
      as (b & r1 & w1 & Hrun & Hb & Hc1 & Hrest).
    assert (Hst : Runnables.cancelled r = true -> b = true)
      by (decompose [and] Hrest; assumption).
    rewrite Hrun. destruct b.
    + exists 1, r1, w1. cbn [firstn map length].
      rewrite concat_cons. cbn [String.concat].
      replace (n + 1) with (S n) by lia.
      replace (Runnables._parse_output (Runnables.cls r) t ++ "")
        with (Runnables._parse_output (Runnables.cls r) t)
        by (clear; induction (Runnables._parse_output _ _); simpl; congruence).
      split; [reflexivity|]. repeat split; auto; lia.
    + destruct (IH (acc ++ Runnables._parse_output (Runnables.cls r) t)
                  (S n) r1 w1) as (k & r2 & w2 & Hrun2 & Hk & _ & Hlt & _).
      exists (S k), r2, w2. cbn [firstn map length].
      rewrite concat_cons, <- string_app_assoc.
      replace (n + S k) with (S n + k) by lia.
      rewrite Hc1 in Hrun2. rewrite Hrun2.
      split; [reflexivity|]. repeat split; try lia.
      * intros H. apply Hlt. lia.
      * intros Hc. discriminate (Hst Hc).
Qed.

(** *** The history written by an invocation *)

(** Computations that leave the state as it is compose. *)
Lemma bind_reads {S A B} (m : M S A) (k : A -> M S B) :
  (forall s, snd (m s) = s) -> (forall a s, snd (k a s) = s) ->
  forall s, snd (bind m k s) = s.
Proof.
  intros Hm Hk s. unfold bind. specialize (Hm s).
  destruct (m s) as [[a|e] s']; cbn [snd] in Hm; subst s'; [apply Hk|reflexivity].
Qed.

Lemma on_world_reads {X A} (m : M World A) :
  (forall w, snd (m w) = w) -> forall s : X * World, snd (on_world m s) = s.
Proof.
  intros Hm [x w]. unfold on_world. cbn [fst snd]. specialize (Hm w).
  destruct (m w) as [res w']. cbn [snd] in *. subst w'. reflexivity.
Qed.

Lemma the_session_reads (sid : nat) (w : World) : snd (the_session sid w) = w.
Proof. unfold the_session. destruct (find_session sid w); reflexivity. Qed.

Lemma the_participant_reads (pid : nat) (w : World) :
  snd (the_participant pid w) = w.
Proof. unfold the_participant. destruct (find_participant pid w); reflexivity. Qed.

Lemma py_format_reads {S} (template : string) (kw : list (string * string))
  (s : S) : snd (py_format template kw s) = s.
Proof. unfold py_format. destruct (Py.format template kw); reflexivity. Qed.

Ltac reads :=
  repeat first
    [ progress intros
    | reflexivity
    | apply py_format_reads
    | apply the_session_reads
    | apply the_participant_reads
    | apply on_world_reads
    | apply bind_reads
    | match goal with
      | |- context [match ?x with _ => _ end] => destruct x
      end ].

Lemma participant_data_reads (s : Runnables.Runnable * World) :
  snd (Runnables.participant_data s) = s.
Proof.
  revert s. unfold Runnables.participant_data,
    Runnables.is_unauthorized_participant. reads.
Qed.

(** Building the prompt reads the store and changes nothing, whether it
    succeeds or raises. *)
Lemma build_prompt_frame (input : string) (s : Runnables.Runnable * World) :
  snd (Runnables.build_prompt input s) = s.
Proof.
  revert s. unfold Runnables.build_prompt, Runnables.source_material,
    Runnables.format_input.
  repeat first
    [ progress intros
    | reflexivity
    | apply participant_data_reads
    | apply py_format_reads
    | apply on_world_reads
    | apply bind_reads
    | match goal with
      | |- context [if ?x then _ else _] => destruct x
      end ].
Qed.

Lemma get_output_frame (input : string) (r : Runnables.Runnable) (w : World) :
  exists res r' w',
    Runnables._get_output_check_cancellation input (r, w) = (res, (r', w'))
    /\ Runnables.experiment r' = Runnables.experiment r
    /\ Runnables.session r' = Runnables.session r
    /\ Runnables.memory r' = Runnables.memory r
    /\ participants w' = participants w /\ sessions w' = sessions w
    /\ chat_messages w' = chat_messages w
    /\ env w' = env w.
Proof.
  unfold Runnables._get_output_check_cancellation.
  unfold bind at 1.
  pose proof (build_prompt_frame input (r, w)) as Hb.
  destruct (Runnables.build_prompt input (r, w)) as [[messages|e] st].
  - cbn [snd] in Hb. subst st.
    unfold bind at 1. unfold on_self at 1. cbn [fst snd].
    unfold bind at 1. unfold on_world at 1, emit, modify. cbn [fst snd].
    unfold bind at 1. unfold on_world at 1, gets. cbn [fst snd].
    unfold bind at 1.
    match goal with
    | |- context [Runnables.consume_stream ?t ?a ?n (?rr, ?ww)] =>
        destruct (consume_stream_frame t a n rr ww)
          as (out & r' & w' & Hrun & _ & H2 & H3 & H4 & H5 & H6 & H7 & _ & _
              & H10 & _)
    end.
    rewrite Hrun. eexists; exists r', w'. split; [reflexivity|].
    repeat split; assumption.
  - cbn [snd] in Hb. subst st. exists (Raise e), r, w. repeat split.
Qed.

(** X3: what an invocation of an in-process runnable writes.  The memory
    is filled from the history as it was before the call, so the prompt
    does not hold the input twice; the input is saved as a human entry
    before the model is called; the output is saved as an AI entry only
    when the generation was not cancelled.  An invocation that raises, a
    cancellation included, leaves the input in the history and no output.
    Sessions and participants are not touched. *)
Theorem X3_invoke_history (input : string) (config : Runnables.Config)
  (r : Runnables.Runnable) (w : World) :
  Runnables.add_experiment_tag config = false ->
  exists res r' w',
    Runnables.invoke input config (r, w) = (res, (r', w'))
    /\ Runnables.memory r'
       = compress_chat_history (env w) (history (Runnables.session r) w)
           (max_token_limit (Runnables.experiment r))
    /\ sessions w' = sessions w /\ participants w' = participants w
    /\ match res with
       | Ok out =>
           Runnables.cancelled r' = false
           /\ chat_messages w'
              = (chat_messages w
                 ++ (if Runnables.save_input_to_history config
                     then [{| chat := Runnables.session r; message_type := HUMAN;
                              content := input; tags := [] |}]
                     else [])
                 ++ (if Runnables.save_output_to_history config
                     then [{| chat := Runnables.session r; message_type := AI;
                              content := output out; tags := [] |}]
                     else []))%list
       | Raise _ =>
           chat_messages w'
           = (chat_messages w
              ++ (if Runnables.save_input_to_history config
                  then [{| chat := Runnables.session r; message_type := HUMAN;
                           content := input; tags := [] |}]
                  else []))%list
       end.
Proof.
  intros Htag. unfold Runnables.invoke, Runnables._populate_memory,
    Runnables._save_message_to_history. rewrite Htag.
  set (mem := compress_chat_history (env w) (history (Runnables.session r) w)
                (max_token_limit (Runnables.experiment r))).
  set (saved := if Runnables.save_input_to_history config
                then [{| chat := Runnables.session r; message_type := HUMAN;
                         content := input; tags := [] |}]
                else []).
  set (w1 := set_chat_messages (chat_messages w ++ saved)%list w).
  assert (Hw1 : (chat_messages w1 = chat_messages w ++ saved)%list
                /\ sessions w1 = sessions w /\ participants w1 = participants w
                /\ env w1 = env w) by (repeat split).
  destruct Hw1 as (Hc1 & Hs1 & Hp1 & He1).
  destruct (get_output_frame input (Runnables.set_memory mem r) w1)
    as (res & r2 & w2 & Hrun & G1 & G2 & G3 & G4 & G5 & G6 & G7).
  assert (Hpre :
    forall (k : unit -> Runnables.RM ChainOutput),
      bind (bind (on_self Runnables.session)
              (fun sid => bind (on_self Runnables.experiment)
                 (fun e => bind (on_world (gets (fun w0 =>
                      compress_chat_history (env w0) (history sid w0)
                        (max_token_limit e))))
                    (fun messages => set_self (Runnables.set_memory messages)))))
        (fun _ => bind (if Runnables.save_input_to_history config
                        then bind (on_self Runnables.session)
                               (fun sid => bind (on_self Runnables.experiment)
                                  (fun e => bind (on_world (create_chat_message sid HUMAN input))
                                     (fun _ => ret tt)))
                        else ret tt) k) (r, w)
      = k tt (Runnables.set_memory mem r, w1)).
  { intros k. subst w1 saved mem.
    destruct (Runnables.save_input_to_history config);
      cbv beta iota zeta delta
        [bind ret on_self on_world gets set_self fst snd create_chat_message
         modify];
      cbn [Runnables.session Runnables.experiment Runnables.set_memory];
      [reflexivity|].
    rewrite app_nil_r. destruct w; reflexivity. }
  rewrite Hpre. clear Hpre.
  unfold bind at 1. rewrite Hrun.
  destruct res as [out|e].
  - unfold bind at 1. unfold on_self at 1. cbn [fst snd].
    destruct (Runnables.cancelled r2) eqn:Hc2.
    + exists (Raise (GenerationCancelled
                       {| output := fst out; prompt_tokens := fst (snd out);
                          completion_tokens := snd (snd out) |})), r2, w2.
      split; [reflexivity|]. rewrite G3, G5, G4, G6, Hc1.
      repeat split.
    + destruct (Runnables.save_output_to_history config);
        cbv beta iota zeta delta
          [bind ret on_self on_world gets set_self fst snd create_chat_message
           modify];
        eexists; eexists; eexists; (split; [reflexivity|]);
        cbn [sessions participants chat_messages set_chat_messages output];
        rewrite ?G2, ?G3, ?G5, ?G4, ?G6, ?Hc1, ?app_nil_r, <- ?app_assoc;
        repeat split; assumption.
  - exists (Raise e), r2, w2. split; [reflexivity|].
    rewrite G3, G5, G4, G6, Hc1. repeat split.
Qed.

(** The invocation of [test_runnable]: the plain chain on the input
    [hi], with the default configuration. *)
Lemma X3_witness :
  exists res r' w',
    Runnables.invoke "hi" Runnables.default_config
      (Runnables.new_runnable Runnables.SimpleExperimentRunnable
         Fixtures.experiment0 1,
       Fixtures.world1 Fixtures.env0 Fixtures.experiment0 ACTIVE
         Fixtures.telegram_channel)
    = (res, (r', w'))
    /\ Runnables.memory r'
       = compress_chat_history Fixtures.env0
           (history 1 (Fixtures.world1 Fixtures.env0 Fixtures.experiment0
                         ACTIVE Fixtures.telegram_channel))
           (max_token_limit Fixtures.experiment0)
    /\ sessions w'
       = sessions (Fixtures.world1 Fixtures.env0 Fixtures.experiment0 ACTIVE
                     Fixtures.telegram_channel)
    /\ participants w'
       = participants (Fixtures.world1 Fixtures.env0 Fixtures.experiment0
                         ACTIVE Fixtures.telegram_channel)
    /\ match res with
       | Ok out =>
           Runnables.cancelled r' = false
           /\ chat_messages w'
              = [{| chat := 1; message_type := HUMAN; content := "hi";
                    tags := [] |};
                 {| chat := 1; message_type := AI; content := output out;
                    tags := [] |}]
       | Raise _ =>
           chat_messages w'
           = [{| chat := 1; message_type := HUMAN; content := "hi";
                 tags := [] |}]
       end.
Proof.
  apply (X3_invoke_history "hi" Runnables.default_config
           (Runnables.new_runnable Runnables.SimpleExperimentRunnable
              Fixtures.experiment0 1)
           (Fixtures.world1 Fixtures.env0 Fixtures.experiment0 ACTIVE
              Fixtures.telegram_channel)).
  reflexivity.
Defined.

(** *** The retry loop of the hosted assistant *)

Lemma same_tables_refl (w : World) : Obs.same_tables w w.
Proof. repeat split. Qed.

Lemma same_tables_trans (w1 w2 w3 : World) :
  Obs.same_tables w1 w2 -> Obs.same_tables w2 w3 -> Obs.same_tables w1 w3.
Proof.
  unfold Obs.same_tables. intros (A1 & A2 & A3 & A4 & A5) (B1 & B2 & B3 & B4 & B5).
  repeat split; congruence.
Qed.

Lemma poll_cancelling_run (thread_id run_id : string) (a : OpenAiAssistant)
  (more : nat) : forall w,
  exists w' added,
    Runnables.poll_cancelling thread_id run_id
      (inject_Z (assistant_check_every_ms a) / 1000)%Q more w = (Ok tt, w')
    /\ Obs.same_tables w w'
    /\ trace w' = (trace w ++ added)%list
    /\ Forall (Obs.on_thread (Some thread_id) a) added
    /\ assistant_calls w' = assistant_calls w
    /\ cancel_calls w' = cancel_calls w.
Proof.
  induction more as [|more IH]; intros w.
  - eexists; eexists. split; [reflexivity|].
    split; [repeat split|]. split; [reflexivity|].
    repeat split. repeat constructor.
  - cbn [Runnables.poll_cancelling].
    cbv beta iota zeta delta [bind emit modify fst snd].
    match goal with
    | |- context [Runnables.poll_cancelling _ _ _ more ?ww] =>
        destruct (IH ww) as (w' & added & Hrun & Hsame & Htr & Hall & Hc & Hk)
    end.
    rewrite Hrun. exists w'. eexists. split; [reflexivity|].
    split; [exact Hsame|]. split.
    + rewrite Htr. cbn [trace set_trace]. rewrite <- !app_assoc. reflexivity.
    + split; [|split; assumption].
      cbn [app]. constructor; [reflexivity|]. constructor; [reflexivity|].
      exact Hall.
Qed.

Lemma cancel_run_run (a : OpenAiAssistant) (thread_id run_id : string) (w : World) :
  exists w' added,
    Runnables._cancel_run a thread_id run_id w = (Ok tt, w')
    /\ Obs.same_tables w w'
    /\ trace w' = (trace w ++ added)%list
    /\ Forall (Obs.on_thread (Some thread_id) a) added
    /\ assistant_calls w' = assistant_calls w
    /\ cancel_calls w' = S (cancel_calls w).
Proof.
  unfold Runnables._cancel_run.
  cbv beta iota zeta delta [bind emit modify gets fst snd].
  cbn [cancel_calls set_trace env set_cancel_calls].
  destruct (cancelling_reads (env w) (cancel_calls w)) as [|more].
  - eexists; eexists. split; [reflexivity|].
    split; [repeat split|]. split; [reflexivity|].
    repeat split. repeat constructor.
  - match goal with
    | |- context [Runnables.poll_cancelling _ _ _ more ?ww] =>
        destruct (poll_cancelling_run thread_id run_id a more ww)
          as (w' & added & Hrun & Hsame & Htr & Hall & Hc & Hk)
    end.
    rewrite Hrun. exists w'. eexists. split; [reflexivity|].
    split; [exact Hsame|]. split.
    + rewrite Htr. cbn [trace set_trace set_cancel_calls].
      rewrite <- !app_assoc. reflexivity.
    + split; [|split; assumption].
      cbn [app]. constructor; [reflexivity|]. exact Hall.
Qed.

(** An error of the provider is either handled, by one cancellation on the
    thread of the call, or raised with the store as it was. *)
Lemma handle_api_error_run (thread : option string) (a : OpenAiAssistant)
  (body_message : option string) (w : World) :
  (exists w' added,
     Runnables._handle_api_error thread a body_message w = (Ok tt, w')
     /\ Obs.same_tables w w'
     /\ trace w' = (trace w ++ added)%list
     /\ Forall (Obs.on_thread thread a) added
     /\ assistant_calls w' = assistant_calls w
     /\ cancel_calls w' = S (cancel_calls w))
  \/ (exists e, Runnables._handle_api_error thread a body_message w
                = (Raise e, w)).
Proof.
  unfold Runnables._handle_api_error.
  destruct (Runnables.match_thread_busy (Py.or_empty body_message))
    as [[error_thread_id run_id]|]; [|right; eexists; reflexivity].
  destruct thread as [t|]; [|right; eexists; reflexivity].
  destruct (error_thread_id =? t); [|right; eexists; reflexivity].
  left. apply cancel_run_run.
Qed.

Lemma format_input_reads (d : Runnables.InputDict)
  (s : Runnables.Runnable * World) : snd (Runnables.format_input d s) = s.
Proof.
  revert s. unfold Runnables.format_input.
  repeat first
    [ progress intros | reflexivity | apply py_format_reads | apply bind_reads
    | match goal with
      | |- context [if ?x then _ else _] => destruct x
      end ].
Qed.

Lemma format_input_raises (d : Runnables.InputDict)
  (s s' : Runnables.Runnable * World) (e : Exc) :
  Runnables.format_input d s = (Raise e, s') ->
  exists fe, e = format_exc fe.
Proof.
  unfold Runnables.format_input, py_format.
  cbv beta iota zeta delta [bind on_self ret raise fst snd].
  destruct (Py.truthy _); [|discriminate].
  destruct (Py.format _ _) as [fe|v]; [|discriminate].
  intros H. inversion H. eauto.
Qed.

Lemma assistant_call_run (content : string) (th : option string)
  (new_instructions : string) (w : World) :
  exists res w',
    Runnables.assistant_call content th new_instructions w = (res, w')
    /\ Obs.same_tables w w'
    /\ trace w' = (trace w ++ [AssistantInvoke content th new_instructions])%list
    /\ assistant_calls w' = S (assistant_calls w)
    /\ cancel_calls w' = cancel_calls w.
Proof.
  unfold Runnables.assistant_call.
  cbv beta iota zeta delta [bind emit modify gets ret raise fst snd].
  cbn [assistant_calls set_trace env set_assistant_calls].
  destruct (assistant_respond (env w) (assistant_calls w));
    eexists; eexists; (split; [reflexivity|]); repeat split.
Qed.

(** The [except] clauses: the error ends the loop at once, or the rest of
    the loop runs, after one cancellation when the error was a handled
    error of the provider. *)
Lemma on_attempt_error_run {A} (e : Exc) (a : OpenAiAssistant)
  (thread : option string) (again : Runnables.RM A) (n : nat)
  (r : Runnables.Runnable) (w : World) :
  (forall w1, exists res w',
      again (r, w1) = (res, (r, w')) /\ Obs.retried thread a n 0 w1 res w') ->
  exists res w',
    Runnables.on_attempt_error e a thread again (r, w) = (res, (r, w'))
    /\ Obs.retried thread a n
         (match e with BadRequestError _ => 1 | _ => 0 end) w res w'.
Proof.
  intros Hagain.
  assert (Hstop : forall (x : Exc) (slack : nat),
             Obs.retried (A := A) thread a n slack w (Raise x) w).
  { intros x slack. split; [repeat split|]. split.
    - exists []. rewrite app_nil_r. split; [reflexivity|constructor].
    - exists 0, 0. repeat split; try lia. discriminate. }
  assert (Hgo : exists res w',
             again (r, w) = (res, (r, w')) /\ Obs.retried thread a n 0 w res w')
    by apply Hagain.
  unfold Runnables.on_attempt_error.
  destruct e; try (eexists; eexists; split; [reflexivity|apply Hstop]).
  - (* BadRequestError *)
    unfold bind at 1.
    destruct (handle_api_error_run thread a body_message w)
      as [(w1 & added & Hrun & Hsame & Htr & Hall & Hc & Hk)|[x Hrun]].
    + unfold on_world at 1. cbn [fst snd]. rewrite Hrun.
      destruct (Hagain w1) as (res & w' & Hrun2 & Hs2 & (added2 & Ht2 & Ha2)
                               & c & k & Hc2 & Hk2 & Hle & Hkc & Hok).
      exists res, w'. split; [exact Hrun2|].
      split; [exact (same_tables_trans _ _ _ Hsame Hs2)|]. split.
      * exists (added ++ added2)%list. split.
        -- rewrite Ht2, Htr, app_assoc. reflexivity.
        -- apply Forall_app. split; assumption.
      * exists c, (S k). repeat split; try lia.
        intros x Hx. specialize (Hok x Hx). lia.
    + unfold on_world at 1. cbn [fst snd]. rewrite Hrun.
      eexists; eexists. split; [reflexivity|apply Hstop].
  - (* ValueError *)
    destruct (Runnables.search_cancelled msg).
    + eexists; eexists. split; [reflexivity|apply Hstop].
    + exact Hgo.
Qed.

Lemma retried_weaken {A} thread a n m slack w (res : Res A) w' :
  n <= m -> Obs.retried thread a n slack w res w' ->
  Obs.retried thread a m slack w res w'.
Proof.
  intros Hnm (Hs & Ht & c & k & H1 & H2 & H3 & H4 & H5).
  split; [exact Hs|]. split; [exact Ht|].
  exists c, k. repeat split; try assumption. lia.
Qed.

(** The loop with [n] attempts left. *)
Lemma attempts_run (a : OpenAiAssistant) (thread : option string)
  (new_instructions : string) (r : Runnables.Runnable) (n : nat) :
  forall (content : string) (w : World),
  exists res w',
    Runnables.attempts n a content thread new_instructions (r, w)
    = (res, (r, w'))
    /\ Obs.retried thread a n 0 w res w'.
Proof.
  induction n as [|n IH]; intros content w.
  - eexists; eexists. split; [reflexivity|].
    split; [repeat split|]. split.
    + exists []. rewrite app_nil_r. split; [reflexivity|constructor].
    + exists 0, 0. repeat split; try lia. discriminate.
  - cbn [Runnables.attempts].
    match goal with
    | |- context [Runnables.format_input ?d (r, w)] =>
        pose proof (format_input_reads d (r, w)) as Hf;
        destruct (Runnables.format_input d (r, w)) as [[d'|e] st] eqn:Ef
    end; cbn [snd] in Hf; subst st.
    + unfold on_world at 1. cbn [fst snd].
      match goal with
      | |- context [Runnables.assistant_call ?c ?t ?i w] =>
          destruct (assistant_call_run c t i w)
            as (res1 & w1 & Hrun & Hsame & Htr & Hc & Hk)
      end.
      rewrite Hrun. destruct res1 as [response|e].
      * exists (Ok response), w1. split; [reflexivity|].
        split; [exact Hsame|]. split.
        -- eexists. split; [exact Htr|]. constructor; [reflexivity|constructor].
        -- exists 1, 0. repeat split; try lia.
      * destruct (on_attempt_error_run e a thread
                    (Runnables.attempts n a (Runnables.input_value d') thread
                       new_instructions) n r w1
                    (fun w2 => IH (Runnables.input_value d') w2))
          as (res & w' & Hrun2 & Hs2 & (added2 & Ht2 & Ha2)
              & c & k & Hc2 & Hk2 & Hle & Hkc & Hok).
        exists res, w'. split; [exact Hrun2|].
        split; [exact (same_tables_trans _ _ _ Hsame Hs2)|]. split.
        -- eexists. split; [rewrite Ht2, Htr, <- app_assoc; reflexivity|].
           constructor; [reflexivity|exact Ha2].
        -- exists (S c), k. repeat split; try lia.
           ++ destruct e; lia.
           ++ intros x Hx. specialize (Hok x Hx). destruct e; lia.
    + apply format_input_raises in Ef as [fe ->].
      destruct (on_attempt_error_run (format_exc fe) a thread
                  (Runnables.attempts n a content thread new_instructions)
                  n r w (fun w2 => IH content w2))
        as (res & w' & Hrun2 & Hret).
      exists res, w'. split; [exact Hrun2|].
      apply (retried_weaken thread a n (S n)); [lia|].
      destruct fe; exact Hret.
Qed.

(** X4: one invocation of the hosted assistant calls the provider at most
    three times, whatever the provider answers.  A run is cancelled only in
    answer to a failed call, so the cancellations never outnumber the
    calls, and an invocation that ends with a response made at least one
    call more than it cancelled runs. *)
Theorem X4_retries_are_bounded (a : OpenAiAssistant) (content : string)
  (thread : option string) (new_instructions : string)
  (r : Runnables.Runnable) (w : World) :
  exists res w',
    Runnables._get_response_with_retries a content thread new_instructions
      (r, w) = (res, (r, w'))
    /\ assistant_calls w <= assistant_calls w' <= assistant_calls w + 3
    /\ cancel_calls w <= cancel_calls w'
    /\ cancel_calls w' - cancel_calls w
       <= assistant_calls w' - assistant_calls w
    /\ (forall x, res = Ok x ->
        cancel_calls w' - cancel_calls w
        < assistant_calls w' - assistant_calls w).
Proof.
  unfold Runnables._get_response_with_retries.
  destruct (attempts_run a thread new_instructions r 3 content w)
    as (res & w' & Hrun & _ & _ & c & k & Hc & Hk & Hle & Hkc & Hok).
  exists res, w'. split; [exact Hrun|].
  repeat split; try lia.
  intros x Hx. specialize (Hok x Hx). lia.
Qed.

(** X5: the retry loop of the hosted assistant acts on the thread of the
    chat only.  Every call of the assistant is made on that thread (on no
    thread while the chat has none), and every run it cancels or polls is a
    run of that thread: an error that names another thread cancels nothing,
    and a chat without a thread never cancels a run.  The pause between two
    polls is the assistant's interval in seconds.  The tables of the store
    are not written. *)
Theorem X5_retries_stay_on_the_thread (a : OpenAiAssistant) (content : string)
  (thread : option string) (new_instructions : string)
  (r : Runnables.Runnable) (w : World) :
  exists res w' added,
    Runnables._get_response_with_retries a content thread new_instructions
      (r, w) = (res, (r, w'))
    /\ Obs.same_tables w w'
    /\ trace w' = (trace w ++ added)%list
    /\ Forall (Obs.on_thread thread a) added
    /\ (forall t run, In (RunsCancel t run) added -> thread = Some t)
    /\ (thread = None -> forall t run, ~ In (RunsCancel t run) added).
Proof.
  unfold Runnables._get_response_with_retries.
  destruct (attempts_run a thread new_instructions r 3 content w)
    as (res & w' & Hrun & Hsame & (added & Htr & Hall) & _).
  exists res, w', added. split; [exact Hrun|].
  split; [exact Hsame|]. split; [exact Htr|]. split; [exact Hall|].
  assert (Hown : forall t run, In (RunsCancel t run) added -> thread = Some t).
  { intros t run Hin. rewrite Forall_forall in Hall. exact (Hall _ Hin). }
  split; [exact Hown|].
  intros Hnone t run Hin. rewrite (Hown t run Hin) in Hnone. discriminate.
Qed.

(** An error after which the loop returns a response was followed by the
    rest of the loop, on a store with the same environment and the same
    number of calls of the assistant. *)
Lemma on_attempt_error_ok {A} (e : Exc) (a : OpenAiAssistant)
  (thread : option string) (again : Runnables.RM A)
  (r : Runnables.Runnable) (w : World) (x : A)
  (st' : Runnables.Runnable * World) :
  Runnables.on_attempt_error e a thread again (r, w) = (Ok x, st') ->
  exists w1,
    again (r, w1) = (Ok x, st')
    /\ env w1 = env w /\ assistant_calls w1 = assistant_calls w.
Proof.
  unfold Runnables.on_attempt_error. intros H.
  destruct e; try discriminate H.
  - unfold bind at 1 in H. unfold on_world at 1 in H. cbn [fst snd] in H.
    destruct (handle_api_error_run thread a body_message w)
      as [(w1 & added & Hrun & Hsame & _ & _ & Hc & _)|[x' Hrun]];
      rewrite Hrun in H; [|discriminate H].
    exists w1. split; [exact H|]. split; [apply Hsame|exact Hc].
  - destruct (Runnables.search_cancelled msg); [discriminate H|].
    exists w. auto.
Qed.

(** The response the loop returns is the answer to the last call of the
    assistant. *)
Lemma attempts_response (a : OpenAiAssistant) (thread : option string)
  (new_instructions : string) (r : Runnables.Runnable) (n : nat) :
  forall (content : string) (w : World)
         (response : Runnables.OpenAIAssistantFinish)
         (st' : Runnables.Runnable * World),
  Runnables.attempts n a content thread new_instructions (r, w)
  = (Ok response, st') ->
  exists k usage,
    assistant_calls (snd st') = S k /\ assistant_calls w <= k
    /\ assistant_respond (env w) k
       = AssistantFinish (Runnables.thread_id response)
           (Runnables.return_output response) usage.
Proof.
  induction n as [|n IH]; intros content w response st' H;
    [discriminate H|].
  cbn [Runnables.attempts] in H.
  match type of H with
  | context [Runnables.format_input ?d (r, w)] =>
      pose proof (format_input_reads d (r, w)) as Hf;
      destruct (Runnables.format_input d (r, w)) as [[d'|e] st]
  end; cbn [snd] in Hf; subst st.
  - unfold on_world at 1 in H. cbn [fst snd] in H.
    unfold Runnables.assistant_call in H.
    cbv beta iota zeta delta [bind emit modify gets ret raise fst snd] in H.
    cbn [assistant_calls set_trace env set_assistant_calls] in H.
    destruct (assistant_respond (env w) (assistant_calls w))
      as [t o u|e] eqn:Hans.
    + inversion H. subst. exists (assistant_calls w), u.
      cbn. split; [reflexivity|]. split; [lia|exact Hans].
    + apply on_attempt_error_ok in H as (w1 & Hagain & Hev & Hc).
      destruct (IH _ _ _ _ Hagain) as (k & u & Hk & Hle & Hresp).
      exists k, u. split; [exact Hk|].
      cbn [assistant_calls set_assistant_calls env set_trace] in Hc, Hev.
      rewrite Hev in Hresp. split; [lia|exact Hresp].
  - apply on_attempt_error_ok in H as (w1 & Hagain & Hev & Hc).
    destruct (IH _ _ _ _ Hagain) as (k & u & Hk & Hle & Hresp).
    exists k, u. split; [exact Hk|].
    rewrite Hev in Hresp. split; [lia|exact Hresp].
Qed.

(** X6: what a successful invocation of the hosted assistant writes.  The
    input is saved as a human entry when the configuration asks for it, and
    the output is always saved as an AI entry, whatever
    [save_output_to_history] says.  A chat that already has a thread keeps
    it: the session rows are not written.  A chat without a thread gets the
    thread of the response, on its own session row only: the response is
    the finished run that answered the last call of the assistant made by
    the invocation, its thread is the one stored and its output the one
    returned.  Participants are not touched. *)
Theorem X6_assistant_invoke_keeps_the_thread (input : string)
  (config : Runnables.Config) (r r' : Runnables.Runnable) (w w' : World)
  (out : ChainOutput) :
  Runnables.assistant_invoke input config (r, w) = (Ok out, (r', w')) ->
  exists s t,
    find_session (Runnables.session r) w = Some s
    /\ r' = r
    /\ participants w' = participants w
    /\ chat_messages w'
       = (chat_messages w
          ++ (if Runnables.save_input_to_history config
              then [{| chat := Runnables.session r; message_type := HUMAN;
                       content := input; tags := [] |}]
              else [])
          ++ [{| chat := Runnables.session r; message_type := AI;
                 content := output out; tags := [] |}])%list
    /\ sessions w'
       = (if Runnables.truthy_thread (openai_thread_id s)
          then sessions w
          else map (fun x => if (session_id x =? Runnables.session r)%nat
                             then with_thread_id (Some t) x else x)
                 (sessions w))
    /\ exists k usage,
         assistant_calls w' = S k /\ assistant_calls w <= k
         /\ assistant_respond (env w) k
            = AssistantFinish t (output out) usage.
Proof.
  intros H. unfold Runnables.assistant_invoke in H.
  unfold bind at 1 in H. unfold on_self at 1 in H. cbn [fst snd] in H.
  unfold bind at 1 in H. unfold on_self at 1 in H. cbn [fst snd] in H.
  set (saved := if Runnables.save_input_to_history config
                then [{| chat := Runnables.session r; message_type := HUMAN;
                         content := input; tags := [] |}]
                else []).
  set (w1 := set_chat_messages (chat_messages w ++ saved)%list w).
  assert (Hpre : forall (k : unit -> Runnables.RM ChainOutput),
    bind (if Runnables.save_input_to_history config
          then Runnables.base_save_message_to_history input HUMAN
          else ret tt) k (r, w) = k tt (r, w1)).
  { intros k. subst w1 saved. unfold Runnables.base_save_message_to_history.
    destruct (Runnables.save_input_to_history config);
      cbv beta iota zeta delta
        [bind ret on_self on_world fst snd create_chat_message modify];
      [reflexivity|].
    rewrite app_nil_r. destruct w; reflexivity. }
  rewrite Hpre in H. clear Hpre.
  unfold bind at 1 in H. unfold on_world at 1, the_session at 1 in H.
  cbn [fst snd] in H.
  change (find_session (Runnables.session r) w1)
    with (find_session (Runnables.session r) w) in H.
  destruct (find_session (Runnables.session r) w) as [s|] eqn:Hs;
    [|discriminate H].
  destruct (assistant (Runnables.experiment r)) as [a|]; [|discriminate H].
  unfold bind at 1 in H.
  pose proof (participant_data_reads (r, w1)) as Hpd.
  destruct (Runnables.participant_data (r, w1)) as [[pd|e] st];
    cbn [snd] in Hpd; subst st; [|discriminate H].
  unfold bind at 1 in H.
  match type of H with
  | context [py_format ?t ?kw (r, w1)] =>
      pose proof (py_format_reads t kw (r, w1)) as Hf;
      destruct (py_format t kw (r, w1)) as [[instr|e] st]
  end; cbn [snd] in Hf; subst st; [|discriminate H].
  unfold bind at 1 in H. unfold Runnables._get_response_with_retries in H.
  destruct (attempts_run a (openai_thread_id s) instr r 3 input w1)
    as (res & w2 & Hrun & (Hp2 & Hs2 & Hc2 & _) & _).
  rewrite Hrun in H. destruct res as [response|e]; [|discriminate H].
  assert (Hlast : exists k usage,
            assistant_calls w2 = S k /\ assistant_calls w <= k
            /\ assistant_respond (env w) k
               = AssistantFinish (Runnables.thread_id response)
                   (Runnables.return_output response) usage).
  { destruct (attempts_response _ _ _ _ _ _ _ _ _ Hrun)
      as (k & u & Hk & Hle & Hresp).
    exists k, u. split; [exact Hk|]. split; [exact Hle|exact Hresp]. }
  exists s, (Runnables.thread_id response).
  split; [reflexivity|].
  unfold Runnables.base_save_message_to_history in H.
  destruct (Runnables.truthy_thread (openai_thread_id s));
    cbv beta iota zeta delta
      [bind ret on_self on_world fst snd create_chat_message modify
       update_session] in H;
    inversion H; subst; cbn; rewrite ?Hp2, ?Hs2, ?Hc2;
    cbn; rewrite <- ?app_assoc; repeat split; exact Hlast.
Qed.

(** The first invocation on a chat without a thread: the thread of the
    response is stored. *)
Lemma X6_witness :
  exists out r' w',
    Runnables.assistant_invoke "hi" Runnables.default_config
      (Fixtures.assistant_runnable,
       Fixtures.world1 Fixtures.env0 Fixtures.experiment_assistant ACTIVE
         Fixtures.telegram_channel)
    = (Ok out, (r', w'))
    /\ map openai_thread_id (sessions w') = [Some "thread_abc"]
    /\ exists s t,
         find_session (Runnables.session Fixtures.assistant_runnable)
           (Fixtures.world1 Fixtures.env0 Fixtures.experiment_assistant ACTIVE
              Fixtures.telegram_channel) = Some s
         /\ r' = Fixtures.assistant_runnable
         /\ participants w'
            = participants
                (Fixtures.world1 Fixtures.env0 Fixtures.experiment_assistant
                   ACTIVE Fixtures.telegram_channel)
         /\ chat_messages w'
            = (chat_messages
                 (Fixtures.world1 Fixtures.env0 Fixtures.experiment_assistant
                    ACTIVE Fixtures.telegram_channel)
               ++ (if Runnables.save_input_to_history Runnables.default_config
                   then [{| chat := Runnables.session Fixtures.assistant_runnable;
                            message_type := HUMAN;
                            content := "hi"; tags := [] |}]
                   else [])
               ++ [{| chat := Runnables.session Fixtures.assistant_runnable;
                      message_type := AI;
                      content := output out; tags := [] |}])%list
         /\ sessions w'
            = (if Runnables.truthy_thread (openai_thread_id s)
               then sessions
                      (Fixtures.world1 Fixtures.env0
                         Fixtures.experiment_assistant ACTIVE
                         Fixtures.telegram_channel)
               else map (fun x =>
                           if (session_id x
                               =? Runnables.session Fixtures.assistant_runnable)%nat
                           then with_thread_id (Some t) x else x)
                      (sessions
                         (Fixtures.world1 Fixtures.env0
                            Fixtures.experiment_assistant ACTIVE
                            Fixtures.telegram_channel)))
         /\ exists k usage,
              assistant_calls w' = S k
              /\ assistant_calls
                   (Fixtures.world1 Fixtures.env0
                      Fixtures.experiment_assistant ACTIVE
                      Fixtures.telegram_channel) <= k
              /\ assistant_respond
                   (env (Fixtures.world1 Fixtures.env0
                           Fixtures.experiment_assistant ACTIVE
                           Fixtures.telegram_channel)) k
                 = AssistantFinish t (output out) usage.
Proof.
  eexists. eexists. eexists. split; [vm_compute; reflexivity|].
  split; [reflexivity|].
  apply (X6_assistant_invoke_keeps_the_thread "hi" Runnables.default_config
           Fixtures.assistant_runnable).
  vm_compute. reflexivity.
Defined.

(** *** The input formatter *)

Lemma string_app_nil_r (s : string) : s ++ "" = s.
Proof. induction s; simpl; congruence. Qed.

(** Reading a field name up to its closing brace. *)
Lemma format_field (kw : list (string * string)) (name rest : string) :
  Obs.plain_chars name = true ->
  forall acc,
  Py.format_go kw (name ++ "}" ++ rest) (Some acc)
  = if (acc ++ name =? "") then inl Py.UnsupportedField else
    match Py.kwarg (acc ++ name) kw with
    | Some v =>
        match Py.format_go kw rest None with
        | inr out => inr (v ++ out)
        | inl e => inl e
        end
    | None => inl (Py.MissingKey (acc ++ name))
    end.
Proof.
  induction name as [|c name IH]; intros Hp acc.
  - rewrite string_app_nil_r. reflexivity.
  - cbn [Obs.plain_chars] in Hp.
    apply andb_true_iff in Hp as [Hc Hp].
    apply andb_true_iff in Hc as [Hb Hsp].
    unfold Py.is_brace in Hb.
    apply negb_true_iff, orb_false_iff in Hb as [H1 H2].
    apply negb_true_iff in Hsp.
    cbn [append Py.format_go]. rewrite H1, H2, Hsp.
    rewrite (IH Hp), string_app_assoc. reflexivity.
Qed.

Lemma format_literal_raises (kw : list (string * string)) (t rest : string)
  (e : Py.FormatError) :
  Spec.brace_free t = true ->
  Py.format_go kw rest None = inl e ->
  Py.format_go kw (t ++ rest) None = inl e.
Proof.
  induction t as [|c t IH]; simpl; intros Ht Hrest; [assumption|].
  apply andb_true_iff in Ht as [Hc Ht].
  unfold Py.is_brace in Hc. apply negb_true_iff, orb_false_iff in Hc as [H1 H2].
  rewrite H1, H2, (IH Ht Hrest). reflexivity.
Qed.

Lemma format_open (kw : list (string * string)) (c : ascii) (r : string) :
  Ascii.eqb c "{" = false ->
  Py.format_go kw (String "{" (String c r)) None
  = Py.format_go kw (String c r) (Some "").
Proof. intros H. simpl. rewrite H. reflexivity. Qed.

Lemma format_one_field (kw : list (string * string)) (pre name post : string) :
  Spec.brace_free pre = true -> Spec.brace_free post = true ->
  Obs.plain_name name = true ->
  Py.format (pre ++ "{" ++ name ++ "}" ++ post) kw
  = match Py.kwarg name kw with
    | Some v => inr (pre ++ v ++ post)
    | None => inl (Py.MissingKey name)
    end.
Proof.
  intros Hpre Hpost Hname. unfold Obs.plain_name in Hname.
  apply andb_true_iff in Hname as [Hn Hchars].
  apply andb_true_iff in Hn as [Hne _]. apply negb_true_iff in Hne.
  assert (Hfield : Py.format_go kw ("{" ++ name ++ "}" ++ post) None
                   = match Py.kwarg name kw with
                     | Some v => inr (v ++ post)
                     | None => inl (Py.MissingKey name)
                     end).
  { destruct name as [|c name]; [discriminate Hne|].
    pose proof Hchars as Hc. cbn [Obs.plain_chars] in Hc.
    apply andb_true_iff in Hc as [Hc _]. apply andb_true_iff in Hc as [Hb _].
    unfold Py.is_brace in Hb.
    apply negb_true_iff, orb_false_iff in Hb as [H1 _].
    change ("{" ++ String c name ++ "}" ++ post)
      with (String "{" (String c (name ++ "}" ++ post))).
    rewrite (format_open kw c _ H1).
    change (String c (name ++ "}" ++ post))
      with (String c name ++ "}" ++ post).
    rewrite (format_field kw (String c name) post Hchars "").
    cbn [append]. rewrite Hne.
    rewrite (format_literal_only kw post Hpost). reflexivity. }
  unfold Py.format.
  destruct (Py.kwarg name kw) as [v|] eqn:Hk.
  - apply format_literal; assumption.
  - apply format_literal_raises; assumption.
Qed.

(** X7: an input formatter made of literal text around one field.  With
    the field [input] the text handed on is the literal text with the
    input in the place of the field, copied as it is; with any other field
    name the formatter raises a [KeyError] naming the field.  Either way
    the store is left as it was. *)
Theorem X7_input_formatter_wraps_the_input (pre name post : string)
  (d : Runnables.InputDict) (r : Runnables.Runnable) (w : World) :
  input_formatter (Runnables.experiment r) = pre ++ "{" ++ name ++ "}" ++ post ->
  Spec.brace_free pre = true -> Spec.brace_free post = true ->
  Obs.plain_name name = true ->
  Runnables.format_input d (r, w)
  = if name =? "input"
    then (Ok (Runnables.set_input_value
                (pre ++ Runnables.input_value d ++ post) d), (r, w))
    else (Raise (KeyError name), (r, w)).
Proof.
  intros Hf Hpre Hpost Hname.
  unfold Runnables.format_input, py_format.
  cbv beta iota zeta delta [bind on_self ret raise fst snd].
  rewrite Hf.
  assert (Ht : Py.truthy (pre ++ "{" ++ name ++ "}" ++ post) = true).
  { unfold Py.truthy. destruct pre; reflexivity. }
  rewrite Ht, (format_one_field _ pre name post Hpre Hpost Hname).
  cbn [Py.kwarg]. rewrite (String.eqb_sym "input" name).
  destruct (name =? "input"); reflexivity.
Qed.

(** The formatter [Question: {input} Answer briefly.] on the input
    [hi]. *)
Lemma X7_witness :
  Runnables.format_input Cases.input_hi
    (Runnables.new_runnable Runnables.SimpleExperimentRunnable
       Cases.experiment_with_formatter 1, Fixtures.world0)
  = (Ok (Runnables.set_input_value "Question: hi Answer briefly."
           Cases.input_hi),
     (Runnables.new_runnable Runnables.SimpleExperimentRunnable
        Cases.experiment_with_formatter 1, Fixtures.world0)).
Proof.
  apply (X7_input_formatter_wraps_the_input "Question: " "input"
           " Answer briefly." Cases.input_hi
           (Runnables.new_runnable Runnables.SimpleExperimentRunnable
              Cases.experiment_with_formatter 1)
           Fixtures.world0); reflexivity.
Defined.

(** ** More on the channel handler *)

(** *** Delivery of a bot message *)

(** X8: a reply goes out by voice or as text, never both.  It is one
    voice message when the platform can answer by voice, the experiment has
    a synthetic voice and the experiment answers by voice always or, when
    it answers in kind, the user sent a voice message; if the synthesis of
    the voice fails, the text is sent instead.  In every other case the
    text is sent: on Telegram as one message per piece of the text, in
    order; on the classes without a transport not at all.  A reply that is
    to be made by voice for an experiment without a voice provider fails
    before anything is sent.  The tables of the store are not written. *)
Theorem X8_reply_by_voice_or_as_text
  (synthesize_voice : string -> option SynthesizedAudio)
  (text : string) (h : Channels.ChannelBase) (w : World) :
  match Spec.dispatch synthesize_voice h (env w) text with
  | Some calls =>
      (exists w',
         Channels._send_message_to_user synthesize_voice text (h, w)
         = (Ok tt, (h, w'))
         /\ Obs.same_tables w w'
         /\ trace w' = (trace w ++ calls)%list)
      /\ (calls = Spec.sent h (env w) text
          \/ exists voice, synthesize_voice text = Some voice
                           /\ Spec.replies_with_voice h = true
                           /\ calls = [SendVoiceToUser voice])
  | None =>
      Channels._send_message_to_user synthesize_voice text (h, w)
      = (Raise (AttributeError "get_speech_service"), (h, w))
      /\ Spec.replies_with_voice h = true
      /\ voice_provider (Channels.experiment h) = None
  end.
Proof.
  rewrite send_message_to_user_eq. unfold Spec.dispatch.
  destruct (Spec.replies_with_voice h) eqn:Ev.
  - destruct (voice_provider (Channels.experiment h)) eqn:Ep.
    + split.
      * eexists. split; [reflexivity|]. split; [repeat split|reflexivity].
      * destruct (synthesize_voice text) as [voice|] eqn:Es.
        -- right. exists voice. repeat split.
        -- left. reflexivity.
    + repeat split.
  - split.
    + eexists. split; [reflexivity|]. split; [repeat split|reflexivity].
    + left. reflexivity.
Qed.

(** *** Reading the user query *)

Section QueryOnce.

Variable process_input : nat -> string -> bool -> M World string.
Variable synthesize_voice : string -> option SynthesizedAudio.

(** X9: the user query is extracted once.  After a read that gave a query
    that is not empty, every further read gives the same query and has no
    effect: a voice message is fetched and transcribed once, however often
    the handler asks for the query. *)
Theorem X9_user_query_is_extracted_once (h h' : Channels.ChannelBase)
  (w w' : World) (q : string) :
  Channels.user_query process_input synthesize_voice (h, w)
  = (Ok q, (h', w')) ->
  Py.truthy q = true ->
  Channels._user_query h' = Some q
  /\ Channels.user_query process_input synthesize_voice (h', w')
     = (Ok q, (h', w')).
Proof.
  intros Hrun Ht.
  assert (Hq : Channels._user_query h' = Some q).
  { unfold Channels.user_query in Hrun.
    unfold bind at 1 in Hrun. unfold on_self at 1 in Hrun.
    cbn [fst snd] in Hrun.
    assert (Hext : forall st,
      bind (Channels._extract_user_query process_input synthesize_voice)
        (fun q' => bind (set_self (Channels.set_user_query (Some q')))
                     (fun _ => ret q')) st = (Ok q, (h', w')) ->
      Channels._user_query h' = Some q).
    { intros st H. bind_inv H. destruct st0 as [h1 w1].
      cbv beta iota zeta delta [bind set_self ret fst snd] in H.
      inversion H. reflexivity. }
    destruct (Channels._user_query h) as [q0|] eqn:Hq0.
    - destruct (Py.truthy q0).
      + inversion Hrun. subst. exact Hq0.
      + exact (Hext _ Hrun).
    - exact (Hext _ Hrun). }
  split; [exact Hq|].
  apply user_query_cached; assumption.
Qed.

End QueryOnce.

(** A voice message on Telegram: the first read transcribes it, the second
    does not. *)
Lemma X9_witness :
  let h := Channels.set_message
             (Some {| Channels.chat_id := "123";
                      Channels.content_type := Some VOICE;
                      Channels.content_type_unparsed := "voice";
                      Channels.message_text := "";
                      Channels.transcription := Some "Hi there" |})
             (Channels.set_experiment_session (Some 1)
                (Fixtures.telegram_handler Fixtures.experiment0)) in
  let w := Fixtures.world1 Fixtures.env0 Fixtures.experiment0 ACTIVE
             Fixtures.telegram_channel in
  exists h' w',
    Channels.user_query (Bots.process_input Fixtures.experiment0)
      Fixtures.no_voice (h, w) = (Ok "Hi there", (h', w'))
    /\ trace w' = [TranscriptionStarted; TranscriptionFinished "Hi there"]
    /\ Channels._user_query h' = Some "Hi there"
    /\ Channels.user_query (Bots.process_input Fixtures.experiment0)
         Fixtures.no_voice (h', w') = (Ok "Hi there", (h', w')).
Proof.
  cbv zeta. eexists. eexists.
  split; [vm_compute; reflexivity|]. split; [reflexivity|].
  eapply (X9_user_query_is_extracted_once
            (Bots.process_input Fixtures.experiment0) Fixtures.no_voice
            (Channels.set_message
               (Some {| Channels.chat_id := "123";
                        Channels.content_type := Some VOICE;
                        Channels.content_type_unparsed := "voice";
                        Channels.message_text := "";
                        Channels.transcription := Some "Hi there" |})
               (Channels.set_experiment_session (Some 1)
                  (Fixtures.telegram_handler Fixtures.experiment0)))
            _
            (Fixtures.world1 Fixtures.env0 Fixtures.experiment0 ACTIVE
               Fixtures.telegram_channel)).
  - vm_compute. reflexivity.
  - reflexivity.
Defined.

(** *** The first message of a chat *)

Lemma next_id_above {A} (key : A -> nat) (l : list A) (a : A) :
  In a l -> key a < next_id key l.
Proof.
  unfold next_id. induction l as [|b l IH]; simpl; [tauto|].
  intros [->|H]; [lia|]. specialize (IH H). lia.
Qed.

Lemma find_the_key {A} (key : A -> nat) (l : list A) (a : A) :
  NoDup (map key l) -> In a l ->
  find (fun x => key x =? key a)%nat l = Some a.
Proof.
  induction l as [|b l IH]; simpl; intros Hn Hin; [tauto|].
  inversion Hn as [|k ks Hnotin Hn']; subst.
  destruct Hin as [->|Hin].
  - rewrite Nat.eqb_refl. reflexivity.
  - destruct (key b =? key a)%nat eqn:E.
    + apply Nat.eqb_eq in E. exfalso. apply Hnotin. rewrite E.
      apply in_map. exact Hin.
    + apply IH; assumption.
Qed.

Lemma NoDup_add_last {A} (l : list A) (a : A) :
  NoDup l -> ~ In a l -> NoDup (l ++ [a]).
Proof.
  induction l as [|b l IH]; simpl; intros Hn Hin.
  - constructor; [tauto|constructor].
  - inversion Hn as [|k ks Hb Hn']; subst. constructor.
    + rewrite in_app_iff. simpl. intros [H|[H|[]]]; [tauto|].
      apply Hin. left. symmetry. exact H.
    + apply IH; [assumption|]. intros H. apply Hin. right. exact H.
Qed.

Section FirstMessage.

Variable RESET_COMMAND : string.
Variable process_input : nat -> string -> bool -> M World string.
Variable user_already_engaged : World -> nat -> bool.
Variable synthesize_voice : string -> option SynthesizedAudio.

Lemma find_participant_fresh (l : list Participant) (p : Participant) (w : World) :
  (forall a, In a l -> participant_id a <> participant_id p) ->
  find_participant (participant_id p) (set_participants (l ++ [p]) w) = Some p.
Proof.
  intros H. unfold find_participant. cbn [participants set_participants].
  rewrite find_app_none.
  - simpl. rewrite Nat.eqb_refl. reflexivity.
  - intros a Ha. apply Nat.eqb_neq. apply H. exact Ha.
Qed.

(** [get_or_create]: the participant with the identifier and the team, made
    if there was none; participant ids stay keys. *)
Lemma get_or_create_participant_run (ident : string) (team_id : nat) (w : World) :
  NoDup (map participant_id (participants w)) ->
  exists p w',
    Channels.get_or_create_participant ident team_id w = (Ok p, w')
    /\ identifier p = ident /\ participant_team p = team_id
    /\ find_participant (participant_id p) w' = Some p
    /\ (participants w' = participants w
        \/ participants w' = (participants w ++ [p])%list)
    /\ In p (participants w')
    /\ NoDup (map participant_id (participants w'))
    /\ sessions w' = sessions w /\ chat_messages w' = chat_messages w
    /\ trace w' = trace w
    /\ match find (fun x => (identifier x =? ident)
                            && (participant_team x =? team_id)%nat)
                (participants w) with
       | Some known => p = known /\ participants w' = participants w
       | None =>
           participants w' = (participants w ++ [p])%list
           /\ user p = None
           /\ ~ In (participant_id p) (map participant_id (participants w))
       end.
Proof.
  intros Hk. unfold Channels.get_or_create_participant.
  destruct (find _ (participants w)) as [p|] eqn:Hf.
  - apply find_some in Hf as [Hin Hp].
    apply andb_true_iff in Hp as [Hi Ht].
    apply String.eqb_eq in Hi. apply Nat.eqb_eq in Ht.
    exists p, w. split; [reflexivity|].
    split; [exact Hi|]. split; [exact Ht|].
    split; [exact (find_the_key participant_id _ p Hk Hin)|].
    repeat split; auto.
  - assert (Hfresh : ~ In (next_id participant_id (participants w))
                        (map participant_id (participants w))).
    { intros Hin. apply in_map_iff in Hin as [a [Ha Hina]].
      pose proof (next_id_above participant_id _ a Hina). lia. }
    eexists. eexists. split; [reflexivity|].
    split; [reflexivity|]. split; [reflexivity|].
    split.
    { apply (find_participant_fresh (participants w)).
      intros a Ha. cbn [participant_id].
      pose proof (next_id_above participant_id _ a Ha). lia. }
    split; [right; reflexivity|].
    split; [cbn [participants set_participants]; apply in_or_app; right; left; reflexivity|].
    split; [|repeat split; exact Hfresh].
    cbn [participants set_participants]. rewrite map_app.
    apply NoDup_add_last; [exact Hk|exact Hfresh].
Qed.

(** X10: the first message of a chat.  When the handler has no session
    and the experiment has none for the chat id of the message, resolving
    the session creates exactly one session, in SETUP, not ended, on the
    channel of the handler, for the participant with that chat id in the
    team of the experiment: the one the team has, and then the table of
    participants is as it was, or else one new participant with a fresh
    key and no user.  The start of the conversation and then the joining
    of the participant are announced, the history is not written, and the
    next lookup for the chat id finds the new session. *)
Theorem X10_first_message_creates_a_session (h : Channels.ChannelBase)
  (w : World) (m : Channels.Message) :
  Channels.experiment_session h = None ->
  Channels.message h = Some m ->
  Channels.cls h <> Channels.SlackChannel ->
  Channels.latest_session (Channels.experiment h) (Channels.chat_id m) w = None ->
  NoDup (map participant_id (participants w)) ->
  exists h' w' p new,
    Channels.base_ensure_sessions_exists RESET_COMMAND process_input
      user_already_engaged synthesize_voice (h, w) = (Ok tt, (h', w'))
    /\ sessions w' = (sessions w ++ [new])%list
    /\ match Spec.known_participant (Channels.experiment h)
               (Channels.chat_id m) w with
       | Some known => p = known /\ participants w' = participants w
       | None =>
           participants w' = (participants w ++ [p])%list
           /\ user p = None
           /\ ~ In (participant_id p) (map participant_id (participants w))
       end
    /\ In p (participants w')
    /\ identifier p = Channels.chat_id m
    /\ participant_team p = team (Channels.experiment h)
    /\ session_participant new = participant_id p
    /\ session_experiment new = experiment_id (Channels.experiment h)
    /\ status new = SETUP /\ ended_at new = None
    /\ session_channel new = Some (Channels.experiment_channel h)
    /\ ~ In (session_id new) (map session_id (sessions w))
    /\ Channels.experiment_session h' = Some (session_id new)
    /\ chat_messages w' = chat_messages w
    /\ trace w'
       = (trace w
          ++ [EnqueueStaticTrigger (session_id new) CONVERSATION_START;
              EnqueueStaticTrigger (session_id new)
                PARTICIPANT_JOINED_EXPERIMENT])%list
    /\ Channels.latest_session (Channels.experiment h) (Channels.chat_id m) w'
       = Some new.
Proof.
  intros Hes Hm Hcls Hnone Hk.
  destruct (get_or_create_participant_run (Channels.chat_id m)
              (team (Channels.experiment h)) w Hk)
    as (p & w1 & Hgc & Hid & Hteam & Hfp & _ & Hin & Hk1 & Hs1 & Hc1 & Ht1
        & Hps).
  assert (Hchat : forall hh ww,
            Channels.experiment_session hh = None ->
            Channels.message hh = Some m ->
            Channels.cls hh = Channels.cls h ->
            Channels.get_chat_id (hh, ww) = (Ok (Channels.chat_id m), (hh, ww))).
  { intros hh ww H1 H2 H3.
    unfold Channels.get_chat_id, Channels.get_chat_id_from_message,
      Channels.the_message.
    cbv beta iota zeta delta [bind ret raise on_self on_world fst snd].
    rewrite H1, H3.
    destruct (Channels.cls h); try (rewrite H2; reflexivity).
    exfalso. apply Hcls. reflexivity. }
  set (new := {| session_id := next_id session_id (sessions w);
                 session_experiment := experiment_id (Channels.experiment h);
                 session_participant := participant_id p; status := SETUP;
                 ended_at := None;
                 session_channel := Some (Channels.experiment_channel h);
                 no_activity_ping_count := 0; openai_thread_id := None |}).
  exists (Channels.set_experiment_session (Some (session_id new))
            (Channels.set_experiment_session None h)).
  exists (set_trace
            (trace w
             ++ [EnqueueStaticTrigger (session_id new) CONVERSATION_START;
                 EnqueueStaticTrigger (session_id new)
                   PARTICIPANT_JOINED_EXPERIMENT])%list
            (set_sessions (sessions w ++ [new])%list w1)).
  exists p, new.
  split.
  { unfold Channels.base_ensure_sessions_exists.
    unfold bind at 1. unfold on_self at 1. cbn [fst snd].
    rewrite (run_bind _ _ _ _ _ (Hchat h w Hes Hm eq_refl)).
    unfold bind at 1. unfold on_world at 1, gets at 1. cbn [fst snd].
    rewrite Hnone. cbn [option_map].
    unfold bind at 1. unfold set_self at 1. cbn [fst snd].
    unfold Channels._create_new_experiment_session.
    unfold bind at 1. unfold bind at 1. unfold on_self at 1. cbn [fst snd].
    unfold bind at 1.
    destruct h as [c e ec es mo uq ms aws sr].
    cbn [Channels.experiment_session Channels.message Channels.cls
         Channels.experiment Channels.experiment_channel
         Channels.set_experiment_session] in *.
    subst es mo.
    unfold bind at 1.
    match goal with
    | |- context [Channels.get_chat_id (?hh, w)] =>
        rewrite (Hchat hh w eq_refl eq_refl eq_refl)
    end.
    unfold bind at 1. unfold on_world at 1. cbn [fst snd].
    rewrite Hgc.
    cbv beta iota zeta delta
      [bind ret raise on_self on_world set_self gets modify emit fst snd
       Channels.create_session Channels.enqueue_static_triggers
       Channels.the_experiment_session Channels.set_experiment_session
       Channels.experiment_session Channels.experiment
       Channels.experiment_channel Channels.cls Channels.message
       Channels._user_query Channels.messaging_service
       Channels.aws_access_key_id Channels.send_response_to_user].
    subst new. cbn [session_id trace set_trace set_sessions sessions].
    rewrite Hs1, Ht1, <- app_assoc. reflexivity. }
  split; [reflexivity|]. split; [exact Hps|]. split; [exact Hin|].
  split; [exact Hid|]. split; [exact Hteam|].
  repeat (split; [reflexivity|]).
  split.
  { cbn [new session_id]. intros Hi.
    apply in_map_iff in Hi as [a [Ha Hina]].
    pose proof (next_id_above session_id _ a Hina). lia. }
  split; [reflexivity|]. split; [exact Hc1|]. split; [reflexivity|].
  unfold Channels.latest_session.
  cbn [sessions set_trace set_sessions]. rewrite rev_app_distr.
  cbn [rev app find].
  assert (Hmatch : Channels.session_matches (Channels.experiment h)
                     (Channels.chat_id m)
                     (set_trace
                        (trace w
                         ++ [EnqueueStaticTrigger (session_id new) CONVERSATION_START;
                             EnqueueStaticTrigger (session_id new)
                               PARTICIPANT_JOINED_EXPERIMENT])%list
                        (set_sessions (sessions w ++ [new])%list w1)) new
                   = true).
  { unfold Channels.session_matches. cbn [new session_experiment session_participant].
    rewrite Nat.eqb_refl.
    change (find_participant (participant_id p) _)
      with (find_participant (participant_id p) w1).
    rewrite Hfp, Hid. rewrite String.eqb_refl. reflexivity. }
  rewrite Hmatch. reflexivity.
Qed.

End FirstMessage.

(** The first message of [test_incoming_message_adds_channel_info]: an
    empty store, a Telegram message from chat 123. *)
Lemma X10_witness :
  exists h' w',
    Channels.base_ensure_sessions_exists Fixtures.RESET_COMMAND
      (Bots.process_input Fixtures.experiment0) Bots.user_already_engaged
      Fixtures.no_voice
      (Channels.set_message (Some (Fixtures.telegram_message "123" "Hi there"))
         (Fixtures.telegram_handler Fixtures.experiment0), Fixtures.world0)
    = (Ok tt, (h', w'))
    /\ map (fun s => (session_id s, session_participant s, status s,
                      session_channel s)) (sessions w')
       = [(1, 1, SETUP, Some Fixtures.telegram_channel)]
    /\ map (fun p => (participant_id p, identifier p)) (participants w')
       = [(1, "123")]
    /\ Channels.experiment_session h' = Some 1.
Proof.
  destruct (X10_first_message_creates_a_session Fixtures.RESET_COMMAND
              (Bots.process_input Fixtures.experiment0)
              Bots.user_already_engaged Fixtures.no_voice
              (Channels.set_message
                 (Some (Fixtures.telegram_message "123" "Hi there"))
                 (Fixtures.telegram_handler Fixtures.experiment0))
              Fixtures.world0 (Fixtures.telegram_message "123" "Hi there")
              eq_refl eq_refl
              (fun H : Channels.TelegramChannel = Channels.SlackChannel =>
                 eq_ind Channels.TelegramChannel
                   (fun c => match c with
                             | Channels.TelegramChannel => True
                             | _ => False
                             end) I _ H)
              eq_refl (NoDup_nil nat))
    as (h' & w' & p & new & Hrun & _).
  exists h', w'. split; [exact Hrun|].
  vm_compute in Hrun. inversion Hrun. repeat split.
Defined.

(** *** What session resolution leaves behind *)

(** Case analysis on the innermost scrutinee of a run. *)
Ltac inner_case H :=
  match type of H with
  | context [match ?x with _ => _ end] =>
      lazymatch x with
      | context [match _ with _ => _ end] => fail
      | _ => destruct x
      end
  end.

(** A read of the chat id changes nothing. *)
Lemma get_chat_id_frame (st st' : Channels.ChannelBase * World)
  (r : Res string) :
  Channels.get_chat_id st = (r, st') -> st' = st.
Proof.
  destruct st as [h w]. unfold Channels.get_chat_id,
    Channels.get_chat_id_from_message, Channels.the_message.
  cbv beta iota zeta delta [bind ret raise on_self on_world fst snd
    the_session the_participant].
  intros H.
  repeat inner_case H; inversion H; reflexivity.
Qed.

(** A transcript that is returned changed the handler not at all and the
    store in its outward calls only. *)
Lemma voice_transcript_frame (h h1 : Channels.ChannelBase) (w w1 : World)
  (q : string) :
  Channels._get_voice_transcript (h, w) = (Ok q, (h1, w1)) ->
  h1 = h /\ Obs.same_tables w w1.
Proof.
  unfold Channels._get_voice_transcript, Channels.transcription_started,
    Channels.transcription_finished, Channels.the_message.
  cbv beta iota zeta delta [bind ret raise on_self on_world emit modify
    fst snd].
  intros H.
  repeat first [rewrite send_text_to_user_eq in H | inner_case H];
    inversion H; subst; split; try reflexivity; repeat split.
Qed.

Section Resolution.

Variable RESET_COMMAND : string.
Variable process_input : nat -> string -> bool -> M World string.
Variable user_already_engaged : World -> nat -> bool.
Variable synthesize_voice : string -> option SynthesizedAudio.

Lemma extract_user_query_frame (h h1 : Channels.ChannelBase) (w w1 : World)
  (q : string) :
  Channels._extract_user_query process_input synthesize_voice (h, w)
  = (Ok q, (h1, w1)) ->
  h1 = h /\ Obs.same_tables w w1.
Proof.
  unfold Channels._extract_user_query. intros H. bind_inv H.
  assert (Hst : st = (h, w)).
  { unfold Channels.message_content_type, Channels.the_message in Hrun.
    cbv beta iota zeta delta [bind ret raise on_self fst snd] in Hrun.
    repeat inner_case Hrun; inversion Hrun; reflexivity. }
  subst st.
  assert (Htext : Channels.get_message_text (h, w) = (Ok q, (h1, w1)) ->
                  h1 = h /\ Obs.same_tables w w1).
  { unfold Channels.get_message_text, Channels.the_message.
    cbv beta iota zeta delta [bind ret raise on_self fst snd].
    destruct (Channels.message h); intros E; inversion E.
    split; [reflexivity|apply same_tables_refl]. }
  destruct a as [[|]|]; try exact (Htext H).
  unfold try_except in H.
  destruct (Channels._get_voice_transcript (h, w)) as [[t|e] [h2 w2]] eqn:Ev.
  - inversion H. subst. exact (voice_transcript_frame _ _ _ _ _ Ev).
  - unfold bind in H.
    destruct (Channels._inform_user_of_error _ _ _) as [[u|e'] s2];
      discriminate H.
Qed.

(** A query that is returned left the store's tables alone, and changed
    the handler in its cache only. *)
Lemma user_query_frame (h h1 : Channels.ChannelBase) (w w1 : World)
  (q : string) :
  Channels.user_query process_input synthesize_voice (h, w)
  = (Ok q, (h1, w1)) ->
  h1 = Channels.set_user_query (Channels._user_query h1) h
  /\ Obs.same_tables w w1.
Proof.
  unfold Channels.user_query. unfold bind at 1. unfold on_self at 1.
  cbn [fst snd].
  assert (Hext : bind (Channels._extract_user_query process_input
                         synthesize_voice)
                   (fun q' => bind (set_self (Channels.set_user_query (Some q')))
                                (fun _ => ret q')) (h, w)
                 = (Ok q, (h1, w1)) ->
                 h1 = Channels.set_user_query (Channels._user_query h1) h
                 /\ Obs.same_tables w w1).
  { intros H. bind_inv H. destruct st as [h2 w2].
    destruct (extract_user_query_frame _ _ _ _ _ Hrun) as [-> Hw].
    cbv beta iota zeta delta [bind set_self ret fst snd] in H.
    inversion H. subst. split; [reflexivity|exact Hw]. }
  destruct (Channels._user_query h) as [q0|] eqn:Hq0; [|exact Hext].
  destruct (Py.truthy q0); [|exact Hext].
  intros H. inversion H. subst. split; [|apply same_tables_refl].
  destruct h1; cbn in *. subst. reflexivity.
Qed.

(** [_create_new_experiment_session], when it returns: one session more,
    of the experiment and on the channel of the handler, which the handler
    then holds. *)
Lemma create_new_session_run (h h1 : Channels.ChannelBase) (w w1 : World) :
  Channels._create_new_experiment_session (h, w) = (Ok tt, (h1, w1)) ->
  exists new,
    sessions w1 = (sessions w ++ [new])%list
    /\ session_id new = next_id session_id (sessions w)
    /\ session_experiment new = experiment_id (Channels.experiment h)
    /\ session_channel new = Some (Channels.experiment_channel h)
    /\ status new = SETUP /\ ended_at new = None
    /\ h1 = Channels.set_experiment_session (Some (session_id new)) h
    /\ chat_messages w1 = chat_messages w.
Proof.
  unfold Channels._create_new_experiment_session. intros H.
  bind_inv H. cbv [on_self] in Hrun. inversion Hrun. subst a st. clear Hrun.
  bind_inv H. destruct st as [h2 w2].
  assert (Hpid : h2 = h /\ sessions w2 = sessions w
                 /\ chat_messages w2 = chat_messages w).
  { destruct (Channels.experiment_session h) as [sid|].
    - cbv beta iota zeta delta [bind ret on_world the_session fst snd] in Hrun.
      destruct (find_session sid w); inversion Hrun. auto.
    - bind_inv Hrun. apply get_chat_id_frame in Hrun0. subst st.
      bind_inv Hrun.
      unfold on_world, Channels.get_or_create_participant in Hrun0.
      cbn [fst snd] in Hrun0. unfold ret in Hrun.
      destruct (find _ (participants w)); inversion Hrun0; subst;
        inversion Hrun; auto. }
  destruct Hpid as (-> & Hs & Hc).
  cbv beta iota zeta delta [bind ret on_world set_self emit modify fst snd
    Channels.create_session Channels.enqueue_static_triggers] in H.
  inversion H. subst h1 w1. clear H.
  eexists. cbn [sessions set_sessions set_trace chat_messages].
  rewrite Hs, Hc.
  split; [reflexivity|]. cbn [session_id session_experiment session_channel
                               status ended_at].
  repeat split; reflexivity.
Qed.

End Resolution.

Lemma find_session_id (sid : nat) (w : World) (s : ExperimentSession) :
  find_session sid w = Some s -> session_id s = sid.
Proof.
  unfold find_session. intros H. apply find_some in H as [_ H].
  apply Nat.eqb_eq. exact H.
Qed.

Lemma map_session_id_update (sid : nat)
  (f : ExperimentSession -> ExperimentSession) (l : list ExperimentSession) :
  (forall s, session_id (f s) = session_id s) ->
  map session_id
    (map (fun s => if (session_id s =? sid)%nat then f s else s) l)
  = map session_id l.
Proof.
  intros Hf. rewrite map_map. apply map_ext. intros s.
  destruct (session_id s =? sid)%nat; [apply Hf|reflexivity].
Qed.

(** The session made last is the one its key finds. *)
Lemma find_new_session (w w1 : World) (new : ExperimentSession) :
  sessions w1 = (sessions w ++ [new])%list ->
  session_id new = next_id session_id (sessions w) ->
  find_session (session_id new) w1 = Some new.
Proof.
  intros Hs Hid. unfold find_session. rewrite Hs, find_app_none.
  - cbn [find]. rewrite Nat.eqb_refl. reflexivity.
  - intros a Ha. apply Nat.eqb_neq.
    pose proof (next_id_above session_id _ a Ha). lia.
Qed.

Lemma find_session_not_a_key (sid : nat) (w : World) :
  ~ In sid (map session_id (sessions w)) -> find_session sid w = None.
Proof.
  unfold find_session. induction (sessions w) as [|a l IH]; simpl;
    [reflexivity|].
  intros Hn. destruct (session_id a =? sid)%nat eqn:E.
  - apply Nat.eqb_eq in E. tauto.
  - apply IH. tauto.
Qed.

Lemma NoDup_new_session (l : list ExperimentSession) (new : ExperimentSession) :
  NoDup (map session_id l) ->
  session_id new = next_id session_id l ->
  NoDup (map session_id (l ++ [new])).
Proof.
  intros Hk Hid. rewrite map_app. apply NoDup_add_last; [exact Hk|].
  intros Hin. apply in_map_iff in Hin as [a [Ha Hina]].
  pose proof (next_id_above session_id _ a Hina). lia.
Qed.

(** The end of [_ensure_sessions_exists] for a session that was found:
    the session of the handler is read, and given the channel of the
    handler if it had none. *)
Lemma backfill_run (c : ExperimentChannel) (h h' : Channels.ChannelBase)
  (w w' : World) :
  bind Channels.the_experiment_session
    (fun sid => bind (on_world (the_session sid))
       (fun s => match session_channel s with
                 | Some _ => ret tt
                 | None => on_world (update_session sid (with_channel (Some c)))
                 end)) (h, w) = (Ok tt, (h', w')) ->
  exists s0 s,
    h' = h
    /\ Channels.experiment_session h = Some (session_id s0)
    /\ find_session (session_id s0) w = Some s0
    /\ find_session (session_id s0) w' = Some s
    /\ session_id s = session_id s0
    /\ session_experiment s = session_experiment s0
    /\ session_channel s
       = Some match session_channel s0 with Some c0 => c0 | None => c end
    /\ map session_id (sessions w') = map session_id (sessions w)
    /\ chat_messages w' = chat_messages w
    /\ trace w' = trace w.
Proof.
  intros H. bind_inv H. unfold Channels.the_experiment_session in Hrun.
  cbv beta iota zeta delta [bind ret raise on_self fst snd] in Hrun.
  destruct (Channels.experiment_session h) as [sid|] eqn:Hes;
    inversion Hrun. subst a st. clear Hrun.
  bind_inv H. unfold on_world, the_session in Hrun. cbn [fst snd] in Hrun.
  destruct (find_session sid w) as [s0|] eqn:Hf; inversion Hrun.
  subst a st. clear Hrun.
  pose proof (find_session_id _ _ _ Hf) as Hid. subst sid.
  destruct (session_channel s0) as [c0|] eqn:Hc.
  - inversion H. subst. exists s0, s0. rewrite Hc.
    repeat split; try assumption; try reflexivity.
  - cbv beta iota zeta delta [on_world update_session modify fst snd] in H.
    inversion H. subst. exists s0, (with_channel (Some c) s0).
    split; [reflexivity|]. split; [reflexivity|]. split; [exact Hf|].
    split.
    { unfold find_session in *. cbn [sessions set_sessions].
      rewrite (find_map_key session_id) by reflexivity.
      rewrite Hf. reflexivity. }
    cbn [sessions set_sessions chat_messages trace session_id
         session_experiment session_channel with_channel].
    rewrite Hc. repeat split.
    apply map_session_id_update. reflexivity.
Qed.

Section Resolved.

Variable RESET_COMMAND : string.
Variable process_input : nat -> string -> bool -> M World string.
Variable user_already_engaged : World -> nat -> bool.
Variable synthesize_voice : string -> option SynthesizedAudio.

(** X21: what session resolution leaves behind.  Whenever
    [_ensure_sessions_exists] returns, for a message of any type, the
    handler holds a session that is in the store, belongs to the
    experiment of the handler and has a channel, so that the steps that
    follow can read the session and its channel.  The channel is the one
    the session had before the message; a session that had none, and a
    session made for the message, has the channel of the handler.  No
    session is deleted:
    the keys of the table are the keys it had, with the key of the
    handler's session added when the session is new; they stay keys, and
    the history is not written. *)
Theorem X21_resolution_leaves_a_usable_session (h h' : Channels.ChannelBase)
  (w w' : World) :
  NoDup (map session_id (sessions w)) ->
  Channels.base_ensure_sessions_exists RESET_COMMAND process_input
    user_already_engaged synthesize_voice (h, w) = (Ok tt, (h', w')) ->
  exists s,
    Channels.experiment_session h' = Some (session_id s)
    /\ find_session (session_id s) w' = Some s
    /\ session_experiment s = experiment_id (Channels.experiment h)
    /\ session_channel s <> None
    /\ session_channel s
       = Some match find_session (session_id s) w with
              | Some old =>
                  match session_channel old with
                  | Some c0 => c0
                  | None => Channels.experiment_channel h
                  end
              | None => Channels.experiment_channel h
              end
    /\ Channels.experiment h' = Channels.experiment h
    /\ Channels.experiment_channel h' = Channels.experiment_channel h
    /\ (map session_id (sessions w') = map session_id (sessions w)
        \/ map session_id (sessions w')
           = (map session_id (sessions w) ++ [session_id s])%list)
    /\ NoDup (map session_id (sessions w'))
    /\ chat_messages w' = chat_messages w.
Proof.
  intros Hk H. unfold Channels.base_ensure_sessions_exists in H.
  bind_inv H. cbv [on_self] in Hrun. inversion Hrun. subst a st. clear Hrun.
  bind_inv H. apply get_chat_id_frame in Hrun. subst st. rename a into ident.
  bind_inv H. cbv [on_world gets] in Hrun. cbn [fst snd] in Hrun.
  inversion Hrun. subst a st. clear Hrun.
  bind_inv H. cbv [set_self] in Hrun. cbn [fst snd] in Hrun.
  inversion Hrun. subst a st. clear Hrun.
  destruct (Channels.latest_session (Channels.experiment h) ident w)
    as [s0|] eqn:Hfound; cbn [option_map] in H.
  - (* a session was found *)
    assert (Hs0 : find_session (session_id s0) w = Some s0
                  /\ session_experiment s0
                     = experiment_id (Channels.experiment h)).
    { unfold Channels.latest_session in Hfound.
      apply find_some in Hfound as [Hin Hm]. apply in_rev in Hin.
      split; [exact (find_the_key session_id _ s0 Hk Hin)|].
      unfold Channels.session_matches in Hm.
      apply andb_true_iff in Hm as [Hm _]. apply Nat.eqb_eq. exact Hm. }
    destruct Hs0 as [Hrow Hexp].
    bind_inv H. unfold Channels._is_reset_conversation_request in Hrun.
    bind_inv Hrun. destruct st0 as [h1 w1].
    destruct (user_query_frame _ _ _ _ _ _ _ Hrun0) as [Hh1 (_ & Hs1 & Hc1 & _)].
    unfold ret in Hrun. inversion Hrun. subst a st. clear Hrun Hrun0.
    rename a0 into q.
    bind_inv H.
    assert (Hst : st = (h1, w1)).
    { destruct (q =? RESET_COMMAND); cbv [on_world gets ret] in Hrun;
        cbn [fst snd] in Hrun; inversion Hrun; reflexivity. }
    subst st.
    assert (Hes1 : Channels.experiment_session h1 = Some (session_id s0)
                   /\ Channels.experiment h1 = Channels.experiment h
                   /\ Channels.experiment_channel h1
                      = Channels.experiment_channel h).
    { rewrite Hh1. repeat split. }
    destruct Hes1 as (Hes1 & He1 & Hec1).
    bind_inv H. destruct st as [h2 w2].
    destruct ((q =? RESET_COMMAND) && a) eqn:Hreset.
    + (* the reset command of an engaged user *)
      unfold Channels._reset_session in Hrun0. bind_inv Hrun0.
      unfold Channels.the_experiment_session in Hrun1.
      cbv beta iota zeta delta [bind ret raise on_self fst snd] in Hrun1.
      rewrite Hes1 in Hrun1. inversion Hrun1. subst a1 st. clear Hrun1.
      bind_inv Hrun0. destruct st as [h3 w3].
      assert (Hend : h3 = h1
                     /\ map session_id (sessions w3)
                        = map session_id (sessions w)
                     /\ chat_messages w3 = chat_messages w).
      { cbv beta iota zeta delta [on_world end_session bind gets
          update_session modify fst snd] in Hrun1.
        inversion Hrun1. subst.
        cbn [sessions set_sessions set_now chat_messages].
        rewrite Hs1, Hc1. repeat split.
        apply map_session_id_update. reflexivity. }
      destruct Hend as (-> & Hids3 & Hc3). destruct a0.
      destruct (create_new_session_run _ _ _ _ Hrun0)
        as (new & Hs2 & Hid & Hexp2 & Hch2 & _ & _ & Hh2 & Hc2).
      destruct (backfill_run _ _ _ _ _ H)
        as (r0 & r & -> & Hes2 & Hr0 & Hr & Hrid & Hrexp & Hrch & Hids & Hc & _).
      assert (Hnew : find_session (session_id new) w2 = Some new)
        by exact (find_new_session w3 w2 new Hs2 Hid).
      assert (r0 = new).
      { rewrite Hh2 in Hes2. cbn [Channels.experiment_session
          Channels.set_experiment_session] in Hes2.
        inversion Hes2 as [Hsid]. rewrite <- Hsid in Hr0.
        rewrite Hnew in Hr0. inversion Hr0. reflexivity. }
      subst r0. exists r.
      rewrite Hrid. split; [exact Hes2|]. split; [exact Hr|].
      split; [rewrite Hrexp, Hexp2, He1; reflexivity|].
      assert (Hfresh : ~ In (session_id new) (map session_id (sessions w))).
      { rewrite Hid, <- Hids3. intros Hin.
        apply in_map_iff in Hin as [x [Hx Hinx]].
        pose proof (next_id_above session_id _ x Hinx). lia. }
      split; [rewrite Hrch; discriminate|].
      split.
      { rewrite Hrch, Hch2, (find_session_not_a_key _ _ Hfresh).
        rewrite Hec1. reflexivity. }
      split; [rewrite Hh2; exact He1|].
      split; [rewrite Hh2; exact Hec1|].
      assert (Hall : map session_id (sessions w')
                     = (map session_id (sessions w) ++ [session_id new])%list).
      { rewrite Hids, Hs2, map_app, Hids3. reflexivity. }
      split; [right; exact Hall|].
      split; [|rewrite Hc, Hc2; exact Hc3].
      rewrite Hall. apply NoDup_add_last; [exact Hk|].
      rewrite Hid, <- Hids3. intros Hin.
      apply in_map_iff in Hin as [x [Hx Hinx]].
      pose proof (next_id_above session_id _ x Hinx). lia.
    + (* no reset *)
      unfold ret in Hrun0. inversion Hrun0. subst h2 w2. clear Hrun0.
      destruct (backfill_run _ _ _ _ _ H)
        as (r0 & r & -> & Hes2 & Hr0 & Hr & Hrid & Hrexp & Hrch & Hids & Hc & _).
      assert (r0 = s0).
      { rewrite Hes1 in Hes2. inversion Hes2 as [Hsid].
        unfold find_session in Hr0, Hrow. rewrite Hs1, <- Hsid, Hrow in Hr0.
        inversion Hr0. reflexivity. }
      subst r0. exists r.
      rewrite Hrid. split; [exact Hes1|]. split; [exact Hr|].
      split; [rewrite Hrexp; exact Hexp|].
      split; [rewrite Hrch; discriminate|].
      split.
      { rewrite Hrch. unfold find_session in Hrow |- *. rewrite Hrow.
        try rewrite Hec1. reflexivity. }
      split; [exact He1|]. split; [exact Hec1|].
      split; [left; rewrite Hids, Hs1; reflexivity|].
      split; [rewrite Hids, Hs1; exact Hk|].
      rewrite Hc. exact Hc1.
  - (* the first message of the chat *)
    bind_inv H. destruct st as [h1 w1]. destruct a.
    destruct (create_new_session_run _ _ _ _ Hrun)
      as (new & Hs1 & Hid & Hexp1 & Hch1 & _ & _ & Hh1 & Hc1).
    bind_inv H. unfold Channels.the_experiment_session in Hrun0.
    cbv beta iota zeta delta [bind ret raise on_self fst snd] in Hrun0.
    destruct (Channels.experiment_session h1) as [sid|] eqn:Hes1;
      inversion Hrun0. subst a st. clear Hrun0.
    cbv [Channels.enqueue_static_triggers on_world emit modify] in H.
    cbn [fst snd] in H. inversion H. subst h' w'. clear H.
    exists new.
    split; [rewrite Hh1; reflexivity|].
    split.
    { apply (find_new_session w); [|exact Hid].
      cbn [sessions set_trace]. exact Hs1. }
    split; [exact Hexp1|].
    split; [rewrite Hch1; discriminate|].
    split.
    { rewrite Hch1, find_session_not_a_key; [reflexivity|].
      rewrite Hid. intros Hin.
      apply in_map_iff in Hin as [x [Hx Hinx]].
      pose proof (next_id_above session_id _ x Hinx). lia. }
    split; [rewrite Hh1; reflexivity|].
    split; [rewrite Hh1; reflexivity|].
    cbn [sessions set_trace chat_messages]. rewrite Hs1.
    split; [right; apply map_app|].
    split; [exact (NoDup_new_session _ _ Hk Hid)|exact Hc1].
Qed.

End Resolved.

(** A voice message for a session of the data migration: the session is
    found and given the channel of the handler. *)
Lemma X21_witness :
  exists h' w' s,
    Channels.base_ensure_sessions_exists Fixtures.RESET_COMMAND
      (Bots.process_input Fixtures.experiment0) Bots.user_already_engaged
      Fixtures.no_voice (Migrated.handler, Migrated.world)
    = (Ok tt, (h', w'))
    /\ map session_channel (sessions Migrated.world) = [None]
    /\ map session_channel (sessions w') = [Some Fixtures.telegram_channel]
    /\ Channels.experiment_session h' = Some (session_id s)
    /\ find_session (session_id s) w' = Some s
    /\ session_channel s <> None.
Proof.
  pose (out := Channels.base_ensure_sessions_exists Fixtures.RESET_COMMAND
                 (Bots.process_input Fixtures.experiment0)
                 Bots.user_already_engaged Fixtures.no_voice
                 (Migrated.handler, Migrated.world)).
  destruct (X21_resolution_leaves_a_usable_session Fixtures.RESET_COMMAND
              (Bots.process_input Fixtures.experiment0)
              Bots.user_already_engaged Fixtures.no_voice
              Migrated.handler (fst (snd out)) Migrated.world (snd (snd out))
              (NoDup_cons 1 (fun H : In 1 [] => H) (NoDup_nil nat))
              eq_refl)
    as (s & Hes & Hf & _ & Hch & _).
  exists (fst (snd out)), (snd (snd out)), s.
  split; [reflexivity|]. split; [reflexivity|]. split; [reflexivity|].
  split; [exact Hes|]. split; [exact Hf|exact Hch].
Defined.

(** *** The web and Slack handlers *)

(** Unfolding of the handler down to the calls of the bot. *)
Ltac hstep :=
  cbv beta iota zeta delta
    [bind ret raise try_except on_self on_world set_self gets modify emit
     fst snd
     Channels.new_user_message Channels._new_user_message
     Channels._add_message Channels._ensure_sessions_exists
     Channels.is_message_type_supported Channels.message_content_type
     Channels.supported_message_types Channels.the_message
     Channels.the_experiment_session Channels.enqueue_static_triggers
     Channels._handle_supported_message Channels.user_query
     Channels._extract_user_query Channels.get_message_text
     Channels._get_llm_response Channels.submit_input_to_llm
     Channels._get_experiment_response Channels._send_message_to_user
     Channels.voice_replies_supported Channels.send_text_to_user
     Channels._is_reset_conversation_request
     Channels._should_handle_pre_conversation_requirements
     Channels.set_user_query Channels.set_message
     Channels.set_experiment_session
     Channels.cls Channels.experiment Channels.experiment_channel
     Channels.experiment_session Channels.message Channels._user_query
     Channels.messaging_service Channels.aws_access_key_id
     Channels.send_response_to_user
     update_session update_status the_session
     existsb message_type_eqb orb andb negb].

Section WebHandler.

Variable RESET_COMMAND : string.
Variable process_input : nat -> string -> bool -> M World string.
Variable user_already_engaged : World -> nat -> bool.
Variable get_pre_survey_link : ExperimentSession -> string.
Variable synthesize_voice : string -> option SynthesizedAudio.

(** X11: the web and the Slack handlers never look up or create a
    session.  A handler of either class that was built without a session
    refuses every message with a [MessageHandlerException] (the Slack
    handler with the text of the web handler), which the entry point does
    not catch; the store is left as it was. *)
Theorem X11_web_and_slack_need_a_session (h : Channels.ChannelBase)
  (w : World) (m : Channels.Message) :
  Channels.cls h = Channels.WebChannel
  \/ Channels.cls h = Channels.SlackChannel ->
  Channels.experiment_session h = None ->
  Channels.new_user_message RESET_COMMAND process_input user_already_engaged
    get_pre_survey_link synthesize_voice m (h, w)
  = (Raise (MessageHandlerException "WebChannel requires an existing session"),
     (Channels.set_message (Some m) (Channels.set_user_query None h), w)).
Proof.
  intros Hc Hs. destruct h as [c e ec es mo uq ms aws sr].
  cbn [Channels.cls Channels.experiment_session] in *. subst es.
  destruct Hc as [-> | ->]; hstep; reflexivity.
Qed.

(** X12: on the web channel the consent gate and the reset command do not
    exist.  A message to a web handler that has a session is always handed
    to the bot as it is, whatever the status of the session, whether or not
    conversational consent is enabled, and also when it is the reset
    command: the new human message is announced, the bot is run on the
    text with the input saved, the inactivity counter of the session is set
    to zero, the status is left alone, nothing is sent on a transport, and
    the answer of the bot is returned.  An exception of the bot other than
    a cancellation leaves the handler as it is. *)
Theorem X12_web_messages_go_straight_to_the_bot (h : Channels.ChannelBase)
  (w : World) (m : Channels.Message) (sid : nat) :
  Channels.cls h = Channels.WebChannel ->
  platform (Channels.experiment_channel h) = WEB ->
  Channels.experiment_session h = Some sid ->
  let q := Channels.message_text m in
  let h' := Channels.set_user_query (Some q)
              (Channels.set_message (Some m)
                 (Channels.set_user_query None h)) in
  Channels._new_user_message RESET_COMMAND process_input user_already_engaged
    get_pre_survey_link synthesize_voice m (h, w)
  = match process_input sid q true
            (set_trace (trace w
                        ++ [EnqueueStaticTrigger sid NEW_HUMAN_MESSAGE;
                            ProcessInput sid q true])%list w) with
    | (Ok answer, w2) =>
        (Ok (Some answer),
         (h', set_sessions
                (map (fun s => if (session_id s =? sid)%nat
                               then with_ping_count 0 s else s)
                   (sessions w2)) w2))
    | (Raise e, w2) => (Raise e, (h', w2))
    end.
Proof.
  intros Hc Hp Hs q h'. subst q h'.
  destruct h as [c e ec es mo uq ms aws sr].
  cbn [Channels.cls Channels.experiment_session Channels.experiment_channel]
    in *.
  subst c es. hstep. rewrite Hp. cbn [platform_eqb negb]. hstep.
  cbn [trace set_trace]. rewrite <- app_assoc. cbn [app].
  destruct (process_input sid (Channels.message_text m) true _)
    as [[answer|x] w2]; reflexivity.
Qed.

End WebHandler.

(** A web handler without a session, given a message. *)
Lemma X11_witness :
  Channels.new_user_message Fixtures.RESET_COMMAND
    (Bots.process_input Fixtures.experiment0) Bots.user_already_engaged
    Fixtures.pre_survey_link Fixtures.no_voice
    (Fixtures.telegram_message "123" "Hi there")
    (Cases.web_handler_without_session, Fixtures.world0)
  = (Raise (MessageHandlerException "WebChannel requires an existing session"),
     (Channels.set_message (Some (Fixtures.telegram_message "123" "Hi there"))
        (Channels.set_user_query None Cases.web_handler_without_session),
      Fixtures.world0)).
Proof.
  apply (X11_web_and_slack_need_a_session Fixtures.RESET_COMMAND
           (Bots.process_input Fixtures.experiment0) Bots.user_already_engaged
           Fixtures.pre_survey_link Fixtures.no_voice
           Cases.web_handler_without_session Fixtures.world0
           (Fixtures.telegram_message "123" "Hi there")
           (or_introl eq_refl) eq_refl).
Defined.

(** A web session in SETUP of an experiment with conversational consent:
    the message is answered by the bot and the session stays in SETUP. *)
Lemma X12_witness :
  let run :=
    Channels._new_user_message Fixtures.RESET_COMMAND
      (Bots.process_input Fixtures.experiment_consent)
      Bots.user_already_engaged Fixtures.pre_survey_link Fixtures.no_voice
      (Fixtures.telegram_message "123" "Hi there")
      (Cases.web_handler Fixtures.experiment_consent,
       Fixtures.world1 Fixtures.env0 Fixtures.experiment_consent SETUP
         Fixtures.web_channel) in
  fst run = Ok (Some "this is a test message")
  /\ map status (sessions (snd (snd run))) = [SETUP]
  /\ map (fun msg => (message_type msg, content msg))
       (chat_messages (snd (snd run)))
     = [(HUMAN, "Hi there"); (AI, "this is a test message")].
Proof.
  cbv zeta.
  pose proof (X12_web_messages_go_straight_to_the_bot Fixtures.RESET_COMMAND
                (Bots.process_input Fixtures.experiment_consent)
                Bots.user_already_engaged Fixtures.pre_survey_link
                Fixtures.no_voice
                (Cases.web_handler Fixtures.experiment_consent)
                (Fixtures.world1 Fixtures.env0 Fixtures.experiment_consent
                   SETUP Fixtures.web_channel)
                (Fixtures.telegram_message "123" "Hi there") 1
                eq_refl eq_refl eq_refl) as H.
  cbv zeta in H. rewrite H. vm_compute. repeat split.
Defined.

(** *** The reset command on a transport *)

Section ResetCommand.

Variable RESET_COMMAND : string.
Variable process_input : nat -> string -> bool -> M World string.
Variable user_already_engaged : World -> nat -> bool.
Variable get_pre_survey_link : ExperimentSession -> string.
Variable synthesize_voice : string -> option SynthesizedAudio.

(** A handler of a class that resolves its session and that has read its
    text message: the type is supported and the query is the text. *)
Lemma text_message_is_read (h : Channels.ChannelBase) (w : World)
  (m : Channels.Message) :
  Channels.cls h <> Channels.WebChannel ->
  Channels.cls h <> Channels.SlackChannel ->
  Channels.message h = Some m ->
  Channels.content_type m = Some TEXT ->
  existsb (message_type_eqb TEXT) (Channels.supported_message_types h) = true ->
  Channels._user_query h = Some (Channels.message_text m) ->
  Channels.is_message_type_supported (h, w) = (Ok true, (h, w))
  /\ Channels.user_query process_input synthesize_voice (h, w)
     = (Ok (Channels.message_text m), (h, w)).
Proof.
  intros Hw Hs Hm Ht Hsup Hq.
  destruct h as [c e ec es mo uq ms aws sr].
  cbn [Channels.cls Channels.message Channels._user_query] in *. subst mo uq.
  split.
  - unfold Channels.is_message_type_supported, Channels.message_content_type,
      Channels.the_message.
    cbv beta iota zeta delta [bind ret raise on_self on_world fst snd
      Channels.cls Channels.message].
    destruct c; try contradiction; rewrite ?Ht; cbv beta iota zeta;
      try (rewrite Hsup; reflexivity); reflexivity.
  - unfold Channels.user_query, Channels._extract_user_query,
      Channels.message_content_type, Channels.get_message_text,
      Channels.the_message.
    cbv beta iota zeta delta [bind ret raise on_self on_world set_self fst snd
      Channels.cls Channels.message Channels._user_query
      Channels.set_user_query].
    destruct (Py.truthy (Channels.message_text m)); [reflexivity|].
    destruct c; try contradiction; rewrite ?Ht; reflexivity.
Qed.

(** X13: a reset command on a transport is never answered and never
    reaches the bot.  For a text message that is the reset command, sent to
    a new handler of a class other than the web and Slack classes, on a
    channel other than the web channel, when the chat has a session: the
    handler returns nothing, the bot is not run, nothing is sent to the
    user and the history is not written.  Only when the user had engaged is
    anything done at all: the session is ended, a new one is created after
    it for the same participant, and its start is announced. *)
Theorem X13_reset_command_is_not_answered (h : Channels.ChannelBase)
  (w : World) (m : Channels.Message) (s0 : ExperimentSession) :
  Channels.cls h <> Channels.WebChannel ->
  Channels.cls h <> Channels.SlackChannel ->
  platform_eqb (platform (Channels.experiment_channel h)) WEB = false ->
  Channels.experiment_session h = None ->
  Channels.content_type m = Some TEXT ->
  existsb (message_type_eqb TEXT) (Channels.supported_message_types h) = true ->
  Channels.message_text m = RESET_COMMAND ->
  Channels.latest_session (Channels.experiment h) (Channels.chat_id m) w
  = Some s0 ->
  Spec.session_keys w ->
  exists h' w',
    Channels.new_user_message RESET_COMMAND process_input user_already_engaged
      get_pre_survey_link synthesize_voice m (h, w) = (Ok None, (h', w'))
    /\ chat_messages w' = chat_messages w
    /\ participants w' = participants w
    /\ trace w'
       = (trace w
          ++ (if user_already_engaged w (session_id s0)
              then [EnqueueStaticTrigger (next_id session_id (sessions w))
                      CONVERSATION_START]
              else []))%list
    /\ (user_already_engaged w (session_id s0) = false ->
        map status (sessions w') = map status (sessions w)
        /\ map ended_at (sessions w') = map ended_at (sessions w))
    /\ (user_already_engaged w (session_id s0) = true ->
        sessions w'
        = (map (Spec.ended (session_id s0) (now w)) (sessions w)
           ++ [Spec.new_session h s0 w])%list).
Proof.
  intros Hweb Hslack Hplat Hes Ht Hsup Hr Hfound Hk.
  set (h1 := Channels.set_message (Some m) (Channels.set_user_query None h)).
  assert (Hc1 : Channels.cls h1 = Channels.cls h) by reflexivity.
  assert (Hid : Channels.get_chat_id (h1, w)
                = (Ok (Channels.chat_id m), (h1, w))).
  { unfold Channels.get_chat_id, Channels.get_chat_id_from_message,
      Channels.the_message.
    cbv beta iota zeta delta [bind ret raise on_self on_world fst snd].
    subst h1. destruct h as [c e ec es mo uq ms aws sr].
    cbn [Channels.cls Channels.experiment_session] in *. subst es.
    destruct c; try contradiction; reflexivity. }
  pose proof Hfound as Hf. unfold Channels.latest_session in Hf.
  apply find_some in Hf as [Hin0 _]. apply in_rev in Hin0.
  pose proof (find_the_key session_id _ s0 Hk Hin0) as Hrow.
  fold (find_session (session_id s0) w) in Hrow.
  assert (Hadd : exists h2 w2,
    Channels.base_ensure_sessions_exists RESET_COMMAND process_input
      user_already_engaged synthesize_voice (h1, w) = (Ok tt, (h2, w2))
    /\ Channels.cls h2 = Channels.cls h
    /\ Channels.experiment_channel h2 = Channels.experiment_channel h
    /\ Channels.message h2 = Some m
    /\ Channels.supported_message_types h2 = Channels.supported_message_types h
    /\ Channels._user_query h2 = Some (Channels.message_text m)
    /\ w2 = (if user_already_engaged w (session_id s0)
             then Spec.reset_world h1 s0 w
             else Spec.backfill h1 (session_id s0) w)).
  { destruct (user_already_engaged w (session_id s0)) eqn:Heng.
    - eexists. eexists. split.
      + apply (ensure_found_reset RESET_COMMAND process_input
                 user_already_engaged synthesize_voice h1 w m
                 (Channels.chat_id m) s0); auto.
      + repeat split.
    - eexists. eexists. split.
      + apply (ensure_found_no_reset RESET_COMMAND process_input
                 user_already_engaged synthesize_voice h1 w m
                 (Channels.chat_id m) s0); auto.
        rewrite Heng. apply andb_false_r.
      + repeat split. }
  destruct Hadd as (h2 & w2 & Hrun & Hc2 & Hec2 & Hm2 & Hsup2 & Hq2 & Hw2).
  assert (Hw2' : Channels.cls h2 <> Channels.WebChannel) by (rewrite Hc2; exact Hweb).
  assert (Hs2' : Channels.cls h2 <> Channels.SlackChannel) by (rewrite Hc2; exact Hslack).
  rewrite <- Hsup2 in Hsup.
  destruct (text_message_is_read h2 w2 m Hw2' Hs2' Hm2 Ht Hsup Hq2)
    as [Hsupported Hquery].
  exists h2, w2. split.
  { unfold Channels.new_user_message, try_except, Channels._new_user_message.
    assert (Ha : Channels._add_message RESET_COMMAND process_input
                   user_already_engaged synthesize_voice m (h, w)
                 = (Ok tt, (h2, w2))).
    { unfold Channels._add_message, Channels._ensure_sessions_exists.
      cbv beta iota zeta delta [bind set_self on_self fst snd].
      fold h1. rewrite Hc1.
      destruct (Channels.cls h); try contradiction; exact Hrun. }
    rewrite (run_bind _ _ _ _ _ Ha).
    rewrite (run_bind _ _ _ _ _ Hsupported). cbn [negb].
    unfold bind at 1. unfold on_self at 1. cbn [fst snd].
    rewrite Hec2, Hplat. cbn [negb].
    unfold Channels._is_reset_conversation_request.
    unfold bind at 1. rewrite (run_bind _ _ _ _ _ Hquery).
    unfold ret at 1. rewrite Hr, String.eqb_refl. reflexivity. }
  subst w2. destruct (user_already_engaged w (session_id s0)).
  - repeat split; discriminate.
  - destruct (backfill_facts h1 (session_id s0) w) as [Hp [f [Hs Hf]]].
    unfold Spec.backfill.
    split; [destruct (find_session _ w) as [s|];
            [destruct (session_channel s)|]; reflexivity|].
    split; [exact Hp|].
    split; [rewrite app_nil_r;
            destruct (find_session _ w) as [s|];
            [destruct (session_channel s)|]; reflexivity|].
    split; [|intros Heng; discriminate Heng].
    intros _. fold (Spec.backfill h1 (session_id s0) w).
    rewrite Hs, !map_map. split; apply map_ext; intros a; apply Hf.
Qed.

End ResetCommand.

(** The reset command of [test_reset_command_creates_new_experiment_session],
    after the first exchange: no reply, no call of the bot. *)
Lemma X13_witness :
  exists h' w',
    Channels.new_user_message Fixtures.RESET_COMMAND
      (Bots.process_input Fixtures.experiment0) Bots.user_already_engaged
      Fixtures.pre_survey_link Fixtures.no_voice
      (Fixtures.telegram_message "123" Fixtures.RESET_COMMAND)
      (Fixtures.telegram_handler Fixtures.experiment0, Fixtures.world_engaged)
    = (Ok None, (h', w'))
    /\ chat_messages w' = chat_messages Fixtures.world_engaged
    /\ trace w' = [EnqueueStaticTrigger 2 CONVERSATION_START].
Proof.
  destruct (X13_reset_command_is_not_answered Fixtures.RESET_COMMAND
              (Bots.process_input Fixtures.experiment0)
              Bots.user_already_engaged Fixtures.pre_survey_link
              Fixtures.no_voice
              (Fixtures.telegram_handler Fixtures.experiment0)
              Fixtures.world_engaged
              (Fixtures.telegram_message "123" Fixtures.RESET_COMMAND)
              (Fixtures.session1 Fixtures.experiment0 ACTIVE
                 Fixtures.telegram_channel)
              (fun H : Channels.TelegramChannel = Channels.WebChannel =>
                 eq_ind Channels.TelegramChannel
                   (fun c => match c with
                             | Channels.TelegramChannel => True
                             | _ => False
                             end) I _ H)
              (fun H : Channels.TelegramChannel = Channels.SlackChannel =>
                 eq_ind Channels.TelegramChannel
                   (fun c => match c with
                             | Channels.TelegramChannel => True
                             | _ => False
                             end) I _ H)
              eq_refl eq_refl eq_refl eq_refl eq_refl eq_refl
              (NoDup_cons 1 (fun H : In 1 [] => H) (NoDup_nil nat)))
    as (h' & w' & Hrun & Hc & _ & Ht & _).
  exists h', w'. split; [exact Hrun|]. split; [exact Hc|]. exact Ht.
Defined.

(** *** A message when conversational consent is disabled *)

Lemma set_trace_twice (t t' : list Event) (w : World) :
  set_trace t (set_trace t' w) = set_trace t w.
Proof. reflexivity. Qed.

Lemma trace_set_trace (t : list Event) (w : World) : trace (set_trace t w) = t.
Proof. reflexivity. Qed.

Section NoConsent.

Variable RESET_COMMAND : string.
Variable process_input : nat -> string -> bool -> M World string.
Variable user_already_engaged : World -> nat -> bool.
Variable get_pre_survey_link : ExperimentSession -> string.
Variable synthesize_voice : string -> option SynthesizedAudio.

(** X14: without conversational consent a message on a transport makes
    its session active, whatever the status was.  For a text message other
    than the reset command, sent to a new handler of a class other than
    the web and Slack classes, on a channel other than the web channel,
    when the chat has a session: the status of the session is set to
    ACTIVE, also for a session in SETUP, under review or complete; the new
    human message is announced; the bot is run on the text with the input
    saved, on the store that holds the session as ACTIVE; the inactivity
    counter is set to zero and the answer is delivered and returned. *)
Theorem X14_without_consent_the_session_becomes_active
  (h : Channels.ChannelBase) (w : World) (m : Channels.Message)
  (s0 : ExperimentSession) :
  Channels.cls h <> Channels.WebChannel ->
  Channels.cls h <> Channels.SlackChannel ->
  platform_eqb (platform (Channels.experiment_channel h)) WEB = false ->
  conversational_consent_enabled (Channels.experiment h) = false ->
  Channels.experiment_session h = None ->
  Channels.content_type m = Some TEXT ->
  existsb (message_type_eqb TEXT) (Channels.supported_message_types h) = true ->
  (Channels.message_text m =? RESET_COMMAND) = false ->
  Channels.latest_session (Channels.experiment h) (Channels.chat_id m) w
  = Some s0 ->
  Spec.session_keys w ->
  let sid := session_id s0 in
  let q := Channels.message_text m in
  let h1 := Channels.set_message (Some m) (Channels.set_user_query None h) in
  let h2 := Channels.set_user_query (Some q)
              (Channels.set_experiment_session (Some sid) h1) in
  let w2 := Spec.backfill h1 sid w in
  let active :=
    set_sessions
      (map (fun s => if (session_id s =? sid)%nat
                     then with_status ACTIVE s else s) (sessions w2)) w2 in
  find_session sid active
  = option_map (with_status ACTIVE) (find_session sid w2)
  /\ Channels._new_user_message RESET_COMMAND process_input
       user_already_engaged get_pre_survey_link synthesize_voice m (h, w)
     = match process_input sid q true
               (set_trace
                  (trace active
                   ++ [EnqueueStaticTrigger sid NEW_HUMAN_MESSAGE]
                   ++ match Channels.cls h with
                      | Channels.TelegramChannel => [SubmitInputToLlm]
                      | _ => []
                      end
                   ++ [ProcessInput sid q true])%list active) with
       | (Ok answer, w3) =>
           bind (Channels._send_message_to_user synthesize_voice answer)
             (fun _ => ret (Some answer))
             (h2, set_sessions
                    (map (fun s => if (session_id s =? sid)%nat
                                   then with_ping_count 0 s else s)
                       (sessions w3)) w3)
       | (Raise e, w3) => (Raise e, (h2, w3))
       end.
Proof.
  intros Hweb Hslack Hplat Hcons Hes Ht Hsup Hr Hfound Hk sid q h1 h2 w2 active.
  split.
  { subst active. apply find_session_update_status. }
  assert (Hc1 : Channels.cls h1 = Channels.cls h) by reflexivity.
  assert (Hid : Channels.get_chat_id (h1, w)
                = (Ok (Channels.chat_id m), (h1, w))).
  { unfold Channels.get_chat_id, Channels.get_chat_id_from_message,
      Channels.the_message.
    cbv beta iota zeta delta [bind ret raise on_self on_world fst snd].
    subst h1. destruct h as [c e ec es mo uq ms aws sr].
    cbn [Channels.cls Channels.experiment_session] in *. subst es.
    destruct c; try contradiction; reflexivity. }
  pose proof Hfound as Hf. unfold Channels.latest_session in Hf.
  apply find_some in Hf as [Hin0 _]. apply in_rev in Hin0.
  pose proof (find_the_key session_id _ s0 Hk Hin0) as Hrow.
  fold (find_session (session_id s0) w) in Hrow.
  assert (Hrun : Channels.base_ensure_sessions_exists RESET_COMMAND
                   process_input user_already_engaged synthesize_voice (h1, w)
                 = (Ok tt, (h2, w2))).
  { apply (ensure_found_no_reset RESET_COMMAND process_input
             user_already_engaged synthesize_voice h1 w m
             (Channels.chat_id m) s0); auto.
    rewrite Hr. reflexivity. }
  assert (Hw2' : Channels.cls h2 <> Channels.WebChannel) by exact Hweb.
  assert (Hs2' : Channels.cls h2 <> Channels.SlackChannel) by exact Hslack.
  assert (Hread : forall ww,
            Channels.is_message_type_supported (h2, ww) = (Ok true, (h2, ww))
            /\ Channels.user_query process_input synthesize_voice (h2, ww)
               = (Ok q, (h2, ww))).
  { intros ww.
    apply (text_message_is_read process_input synthesize_voice h2 ww m);
      auto. }
  unfold Channels._new_user_message.
  assert (Ha : Channels._add_message RESET_COMMAND process_input
                 user_already_engaged synthesize_voice m (h, w)
               = (Ok tt, (h2, w2))).
  { unfold Channels._add_message, Channels._ensure_sessions_exists.
    cbv beta iota zeta delta [bind set_self on_self fst snd].
    fold h1. rewrite Hc1.
    destruct (Channels.cls h); try contradiction; exact Hrun. }
  rewrite (run_bind _ _ _ _ _ Ha).
  rewrite (run_bind _ _ _ _ _ (proj1 (Hread w2))). cbn [negb].
  unfold bind at 1. unfold on_self at 1. cbn [fst snd].
  change (Channels.experiment_channel h2) with (Channels.experiment_channel h).
  rewrite Hplat. cbn [negb].
  unfold Channels._is_reset_conversation_request.
  unfold bind at 1. rewrite (run_bind _ _ _ _ _ (proj2 (Hread w2))).
  unfold ret at 1. fold q in Hr. rewrite Hr.
  change (Channels.experiment h2) with (Channels.experiment h).
  rewrite Hcons.
  assert (Hsess : forall ww,
            Channels.the_experiment_session (h2, ww) = (Ok sid, (h2, ww)))
    by reflexivity.
  rewrite (run_bind _ _ _ _ _ (Hsess w2)).
  unfold bind at 1. unfold on_world at 1, update_status, update_session,
    modify. cbn [fst snd]. fold active.
  rewrite (run_bind _ _ _ _ _ (Hsess active)).
  unfold bind at 1. unfold Channels.enqueue_static_triggers, on_world at 1,
    emit, modify. cbn [fst snd].
  unfold bind at 1. unfold Channels._handle_supported_message.
  unfold bind at 1.
  match goal with
  | |- context [Channels.user_query _ _ (h2, ?ww)] =>
      rewrite (proj2 (Hread ww))
  end.
  unfold Channels._get_llm_response, Channels._get_experiment_response,
    Channels.submit_input_to_llm.
  destruct h as [c e ec es mo uq ms aws sr].
  cbn [Channels.cls] in *.
  destruct c; try contradiction;
    cbv beta iota zeta delta
      [bind ret on_self on_world emit modify fst snd h2 h1
       Channels.the_experiment_session Channels.set_user_query
       Channels.set_experiment_session Channels.set_message
       Channels.cls Channels.experiment_session Channels.experiment
       Channels.experiment_channel Channels.message Channels._user_query
       Channels.messaging_service Channels.aws_access_key_id
       Channels.send_response_to_user update_session];
    repeat rewrite ?set_trace_twice, ?trace_set_trace;
    rewrite <- ?app_assoc; cbn [app];
    match goal with
    | |- context [process_input ?a ?b ?c ?ww] =>
        destruct (process_input a b c ww) as [[answer|x] w3]
    end;
    try match goal with
        | |- context [Channels._send_message_to_user ?sv ?a ?st] =>
            destruct (Channels._send_message_to_user sv a st) as [[u|x] st']
        end;
    reflexivity.
Qed.

End NoConsent.

(** A message to a session that is complete, in an experiment without
    conversational consent: the session is active afterwards. *)
Lemma X14_witness :
  let run :=
    Channels._new_user_message Fixtures.RESET_COMMAND
      (Bots.process_input Fixtures.experiment0) Bots.user_already_engaged
      Fixtures.pre_survey_link Fixtures.no_voice
      (Fixtures.telegram_message "123" "Hi there")
      (Fixtures.telegram_handler Fixtures.experiment0,
       Fixtures.world1 Fixtures.env0 Fixtures.experiment0 COMPLETE
         Fixtures.telegram_channel) in
  fst run = Ok (Some "this is a test message")
  /\ map status (sessions (snd (snd run))) = [ACTIVE].
Proof.
  cbv zeta.
  destruct (X14_without_consent_the_session_becomes_active
              Fixtures.RESET_COMMAND
              (Bots.process_input Fixtures.experiment0)
              Bots.user_already_engaged Fixtures.pre_survey_link
              Fixtures.no_voice
              (Fixtures.telegram_handler Fixtures.experiment0)
              (Fixtures.world1 Fixtures.env0 Fixtures.experiment0 COMPLETE
                 Fixtures.telegram_channel)
              (Fixtures.telegram_message "123" "Hi there")
              (Fixtures.session1 Fixtures.experiment0 COMPLETE
                 Fixtures.telegram_channel)
              (fun H : Channels.TelegramChannel = Channels.WebChannel =>
                 eq_ind Channels.TelegramChannel
                   (fun c => match c with
                             | Channels.TelegramChannel => True
                             | _ => False
                             end) I _ H)
              (fun H : Channels.TelegramChannel = Channels.SlackChannel =>
                 eq_ind Channels.TelegramChannel
                   (fun c => match c with
                             | Channels.TelegramChannel => True
                             | _ => False
                             end) I _ H)
              eq_refl eq_refl eq_refl eq_refl eq_refl eq_refl eq_refl
              (NoDup_cons 1 (fun H : In 1 [] => H) (NoDup_nil nat)))
    as [_ Hrun].
  rewrite Hrun. vm_compute. split; reflexivity.
Defined.

(** *** A message of an unsupported type *)

Section Unsupported.

Variable RESET_COMMAND : string.
Variable process_input : nat -> string -> bool -> M World string.
Variable user_already_engaged : World -> nat -> bool.
Variable get_pre_survey_link : ExperimentSession -> string.
Variable synthesize_voice : string -> option SynthesizedAudio.

(** The prompt for an unsupported message always formats. *)
Lemma unsupported_prompt_formats (types : string) :
  Py.format Channels.UNSUPPORTED_MESSAGE_BOT_PROMPT [("supported_types", types)]
  = inr (newline
         ++ "Tell the user (in the language being spoken) that they sent an unsupported message."
         ++ newline ++ "You only support " ++ types
         ++ " messages types. Respond only with the message for the user"
         ++ newline).
Proof.
  change Channels.UNSUPPORTED_MESSAGE_BOT_PROMPT
    with ((newline
           ++ "Tell the user (in the language being spoken) that they sent an unsupported message."
           ++ newline ++ "You only support ")
          ++ "{" ++ "supported_types" ++ "}"
          ++ (" messages types. Respond only with the message for the user"
              ++ newline)).
  rewrite format_one_field by reflexivity.
  cbn [Py.kwarg String.eqb Ascii.eqb Bool.eqb].
  rewrite !string_app_assoc. reflexivity.
Qed.

(** X15: a message of a type the channel does not support.  Once the
    session is resolved, the handler records a system entry naming the
    type, runs the bot on a prompt that lists the supported types, with the
    prompt not saved as input, sends the answer as text and returns
    nothing.  The message itself is neither saved nor handed to the bot,
    the new human message is not announced, and neither the reset check nor
    the consent gate is reached: the status of the session is not
    touched by the handler, and the bot answers whatever that status is. *)
Theorem X15_unsupported_message_gets_a_generated_reply
  (m : Channels.Message) (h0 h1 : Channels.ChannelBase) (w0 w1 : World)
  (sid : nat) :
  Channels._add_message RESET_COMMAND process_input user_already_engaged
    synthesize_voice m (h0, w0) = (Ok tt, (h1, w1)) ->
  Channels.is_message_type_supported (h1, w1) = (Ok false, (h1, w1)) ->
  Channels.experiment_session h1 = Some sid ->
  Channels.message h1 = Some m ->
  let prompt :=
    newline
    ++ "Tell the user (in the language being spoken) that they sent an unsupported message."
    ++ newline ++ "You only support "
    ++ Channels.repr_message_types (Channels.supported_message_types h1)
    ++ " messages types. Respond only with the message for the user"
    ++ newline in
  let noted :=
    set_chat_messages
      (chat_messages w1
       ++ [{| chat := sid; message_type := SYSTEM;
              content := "The user sent an unsupported message type: "
                         ++ Channels.content_type_unparsed m;
              tags := [] |}])%list w1 in
  Channels._new_user_message RESET_COMMAND process_input user_already_engaged
    get_pre_survey_link synthesize_voice m (h0, w0)
  = match process_input sid prompt false
            (set_trace (trace noted ++ [ProcessInput sid prompt false])%list
               noted) with
    | (Ok answer, w3) =>
        bind (Channels.send_text_to_user answer) (fun _ => ret None) (h1, w3)
    | (Raise e, w3) => (Raise e, (h1, w3))
    end.
Proof.
  intros Hadd Hsup Hsid Hm prompt noted.
  unfold Channels._new_user_message.
  rewrite (run_bind _ _ _ _ _ Hadd).
  rewrite (run_bind _ _ _ _ _ Hsup). cbn [negb].
  unfold Channels._handle_unsupported_message,
    Channels._unsupported_message_type_response,
    Channels._generate_response_for_user, Channels.the_experiment_session,
    Channels.the_message, py_format.
  cbv beta iota zeta delta
    [bind ret raise on_self on_world emit modify create_chat_message fst snd].
  rewrite Hsid, Hm. cbv beta iota zeta.
  rewrite unsupported_prompt_formats. cbv beta iota zeta.
  rewrite Hsid. cbv beta iota zeta.
  fold noted. fold prompt.
  destruct (process_input sid prompt false _) as [[answer|x] w3];
    [|reflexivity].
  destruct (Channels.send_text_to_user answer (h1, w3)) as [[u|x] st];
    reflexivity.
Qed.

End Unsupported.

(** A photo sent on Telegram to a session in SETUP of an experiment with
    conversational consent: the bot answers, the session stays in SETUP. *)
Lemma X15_witness :
  let run :=
    Channels._new_user_message Fixtures.RESET_COMMAND
      (Bots.process_input Fixtures.experiment_consent)
      Bots.user_already_engaged Fixtures.pre_survey_link Fixtures.no_voice
      Cases.photo_message
      (Fixtures.telegram_handler Fixtures.experiment_consent,
       Fixtures.world1 Fixtures.env0 Fixtures.experiment_consent SETUP
         Fixtures.telegram_channel) in
  fst run = Ok None
  /\ map status (sessions (snd (snd run))) = [SETUP]
  /\ map (fun msg => (message_type msg, content msg))
       (chat_messages (snd (snd run)))
     = [(SYSTEM, "The user sent an unsupported message type: photo");
        (AI, "this is a test message")]
  /\ last (trace (snd (snd run))) SubmitInputToLlm
     = SendTextToUser "this is a test message".
Proof.
  cbv zeta.
  pose proof (X15_unsupported_message_gets_a_generated_reply
                Fixtures.RESET_COMMAND
                (Bots.process_input Fixtures.experiment_consent)
                Bots.user_already_engaged Fixtures.pre_survey_link
                Fixtures.no_voice Cases.photo_message
                (Fixtures.telegram_handler Fixtures.experiment_consent)
                (Channels.set_user_query (Some "")
                   (Channels.set_experiment_session (Some 1)
                      (Channels.set_message (Some Cases.photo_message)
                         (Fixtures.telegram_handler Fixtures.experiment_consent))))
                (Fixtures.world1 Fixtures.env0 Fixtures.experiment_consent
                   SETUP Fixtures.telegram_channel)
                (Fixtures.world1 Fixtures.env0 Fixtures.experiment_consent
                   SETUP Fixtures.telegram_channel)
                1 eq_refl eq_refl eq_refl eq_refl) as H.
  cbv zeta in H. rewrite H. vm_compute. repeat split.
Defined.

(** *** A survey text that does not format *)

Section SurveyText.

Variable process_input : nat -> string -> bool -> M World string.
Variable get_pre_survey_link : ExperimentSession -> string.
Variable synthesize_voice : string -> option SynthesizedAudio.

(** X20: the gate is not atomic.  When the confirmation text of the
    pre-survey names a field other than [survey_link], the reply that gives
    consent raises a [KeyError] naming the field, after the reply was saved
    as a human entry and the session was moved to PENDING_PRE_SURVEY: the
    survey link is neither recorded nor sent, and the session stays in
    PENDING_PRE_SURVEY. *)
Theorem X20_unformattable_survey_text_leaves_the_session_moved
  (h : Channels.ChannelBase) (w : World) (sid : nat) (s : ExperimentSession)
  (q pre name post : string) (survey : Survey) :
  Channels.experiment_session h = Some sid ->
  find_session sid w = Some s ->
  status s = PENDING ->
  Channels._user_query h = Some q -> Py.truthy q = true ->
  Py.strip q = Channels.USER_CONSENT_TEXT ->
  pre_survey (Channels.experiment h) = Some survey ->
  survey_confirmation_text survey = pre ++ "{" ++ name ++ "}" ++ post ->
  Spec.brace_free pre = true -> Spec.brace_free post = true ->
  Obs.plain_name name = true -> (name =? "survey_link") = false ->
  let w' :=
    set_sessions
      (map (fun x => if (session_id x =? sid)%nat
                     then with_status PENDING_PRE_SURVEY x else x)
         (sessions w))
      (set_chat_messages
         (chat_messages w
          ++ [{| chat := sid; message_type := HUMAN; content := q;
                 tags := [] |}])%list w) in
  Channels._handle_pre_conversation_requirements process_input
    get_pre_survey_link synthesize_voice (h, w)
  = (Raise (KeyError name), (h, w'))
  /\ option_map status (find_session sid w') = Some PENDING_PRE_SURVEY.
Proof.
  intros Hsid Hs Hst Hq Ht Hstrip Hsv Htext Hpre Hpost Hname Hne w'.
  split.
  - destruct h as [c e ec es m uq ms aws sr].
    cbn [Channels.experiment_session Channels._user_query Channels.experiment]
      in *.
    subst es uq. unfold Channels._handle_pre_conversation_requirements.
    mstep. rewrite Ht. mstep.
    rewrite find_session_create_chat_message, Hs. mstep.
    rewrite Hst. mstep. rewrite Ht. mstep.
    rewrite Hstrip. unfold Channels.USER_CONSENT_TEXT.
    rewrite String.eqb_refl, Hsv. mstep.
    rewrite find_session_update_status, find_session_create_chat_message, Hs.
    cbn [option_map]. rewrite Hsv, Htext.
    rewrite (format_one_field _ pre name post Hpre Hpost Hname).
    cbn [Py.kwarg]. rewrite (String.eqb_sym "survey_link" name), Hne.
    reflexivity.
  - subst w'. unfold find_session. cbn [sessions set_sessions].
    rewrite (find_map_key session_id) by reflexivity.
    fold (find_session sid w). rewrite Hs. reflexivity.
Qed.

End SurveyText.

(** A confirmation text that greets the participant by name. *)
Lemma X20_witness :
  let e := Fixtures.with_consent
             (Some {| survey_confirmation_text :=
                        "Dear {name}, please take the survey." |})
             "" Fixtures.experiment0 in
  let h := Fixtures.handler_with_query e "1" in
  let w := Fixtures.world1 Fixtures.env0 e PENDING Fixtures.telegram_channel in
  exists w',
    Channels._handle_pre_conversation_requirements (Bots.process_input e)
      Fixtures.pre_survey_link Fixtures.no_voice (h, w)
    = (Raise (KeyError "name"), (h, w'))
    /\ map status (sessions w') = [PENDING_PRE_SURVEY]
    /\ map (fun msg => (message_type msg, content msg)) (chat_messages w')
       = [(HUMAN, "1")]
    /\ trace w' = [].
Proof.
  cbv zeta. eexists. split; [|split; [|split]].
  apply (proj1 (X20_unformattable_survey_text_leaves_the_session_moved
           (Bots.process_input
              (Fixtures.with_consent
                 (Some {| survey_confirmation_text :=
                            "Dear {name}, please take the survey." |})
                 "" Fixtures.experiment0))
           Fixtures.pre_survey_link Fixtures.no_voice
           (Fixtures.handler_with_query
              (Fixtures.with_consent
                 (Some {| survey_confirmation_text :=
                            "Dear {name}, please take the survey." |})
                 "" Fixtures.experiment0) "1")
           (Fixtures.world1 Fixtures.env0
              (Fixtures.with_consent
                 (Some {| survey_confirmation_text :=
                            "Dear {name}, please take the survey." |})
                 "" Fixtures.experiment0) PENDING Fixtures.telegram_channel)
           1
           (Fixtures.session1
              (Fixtures.with_consent
                 (Some {| survey_confirmation_text :=
                            "Dear {name}, please take the survey." |})
                 "" Fixtures.experiment0) PENDING Fixtures.telegram_channel)
           "1" "Dear " "name" ", please take the survey."
           {| survey_confirmation_text :=
                "Dear {name}, please take the survey." |}
           eq_refl eq_refl eq_refl eq_refl eq_refl eq_refl eq_refl eq_refl
           eq_refl eq_refl eq_refl eq_refl)).
  all: reflexivity.
Defined.

(** ** Starting a session *)

Ltac start_step :=
  cbv beta iota zeta delta
    [bind ret raise on_world gets modify emit fst snd
     Start.on_ledger Start.create_participant Start.link_user
     Start.create_session].

Ltac start_step_in H :=
  cbv beta iota zeta delta
    [bind ret raise on_world gets modify emit fst snd
     Start.on_ledger Start.create_participant Start.link_user
     Start.create_session] in H.

(** The transaction, case by case: no participant, one, or several. *)
Lemma start_in_transaction_run (e : Experiment) (c : ExperimentChannel)
  (ident : string) (u : option Start.CustomUser) (st : SessionStatus)
  (tz x : option string) (l : Start.Ledger) (w : World) :
  let l1 := match x with
            | Some ext => Start.add_external_id (next_id session_id (sessions w)) ext l
            | None => l
            end in
  let ledger pid :=
    match tz with
    | Some z => if Py.truthy z then Start.add_timezone pid z l1 else l1
    | None => l1
    end in
  let session pid :=
    {| session_id := next_id session_id (sessions w);
       session_experiment := experiment_id e;
       session_participant := pid; status := st; ended_at := None;
       session_channel := Some c; no_activity_ping_count := 0;
       openai_thread_id := None |} in
  Start.start_in_transaction e c ident u st tz x (l, w)
  = match Start.matching_participants (team e) ident w with
    | [] =>
        let pid := next_id participant_id (participants w) in
        (Ok (pid, next_id session_id (sessions w)),
         (ledger pid,
          set_sessions (sessions w ++ [session pid])%list
            (set_participants
               (participants w
                ++ [{| participant_id := pid; identifier := ident;
                       participant_team := team e;
                       user := option_map Start.user_id u;
                       participant_data_record := None |}])%list w)))
    | [p] =>
        let pid := participant_id p in
        (Ok (pid, next_id session_id (sessions w)),
         (ledger pid,
          set_sessions (sessions w ++ [session pid])%list
            (match u, user p with
             | Some cu, None =>
                 set_participants
                   (map (fun a => if (participant_id a =? pid)%nat
                                  then Start.with_user (Some (Start.user_id cu)) a
                                  else a) (participants w)) w
             | _, _ => w
             end)))
    | _ :: _ :: _ => (Raise (OtherException "MultipleObjectsReturned"), (l, w))
    end.
Proof.
  intros l1 ledger session. subst l1 ledger session.
  unfold Start.start_in_transaction. start_step.
  destruct (Start.matching_participants (team e) ident w) as [|p [|p' rest]];
    [| |reflexivity].
  - destruct x, tz as [z|]; try destruct (Py.truthy z); reflexivity.
  - destruct u as [cu|], (user p), x, tz as [z|];
      try destruct (Py.truthy z); reflexivity.
Qed.

Lemma session_count_new (pid : nat) (s : ExperimentSession) (w w0 : World) :
  session_participant s = pid ->
  Start.session_count pid (set_sessions (sessions w ++ [s])%list w0)
  = S (Start.session_count pid w).
Proof.
  intros Hs. unfold Start.session_count. cbn [sessions set_sessions].
  rewrite filter_app, length_app. cbn [filter]. rewrite Hs, Nat.eqb_refl.
  cbn [length]. lia.
Qed.

Lemma filter_map_same {A} (P : A -> bool) (f : A -> A) (l : list A) :
  (forall a, P (f a) = P a) -> filter P (map f l) = map f (filter P l).
Proof.
  intros H. induction l as [|a l IH]; simpl; [reflexivity|].
  rewrite H. destruct (P a); simpl; congruence.
Qed.

(** A start that returns, spelled out: the session is the next key of
    the table; the participant is the one found, with the user linked if it
    had none, or a new one; the joining is announced when the participant
    had no session. *)
Lemma start_returns (e : Experiment) (c : ExperimentChannel)
  (ident : string) (u : option Start.CustomUser) (st : SessionStatus)
  (tz x : option string) (l l' : Start.Ledger) (w w' : World) (sid : nat) :
  Start._start_experiment_session e c ident u st tz x (l, w)
  = (Ok sid, (l', w')) ->
  exists pid ps,
    sid = next_id session_id (sessions w)
    /\ participants w' = ps
    /\ match Start.matching_participants (team e) ident w with
       | [] =>
           pid = next_id participant_id (participants w)
           /\ ps = (participants w
                    ++ [{| participant_id := pid; identifier := ident;
                           participant_team := team e;
                           user := option_map Start.user_id u;
                           participant_data_record := None |}])%list
       | [p] =>
           pid = participant_id p
           /\ ps = match u, user p with
                   | Some cu, None =>
                       map (fun a => if (participant_id a =? pid)%nat
                                     then Start.with_user
                                            (Some (Start.user_id cu)) a
                                     else a) (participants w)
                   | _, _ => participants w
                   end
       | _ :: _ :: _ => False
       end
    /\ sessions w'
       = (sessions w
          ++ [{| session_id := sid; session_experiment := experiment_id e;
                 session_participant := pid; status := st; ended_at := None;
                 session_channel := Some c; no_activity_ping_count := 0;
                 openai_thread_id := None |}])%list
    /\ chat_messages w' = chat_messages w
    /\ trace w'
       = (trace w
          ++ (if (Start.session_count pid w =? 0)%nat
              then [EnqueueStaticTrigger sid PARTICIPANT_JOINED_EXPERIMENT]
              else [])
          ++ [EnqueueStaticTrigger sid CONVERSATION_START])%list
    /\ Start.external_ids l'
       = (Start.external_ids l
          ++ match x with Some ext => [(sid, ext)] | None => [] end)%list
    /\ Start.timezones l'
       = (Start.timezones l
          ++ match tz with
             | Some z => if Py.truthy z then [(pid, z)] else []
             | None => []
             end)%list
    /\ Start.seed_tasks l' = Start.seed_tasks l
    /\ (Py.truthy ident = true \/ u <> None)
    /\ (forall cu, u = Some cu -> ident = Start.email cu).
Proof.
  unfold Start._start_experiment_session. intros H.
  destruct (negb (Py.truthy ident)
            && match u with None => true | Some _ => false end) eqn:E1;
    [discriminate H|].
  destruct (match u with
            | Some cu => negb (ident =? Start.email cu)
            | None => false
            end) eqn:E2; [discriminate H|].
  unfold bind at 1 in H. rewrite start_in_transaction_run in H.
  assert (Hpre : (Py.truthy ident = true \/ u <> None)
                 /\ (forall cu, u = Some cu -> ident = Start.email cu)).
  { split.
    - destruct (Py.truthy ident); [left; reflexivity|].
      destruct u; [right; discriminate|discriminate E1].
    - intros cu ->. apply negb_false_iff, String.eqb_eq in E2. exact E2. }
  destruct Hpre as [Hp1 Hp2].
  destruct (Start.matching_participants (team e) ident w) as [|p [|p' rest]];
    [| |discriminate H].
  - cbv zeta in H. start_step_in H.
    rewrite session_count_new in H by reflexivity.
    exists (next_id participant_id (participants w)). eexists.
    destruct (Start.session_count (next_id participant_id (participants w)) w)
      as [|n]; cbn [Nat.eqb] in H; start_step_in H; inversion H; subst;
      (split; [reflexivity|]); (split; [reflexivity|]);
      (split; [split; reflexivity|]); (split; [reflexivity|]);
      (split; [reflexivity|]);
      (split; [cbn [trace set_trace set_sessions set_participants];
               rewrite <- ?app_assoc; reflexivity|]);
      (split; [destruct x, tz as [z|]; try destruct (Py.truthy z);
               cbn; rewrite ?app_nil_r; reflexivity|]);
      (split; [destruct x, tz as [z|]; try destruct (Py.truthy z);
               cbn; rewrite ?app_nil_r; reflexivity|]);
      (split; [destruct x, tz as [z|]; try destruct (Py.truthy z);
               reflexivity|]);
      split; assumption.
  - cbv zeta in H. start_step_in H.
    rewrite session_count_new in H by reflexivity.
    exists (participant_id p). eexists.
    destruct (Start.session_count (participant_id p) w) as [|n];
      cbn [Nat.eqb] in H; start_step_in H; inversion H; subst;
      (split; [reflexivity|]); (split; [reflexivity|]);
      (split; [split; [reflexivity|]; destruct u, (user p); reflexivity|]);
      (split; [reflexivity|]);
      (split; [destruct u, (user p); reflexivity|]);
      (split; [cbn [trace set_trace set_sessions set_participants];
               rewrite <- ?app_assoc; destruct u, (user p); reflexivity|]);
      (split; [destruct x, tz as [z|]; try destruct (Py.truthy z);
               cbn; rewrite ?app_nil_r; reflexivity|]);
      (split; [destruct x, tz as [z|]; try destruct (Py.truthy z);
               cbn; rewrite ?app_nil_r; reflexivity|]);
      (split; [destruct x, tz as [z|]; try destruct (Py.truthy z);
               reflexivity|]);
      split; assumption.
Qed.

(** A start either fails, with the store as it was, or returns. *)
Lemma start_outcome (e : Experiment) (c : ExperimentChannel) (ident : string)
  (u : option Start.CustomUser) (st : SessionStatus) (tz x : option string)
  (l : Start.Ledger) (w : World) :
  let run := Start._start_experiment_session e c ident u st tz x (l, w) in
  let nameless := negb (Py.truthy ident)
                  && match u with None => true | Some _ => false end in
  let impersonates := match u with
                      | Some cu => negb (ident =? Start.email cu)
                      | None => false
                      end in
  let ambiguous :=
    (2 <=? length (Start.matching_participants (team e) ident w))%nat in
  (nameless || impersonates || ambiguous = true
   /\ (exists err, run = (Raise err, (l, w)))
   /\ (nameless = true ->
       run = (Raise (ValueError
                "Either participant_identifier or participant_user must be specified!"),
              (l, w))))
  \/ (nameless || impersonates || ambiguous = false
      /\ exists sid st', run = (Ok sid, st')).
Proof.
  intros run nameless impersonates ambiguous.
  subst run. unfold Start._start_experiment_session.
  fold nameless. fold impersonates.
  destruct nameless.
  { left. split; [reflexivity|]. split; [eexists; reflexivity|reflexivity]. }
  destruct impersonates.
  { left. split; [reflexivity|]. split; [eexists; reflexivity|discriminate]. }
  cbn [orb].
  pose proof (start_in_transaction_run e c ident u st tz x l w) as Htx.
  cbv zeta in Htx. subst ambiguous.
  destruct (Start.matching_participants (team e) ident w) as [|p [|p' rest]];
    cbn [length Nat.leb].
  - right. split; [reflexivity|].
    rewrite (run_bind _ _ _ _ _ Htx). start_step.
    match goal with
    | |- context [(?n =? 1)%nat] => destruct (n =? 1)%nat
    end; eexists; eexists; reflexivity.
  - right. split; [reflexivity|].
    rewrite (run_bind _ _ _ _ _ Htx). start_step.
    match goal with
    | |- context [(?n =? 1)%nat] => destruct (n =? 1)%nat
    end; eexists; eexists; reflexivity.
  - left. split; [reflexivity|].
    rewrite (run_bind_raise _ _ _ _ _ Htx).
    split; [eexists; reflexivity|discriminate].
Qed.

(** X16: a start that fails writes nothing.  It fails in exactly three
    cases: neither an identifier nor a user is given (a [ValueError]); a
    user is given whose e-mail is not the identifier; or the team has
    several participants with the identifier.  In each the tables, the
    trace and the ledger are as they were. *)
Theorem X16_failed_start_writes_nothing (e : Experiment)
  (c : ExperimentChannel) (ident : string) (u : option Start.CustomUser)
  (st : SessionStatus) (tz x : option string) (l : Start.Ledger) (w : World) :
  let run := Start._start_experiment_session e c ident u st tz x (l, w) in
  let nameless := negb (Py.truthy ident)
                  && match u with None => true | Some _ => false end in
  let impersonates := match u with
                      | Some cu => negb (ident =? Start.email cu)
                      | None => false
                      end in
  let ambiguous :=
    (2 <=? length (Start.matching_participants (team e) ident w))%nat in
  ((exists err, fst run = Raise err) <->
   nameless || impersonates || ambiguous = true)
  /\ ((exists err, fst run = Raise err) -> snd run = (l, w))
  /\ (nameless = true ->
      fst run
      = Raise (ValueError
          "Either participant_identifier or participant_user must be specified!")).
Proof.
  intros run nameless impersonates ambiguous.
  destruct (start_outcome e c ident u st tz x l w)
    as [(Hcase & (err & Hrun) & Hname) | (Hcase & sid & st' & Hrun)];
    fold run nameless impersonates ambiguous in Hcase, Hrun.
  - fold nameless in Hname. fold run in Hname.
    rewrite Hrun. cbn [fst snd]. split; [split; eauto|].
    split; [reflexivity|].
    intros Hn. specialize (Hname Hn). rewrite Hrun in Hname.
    inversion Hname. reflexivity.
  - rewrite Hrun, Hcase. cbn [fst snd].
    split; [split; [intros [err H]; discriminate H|discriminate]|].
    split; [intros [err H]; discriminate H|].
    intros Hn. rewrite Hn in Hcase. discriminate Hcase.
Qed.

(** X17: a start that returns creates exactly one session, with the
    status asked for, not ended, on the channel given, for the one
    participant that the team then has for the identifier.  A participant
    that existed is used again, not duplicated, and a user it is linked to
    is never replaced; only a participant without a user gets the user
    given.  The history is not written. *)
Theorem X17_start_uses_the_participant_again (e : Experiment)
  (c : ExperimentChannel) (ident : string) (u : option Start.CustomUser)
  (st : SessionStatus) (tz x : option string) (l l' : Start.Ledger)
  (w w' : World) (sid : nat) :
  Start._start_experiment_session e c ident u st tz x (l, w)
  = (Ok sid, (l', w')) ->
  exists p new,
    Start.matching_participants (team e) ident w' = [p]
    /\ match Start.matching_participants (team e) ident w with
       | [] =>
           participants w' = (participants w ++ [p])%list
           /\ user p = option_map Start.user_id u
       | p0 :: _ =>
           length (participants w') = length (participants w)
           /\ participant_id p = participant_id p0
           /\ participant_data_record p = participant_data_record p0
           /\ user p = match user p0 with
                       | Some linked => Some linked
                       | None => option_map Start.user_id u
                       end
       end
    /\ sessions w' = (sessions w ++ [new])%list
    /\ session_id new = sid
    /\ ~ In sid (map session_id (sessions w))
    /\ session_participant new = participant_id p
    /\ session_experiment new = experiment_id e
    /\ status new = st /\ ended_at new = None
    /\ session_channel new = Some c
    /\ chat_messages w' = chat_messages w.
Proof.
  intros H.
  destruct (start_returns e c ident u st tz x l l' w w' sid H)
    as (pid & ps & Hsid & Hps & Hcase & Hs & Hc & _).
  assert (Hfresh : ~ In sid (map session_id (sessions w))).
  { rewrite Hsid. intros Hi. apply in_map_iff in Hi as [a [Ha Hina]].
    pose proof (next_id_above session_id _ a Hina). lia. }
  unfold Start.matching_participants in *. rewrite Hps.
  destruct (filter _ (participants w)) as [|p [|p' rest]] eqn:Hf;
    [| |contradiction].
  - destruct Hcase as [Hpid ->].
    eexists. eexists. split.
    { rewrite filter_app, Hf. cbn [filter app participant_team identifier].
      rewrite Nat.eqb_refl, String.eqb_refl. reflexivity. }
    split; [split; reflexivity|].
    split; [exact Hs|]. repeat split; auto.
  - destruct Hcase as [Hpid ->].
    destruct u as [cu|], (user p) as [linked|] eqn:Hu.
    + exists p. eexists. rewrite Hf. split; [reflexivity|].
      split; [rewrite Hu; repeat split|].
      split; [exact Hs|]. repeat split; auto.
    + exists (Start.with_user (Some (Start.user_id cu)) p). eexists.
      split.
      { rewrite filter_map_same.
        - rewrite Hf. cbn [map]. rewrite Hpid, Nat.eqb_refl. reflexivity.
        - intros a. destruct (participant_id a =? pid)%nat; reflexivity. }
      split; [rewrite length_map; repeat split|].
      split; [exact Hs|]. repeat split; auto.
    + exists p. eexists. rewrite Hf. split; [reflexivity|].
      split; [rewrite Hu; repeat split|].
      split; [exact Hs|]. repeat split; auto.
    + exists p. eexists. rewrite Hf. split; [reflexivity|].
      split; [rewrite Hu; repeat split|].
      split; [exact Hs|]. repeat split; auto.
Qed.

Lemma no_session_yet (pid : nat) (w : World) :
  (Start.session_count pid w =? 0)%nat
  = negb (existsb (fun s => session_participant s =? pid)%nat (sessions w)).
Proof.
  unfold Start.session_count.
  induction (sessions w) as [|a rest IH]; [reflexivity|].
  cbn [filter existsb].
  destruct (session_participant a =? pid)%nat; [reflexivity|exact IH].
Qed.

(** X18: what a start that returns announces and records.  The joining
    of the participant is announced only when the participant had no
    session before, in whatever experiment, and the start of the
    conversation is announced always and last.  The external id is
    recorded when one is given, and the timezone when one is given that is
    not empty; no seed task is queued. *)
Theorem X18_start_announces_the_first_session_only (e : Experiment)
  (c : ExperimentChannel) (ident : string) (u : option Start.CustomUser)
  (st : SessionStatus) (tz x : option string) (l l' : Start.Ledger)
  (w w' : World) (sid : nat) :
  Start._start_experiment_session e c ident u st tz x (l, w)
  = (Ok sid, (l', w')) ->
  exists new,
    sessions w' = (sessions w ++ [new])%list
    /\ trace w'
       = (trace w
          ++ (if existsb (fun s => session_participant s
                                   =? session_participant new)%nat (sessions w)
              then []
              else [EnqueueStaticTrigger sid PARTICIPANT_JOINED_EXPERIMENT])
          ++ [EnqueueStaticTrigger sid CONVERSATION_START])%list
    /\ Start.external_ids l'
       = (Start.external_ids l
          ++ match x with Some ext => [(sid, ext)] | None => [] end)%list
    /\ Start.timezones l'
       = (Start.timezones l
          ++ match tz with
             | Some z =>
                 if Py.truthy z then [(session_participant new, z)] else []
             | None => []
             end)%list
    /\ Start.seed_tasks l' = Start.seed_tasks l.
Proof.
  intros H.
  destruct (start_returns e c ident u st tz x l l' w w' sid H)
    as (pid & ps & Hsid & Hps & Hcase & Hs & Hc & Ht & Hx & Hz & Hseed & _).
  eexists. split; [exact Hs|]. cbn [session_participant].
  split; [|repeat split; assumption].
  rewrite Ht, no_session_yet.
  destruct (existsb _ (sessions w)); reflexivity.
Qed.

(** A start for the participant of the fixtures, who has a session and no
    user: the participant is used again and the user is linked. *)
Lemma X17_witness :
  exists sid l' w',
    Start._start_experiment_session Fixtures.experiment0 Fixtures.web_channel
      "123" (Some {| Start.user_id := 7; Start.email := "123" |}) ACTIVE
      None None
      (Cases.empty_ledger,
       Fixtures.world1 Fixtures.env0 Fixtures.experiment0 ACTIVE
         Fixtures.telegram_channel)
    = (Ok sid, (l', w'))
    /\ map (fun p => (participant_id p, identifier p, user p)) (participants w')
       = [(1, "123", Some 7)]
    /\ map (fun s => (session_id s, session_participant s, status s))
         (sessions w')
       = [(1, 1, ACTIVE); (2, 1, ACTIVE)].
Proof.
  eexists. eexists. eexists. split; [vm_compute; reflexivity|].
  destruct (X17_start_uses_the_participant_again Fixtures.experiment0
              Fixtures.web_channel "123"
              (Some {| Start.user_id := 7; Start.email := "123" |}) ACTIVE
              None None Cases.empty_ledger _
              (Fixtures.world1 Fixtures.env0 Fixtures.experiment0 ACTIVE
                 Fixtures.telegram_channel) _ _ eq_refl)
    as (p & new & _).
  split; reflexivity.
Defined.

(** [SlackChannel.start_new_session] for a participant not seen before:
    the joining and the start are announced and the external id is
    recorded. *)
Lemma X18_witness :
  exists sid l' w',
    Start.slack_start_new_session Fixtures.experiment0 Cases.slack_channel
      "U0123" "C1:1707397208.0"
      (Cases.empty_ledger, Fixtures.world0)
    = (Ok sid, (l', w'))
    /\ trace w' = [EnqueueStaticTrigger 1 PARTICIPANT_JOINED_EXPERIMENT;
                   EnqueueStaticTrigger 1 CONVERSATION_START]
    /\ Start.external_ids l' = [(1, "C1:1707397208.0")].
Proof.
  eexists. eexists. eexists. split; [vm_compute; reflexivity|].
  destruct (X18_start_announces_the_first_session_only Fixtures.experiment0
              Cases.slack_channel "U0123" None ACTIVE None
              (Some "C1:1707397208.0") Cases.empty_ledger _ Fixtures.world0
              _ _ eq_refl)
    as (new & Hs & Ht & Hx & _).
  split; [exact Ht|exact Hx].
Defined.

(** X19: the start of a web session never runs the bot on the seed
    message: the message is queued as a task for the new session, once, and
    only when the experiment has a seed message.  The session is the next
    key of the table, the outward calls of the start are the two
    announcements at most, and a start that fails queues nothing and
    writes nothing. *)
Theorem X19_web_start_queues_the_seed_message (e : Experiment)
  (c : ExperimentChannel) (ident : string) (u : option Start.CustomUser)
  (st : SessionStatus) (tz : option string) (l : Start.Ledger) (w : World) :
  let run := Start.web_start_new_session e c ident u st tz (l, w) in
  ((exists err, fst run = Raise err) -> snd run = (l, w))
  /\ forall sid l' w',
       run = (Ok sid, (l', w')) ->
       sid = next_id session_id (sessions w)
       /\ Start.seed_tasks l'
          = (Start.seed_tasks l
             ++ (if Py.truthy (seed_message e)
                 then [(sid, seed_message e)] else []))%list
       /\ Start.external_ids l' = Start.external_ids l
       /\ chat_messages w' = chat_messages w
       /\ exists joined,
            trace w'
            = (trace w ++ joined
               ++ [EnqueueStaticTrigger sid CONVERSATION_START])%list
            /\ (joined = []
                \/ joined = [EnqueueStaticTrigger sid
                               PARTICIPANT_JOINED_EXPERIMENT]).
Proof.
  intros run. subst run. unfold Start.web_start_new_session.
  destruct (start_outcome e c ident u st tz None l w)
    as [(_ & (err & Hrun) & _) | (_ & sid0 & [l1 w1] & Hrun)];
    cbv zeta in Hrun.
  - rewrite (run_bind_raise _ _ _ _ _ Hrun). cbn [fst snd].
    split; [reflexivity|]. intros sid l' w' H. discriminate H.
  - rewrite (run_bind _ _ _ _ _ Hrun).
    destruct (start_returns e c ident u st tz None l l1 w w1 sid0 Hrun)
      as (pid & ps & Hsid & _ & _ & _ & Hc & Ht & Hx & _ & Hseed & _).
    unfold Start.check_and_process_seed_message, Start.on_ledger.
    cbv beta iota zeta delta [bind ret fst snd].
    split.
    { intros [err H]. destruct (Py.truthy (seed_message e)); discriminate H. }
    intros sid l' w' H.
    assert (Hout : sid = sid0 /\ w' = w1
                   /\ l' = (if Py.truthy (seed_message e)
                            then Start.add_seed_task sid0 (seed_message e) l1
                            else l1)).
    { destruct (Py.truthy (seed_message e)); inversion H; auto. }
    destruct Hout as (-> & -> & ->).
    split; [exact Hsid|].
    split.
    { destruct (Py.truthy (seed_message e)); cbn [Start.seed_tasks Start.add_seed_task];
        rewrite Hseed, ?app_nil_r; reflexivity. }
    split.
    { destruct (Py.truthy (seed_message e)); cbn [Start.external_ids Start.add_seed_task];
        rewrite Hx, app_nil_r; reflexivity. }
    split; [exact Hc|].
    eexists. split; [exact Ht|].
    destruct (Start.session_count pid w =? 0)%nat; auto.
Qed.

(** The start of a web session of an experiment with the seed message
    [Hi human]. *)
Lemma X19_witness :
  exists sid l' w',
    Start.web_start_new_session Fixtures.experiment_consent
      Fixtures.web_channel "123" None ACTIVE None
      (Cases.empty_ledger, Fixtures.world0)
    = (Ok sid, (l', w'))
    /\ Start.seed_tasks l' = [(1, "Hi human")]
    /\ chat_messages w' = [].
Proof.
  eexists. eexists. eexists. split; [vm_compute; reflexivity|].
  destruct (X19_web_start_queues_the_seed_message Fixtures.experiment_consent
              Fixtures.web_channel "123" None ACTIVE None
              Cases.empty_ledger Fixtures.world0) as [_ H].
  destruct (H _ _ _ eq_refl) as (_ & Hseed & _ & Hc & _).
  split; [exact Hseed|exact Hc].
Defined.
